(** * Stock_Analysis: indicator, valuation and scoring rules

    A shallow embedding of the computational core of the two scripts
    [financial_analysis.py] and [stock_analysis.py], and the properties of
    the specification settled against it.

    Numbers.  The scripts compute with binary64 values held in pandas and
    numpy containers.  They are embedded as exact rationals extended with
    the three special values of IEEE arithmetic (NaN, +inf, -inf): the sign
    of zero is not represented, the behaviour of comparisons and of
    divisions by zero is.  Finite results are kept in lowest terms, so that
    two equal numbers are the same term.  The formulas of the indicators
    and of the ratios are taken exactly; the average of the headline
    polarities, whose label depends on the last bit, is computed with the
    roundings of binary64 ([binary64], [np_mean]). *)

From Stdlib Require Import QArith Qreduction Qminmax Qabs Lqa Lia List String Bool ZArith.
From Stdlib Require Qcanon.
Import ListNotations.

(* ===================================================================== *)
(** ** Extended rationals standing for floats *)
(* ===================================================================== *)

Module Float.

Inductive float : Type :=
| NaN
| PInf
| NInf
| Fin (q : Q).

(** A finite value, in lowest terms. *)
Definition fin (q : Q) : float := Fin (Qred q).

Definition of_Z (z : Z) : float := Fin (inject_Z z).

Definition zero : float := of_Z 0.

(** The infinity (or NaN) selected by the sign of a finite operand. *)
Definition inf_of_sign (c : comparison) : float :=
  match c with
  | Gt => PInf
  | Lt => NInf
  | Eq => NaN
  end.

Definition neg (x : float) : float :=
  match x with
  | NaN => NaN
  | PInf => NInf
  | NInf => PInf
  | Fin q => fin (- q)
  end.

Definition add (x y : float) : float :=
  match x, y with
  | NaN, _ | _, NaN => NaN
  | PInf, NInf | NInf, PInf => NaN
  | PInf, _ | _, PInf => PInf
  | NInf, _ | _, NInf => NInf
  | Fin a, Fin b => fin (a + b)
  end.

Definition sub (x y : float) : float :=
  match x, y with
  | NaN, _ | _, NaN => NaN
  | PInf, PInf | NInf, NInf => NaN
  | PInf, _ | _, NInf => PInf
  | NInf, _ | _, PInf => NInf
  | Fin a, Fin b => fin (a - b)
  end.

Definition mul (x y : float) : float :=
  match x, y with
  | NaN, _ | _, NaN => NaN
  | PInf, PInf | NInf, NInf => PInf
  | PInf, NInf | NInf, PInf => NInf
  | PInf, Fin b | Fin b, PInf => inf_of_sign (b ?= 0)
  | NInf, Fin b | Fin b, NInf => inf_of_sign (CompOpp (b ?= 0))
  | Fin a, Fin b => fin (a * b)
  end.

(** IEEE division: a finite non-zero number over zero is an infinity, zero
    over zero is NaN, a finite number over an infinity is zero. *)
Definition div (x y : float) : float :=
  match x, y with
  | NaN, _ | _, NaN => NaN
  | (PInf | NInf), (PInf | NInf) => NaN
  | Fin _, (PInf | NInf) => zero
  | PInf, Fin b => match b ?= 0 with Lt => NInf | _ => PInf end
  | NInf, Fin b => match b ?= 0 with Lt => PInf | _ => NInf end
  | Fin a, Fin b =>
      if Qeq_bool b 0 then inf_of_sign (a ?= 0) else fin (a / b)
  end.

(** Comparisons: every comparison with NaN is false, except [!=]. *)
Definition ltb (x y : float) : bool :=
  match x, y with
  | NaN, _ | _, NaN => false
  | _, NInf => false
  | NInf, _ => true
  | PInf, _ => false
  | Fin _, PInf => true
  | Fin a, Fin b => match a ?= b with Lt => true | _ => false end
  end.

Definition gtb (x y : float) : bool := ltb y x.

Definition eqb (x y : float) : bool :=
  match x, y with
  | PInf, PInf | NInf, NInf => true
  | Fin a, Fin b => Qeq_bool a b
  | _, _ => false
  end.

Definition neb (x y : float) : bool := negb (eqb x y).

Definition is_nan (x : float) : bool :=
  match x with NaN => true | _ => false end.

(** *** Rounding to binary64 *)

(** The integer nearest to [n / d], for [d > 0]; of two nearest integers,
    the even one. *)
Definition round_half_even (n d : Z) : Z :=
  let q := (n / d)%Z in
  match (2 * (n mod d) ?= d)%Z with
  | Lt => q
  | Gt => (q + 1)%Z
  | Eq => if Z.even q then q else (q + 1)%Z
  end.

(** The magnitudes of the binary64 numbers, counted in units of [2^-1074]
    (the smallest subnormal), are the integers [m * 2^k] with [m < 2^53]
    and [0 <= k <= 2045].  The rounding of [n / d] in these units: with 53
    significant bits, or to a multiple of the unit in the subnormal
    range. *)
Definition binary64_units (n : Z) (d : positive) : Z :=
  let s := (n * 2 ^ 1074)%Z in
  let k := Z.max 0 (Z.log2 (s / Z.pos d) - 52) in
  (round_half_even s (Z.pos d * 2 ^ k) * 2 ^ k)%Z.

(** The binary64 number nearest to [q], ties to even; an infinity when the
    rounded magnitude reaches [2^1024]. *)
Definition binary64 (q : Q) : float :=
  let v := binary64_units (Z.abs (Qnum q)) (Qden q) in
  if (2 ^ 2098 <=? v)%Z then (if (0 <? Qnum q)%Z then PInf else NInf)
  else fin (inject_Z (Z.sgn (Qnum q) * v) / inject_Z (2 ^ 1074)).


(** The result of an operation on binary64 numbers: the exact result,
    rounded. *)
Definition round64 (x : float) : float :=
  match x with
  | Fin q => binary64 q
  | _ => x
  end.

Definition add64 (x y : float) : float := round64 (add x y).

Definition div64 (x y : float) : float := round64 (div x y).

End Float.

Import Float.

(* ===================================================================== *)
(** ** Python values and exceptions *)
(* ===================================================================== *)

(** The values the scripts pass around where a number is expected: [None]
    or a number (which may be NaN). *)
Inductive pyval : Type :=
| PNone
| PNum (x : float).

Definition number (q : Q) : pyval := PNum (fin q).

Inductive exn : Type :=
| TypeError
| ZeroDivisionError
| IndexError.

Inductive result (A : Type) : Type :=
| Ok (a : A)
| Raise (e : exn).

Arguments Ok {A} a.
Arguments Raise {A} e.

Definition bind {A B : Type} (c : result A) (k : A -> result B) : result B :=
  match c with
  | Ok a => k a
  | Raise e => Raise e
  end.

Declare Scope py_scope.
Delimit Scope py_scope with py.
Notation "x <- c ;; k" := (bind c (fun x => k))
  (at level 61, c at next level, right associativity) : py_scope.

(** Truth value of an operand of [and], [if]: [None] and zero are false,
    every other number is true, NaN included. *)
Definition truthy (v : pyval) : bool :=
  match v with
  | PNone => false
  | PNum x => neb x zero
  end.

(** [v is None] *)
Definition is_none (v : pyval) : bool :=
  match v with
  | PNone => true
  | PNum _ => false
  end.

(** [v != 0]: [None != 0] is true. *)
Definition py_ne0 (v : pyval) : bool :=
  match v with
  | PNone => true
  | PNum x => neb x zero
  end.

(** [v > c] and [v < c] against a numeric literal: ordering [None] against
    a number raises [TypeError]. *)
Definition py_gt (v : pyval) (c : float) : result bool :=
  match v with
  | PNone => Raise TypeError
  | PNum x => Ok (gtb x c)
  end.

Definition py_lt (v : pyval) (c : float) : result bool :=
  match v with
  | PNone => Raise TypeError
  | PNum x => Ok (ltb x c)
  end.

(** [a and b] where [b] is evaluated only when [a] is true. *)
Definition and_then (a : bool) (b : result bool) : result bool :=
  if a then b else Ok false.

(** [a or b] where [b] is evaluated only when [a] is false. *)
Definition or_else (a : bool) (b : result bool) : result bool :=
  if a then Ok true else b.

Definition py_add (a b : pyval) : result pyval :=
  match a, b with
  | PNum x, PNum y => Ok (PNum (add x y))
  | _, _ => Raise TypeError
  end.

Definition py_mul (a b : pyval) : result pyval :=
  match a, b with
  | PNum x, PNum y => Ok (PNum (mul x y))
  | _, _ => Raise TypeError
  end.

(** A lookup by label, [frame.loc[label]] or [dict[key]]: [KeyError] when
    the label is absent. *)
Inductive lookup (A : Type) : Type :=
| Found (a : A)
| KeyError.

Arguments Found {A} a.
Arguments KeyError {A}.

(* ===================================================================== *)
(** ** financial_analysis.py *)
(* ===================================================================== *)

Module financial_analysis.

Local Open Scope py_scope.

(** What one iteration of the per-year loop reads: the six statement cells
    fetched with [.get(..., None)], the year-end close and
    [stock.info.get('sharesOutstanding', None)].  A cell that is absent is
    [PNone]; a cell that is present holds a number, possibly NaN. *)
Record period : Type := mkPeriod {
  p_net_income : pyval;
  p_total_debt : pyval;
  p_equity : pyval;
  p_total_revenue : pyval;
  p_cash_from_ops : pyval;
  p_capex : pyval;
  p_price : pyval;
  p_shares_outstanding : pyval
}.

(** The dictionary appended to [results], one field per key (the "Year"
    label, which no computation reads, is left out). *)
Record row : Type := mkRow {
  Net_Income : pyval;
  Total_Debt : pyval;
  Equity : pyval;
  Free_Cash_Flow : pyval;
  ROE : pyval;
  Debt_Equity : pyval;
  Profit_Margin : pyval;
  P_E : pyval;
  P_B : pyval;
  P_S : pyval;
  P_FCF : pyval
}.

Section Calculator.

(** What [a / 0] does depends on how the operands are boxed: Python numbers
    raise [ZeroDivisionError], numpy scalars return an infinity or NaN.
    The model takes the outcome, for a numerator, as a parameter. *)
Variable zero_division : float -> result float.

(** [a / b] *)
Definition py_div (a b : pyval) : result pyval :=
  match a, b with
  | PNum x, PNum y =>
      if eqb y zero
      then (r <- zero_division x ;; Ok (PNum r))
      else Ok (PNum (div x y))
  | _, _ => Raise TypeError
  end.

(** [safe_div]: the quotient, or [None] when the division raises. *)
Definition safe_div (a b : pyval) : pyval :=
  match py_div a b with
  | Ok v => v
  | Raise _ => PNone
  end.

Definition hundred : pyval := PNum (of_Z 100).

(** The body of the [try] block of the per-year loop.  [Raise] is an
    exception escaping to the [except Exception: continue]. *)
Definition compute_row (p : period) : result row :=
  let net_income := p_net_income p in
  let total_debt := p_total_debt p in
  let equity := p_equity p in
  let total_revenue := p_total_revenue p in
  let cash_from_ops := p_cash_from_ops p in
  let capex := p_capex p in
  fcf <- (if negb (is_none cash_from_ops) && negb (is_none capex)
          then py_add cash_from_ops capex
          else Ok PNone) ;;
  roe <- (if truthy net_income && truthy equity && py_ne0 equity
          then py_mul (safe_div net_income equity) hundred
          else Ok PNone) ;;
  debt_to_equity <-
         (if truthy total_debt && truthy equity && py_ne0 equity
          then Ok (safe_div total_debt equity)
          else Ok PNone) ;;
  profit_margin <-
         (if truthy net_income && truthy total_revenue
          then py_mul (safe_div net_income total_revenue) hundred
          else Ok PNone) ;;
  let price := p_price p in
  let shares_outstanding := p_shares_outstanding p in
  market_cap <- (if truthy price && truthy shares_outstanding
                 then py_mul price shares_outstanding
                 else Ok PNone) ;;
  let pe := if truthy net_income && truthy shares_outstanding && truthy price
            then safe_div price (safe_div net_income shares_outstanding)
            else PNone in
  let pb := if truthy equity && truthy shares_outstanding && truthy price
            then safe_div price (safe_div equity shares_outstanding)
            else PNone in
  let ps := if truthy total_revenue && truthy shares_outstanding && truthy price
            then safe_div price (safe_div total_revenue shares_outstanding)
            else PNone in
  let pfcf := if truthy fcf && truthy shares_outstanding && truthy price
              then safe_div price (safe_div fcf shares_outstanding)
              else PNone in
  Ok {| Net_Income := net_income;
        Total_Debt := total_debt;
        Equity := equity;
        Free_Cash_Flow := fcf;
        ROE := roe;
        Debt_Equity := debt_to_equity;
        Profit_Margin := profit_margin;
        P_E := pe;
        P_B := pb;
        P_S := ps;
        P_FCF := pfcf |}.

(** The loop over the years: a year whose body raises is skipped, the
    others are appended in order. *)
Fixpoint results (periods : list period) : list row :=
  match periods with
  | [] => []
  | p :: rest =>
      match compute_row p with
      | Ok r => r :: results rest
      | Raise _ => results rest
      end
  end.

End Calculator.

(** [pd.DataFrame(results)]: each column is converted on its own.  A column
    in which some cell is a number becomes a float column, whose missing
    cells are NaN; a column of [None] only stays as it is. *)
Definition has_number (col : list pyval) : bool :=
  existsb (fun v => negb (is_none v)) col.

Definition to_cell (col : list pyval) (v : pyval) : pyval :=
  if has_number col
  then match v with PNone => PNum NaN | PNum x => PNum x end
  else v.

Definition DataFrame (rs : list row) : list row :=
  let cell (f : row -> pyval) (r : row) := to_cell (map f rs) (f r) in
  map (fun r =>
         {| Net_Income := cell Net_Income r;
            Total_Debt := cell Total_Debt r;
            Equity := cell Equity r;
            Free_Cash_Flow := cell Free_Cash_Flow r;
            ROE := cell ROE r;
            Debt_Equity := cell Debt_Equity r;
            Profit_Margin := cell Profit_Margin r;
            P_E := cell P_E r;
            P_B := cell P_B r;
            P_S := cell P_S r;
            P_FCF := cell P_FCF r |}) rs.

(** One conjunct [row[c] and row[c] > k] of the Buffett-style condition,
    followed by the rest of the conjunction: the comparison is evaluated
    only when the cell is true, the rest only when the comparison holds. *)
Definition cell_and (v : pyval) (cmp : pyval -> float -> result bool)
    (k : float) (rest : result bool) : result bool :=
  b <- and_then (truthy v) (cmp v k) ;;
  and_then b rest.

(** The condition of the Buffett-style evaluation, for one row of the
    frame. *)
Definition good_year (r : row) : result bool :=
  cell_and (Net_Income r) py_gt (of_Z 0)
 (cell_and (ROE r) py_gt (of_Z 15)
 (cell_and (Profit_Margin r) py_gt (of_Z 10)
 (cell_and (Debt_Equity r) py_lt (Fin (1 # 2))
 (cell_and (P_E r) py_lt (of_Z 20)
 (cell_and (P_B r) py_lt (of_Z 3)
 (cell_and (P_S r) py_lt (of_Z 4)
 (or_else (is_none (P_FCF r)) (py_lt (P_FCF r) (of_Z 20))))))))).

(** The counting loop over [df.iterrows()]. *)
Fixpoint good_years (df : list row) : result nat :=
  match df with
  | [] => Ok 0%nat
  | r :: rest =>
      b <- good_year r ;;
      n <- good_years rest ;;
      Ok (if b then S n else n)
  end.

(** The three messages of the verdict branch. *)
Inductive verdict : Type :=
| Insufficient_data      (* st.error("Insufficient data to analyze.") *)
| Performed_well         (* st.success(... has performed well ...) *)
| Mixed_or_weak.         (* st.warning(... mixed or weak performance ...) *)

(** [good_years >= total_years * 0.6], both counts being integers.  The
    product is taken exactly.  For integer counts this is the outcome of
    the binary64 comparison too: when 0.6 x total is not an integer it is
    at least 0.2 away from one, and when it is one the rounded product is
    at most that integer and above the previous one. *)
Definition meets_threshold (good total : nat) : bool :=
  Qle_bool (inject_Z (Z.of_nat total) * (6 # 10)) (inject_Z (Z.of_nat good)).

Definition verdict_of (good total : nat) : verdict :=
  if Nat.eqb total 0 then Insufficient_data
  else if meets_threshold good total then Performed_well
  else Mixed_or_weak.

(** From the frame to the message shown. *)
Definition evaluate (df : list row) : result verdict :=
  good <- good_years df ;;
  Ok (verdict_of good (List.length df)).

(** *** The statement frames and the loop over the years *)

(** A row of a transposed statement frame, seen through
    [.get(label, None)]: the cell under a label, [None] when the frame has
    no such label. *)
Definition statement : Type := string -> pyval.

(** A transposed statement frame: the fiscal years of its index, in order,
    each with its row. *)
Definition statements : Type := list (Z * statement).

(** [frame.loc[year]] *)
Fixpoint loc (frame : statements) (year : Z) : lookup statement :=
  match frame with
  | [] => KeyError
  | (y, s) :: rest => if Z.eqb y year then Found s else loc rest year
  end.

(** [years = financials.index[:5]] *)
Definition years (financials : statements) : list Z :=
  firstn 5 (map fst financials).

(** The close of the year-end row at position [i] of [year_ends], [None]
    when [year_ends] has no such position. *)
Definition year_end_close (year_ends : list float) (i : nat) : pyval :=
  match nth_error year_ends i with
  | Some close => PNum close
  | None => PNone
  end.

(** The cells read at the top of the loop body. *)
Definition read_period (fin bal cash : statement)
    (price shares_outstanding : pyval) : period :=
  {| p_net_income := fin "Net Income"%string;
     p_total_debt := bal "Total Debt"%string;
     p_equity := bal "Total Stockholder Equity"%string;
     p_total_revenue := fin "Total Revenue"%string;
     p_cash_from_ops := cash "Total Cash From Operating Activities"%string;
     p_capex := cash "Capital Expenditures"%string;
     p_price := price;
     p_shares_outstanding := shares_outstanding |}.

Section Loop.

Variable zero_division : float -> result float.
Variables financials balance_sheet cashflow : statements.

(** The close column of [year_ends] and
    [stock.info.get('sharesOutstanding', None)]. *)
Variable year_ends : list float.
Variable shares_outstanding : pyval.

(** One iteration of [for i, year in enumerate(years)]: the entry appended
    to [results] with its "Year", or nothing when the body raises and the
    [except] clause moves on to the next year. *)
Definition try_year (i : nat) (year : Z) : option (Z * row) :=
  match loc financials year, loc balance_sheet year, loc cashflow year with
  | Found fin, Found bal, Found cash =>
      match compute_row zero_division
              (read_period fin bal cash (year_end_close year_ends i)
                 shares_outstanding) with
      | Ok r => Some (year, r)
      | Raise _ => None
      end
  | _, _, _ => None
  end.

Fixpoint loop (i : nat) (ys : list Z) : list (Z * row) :=
  match ys with
  | [] => []
  | year :: rest =>
      match try_year i year with
      | Some entry => entry :: loop (S i) rest
      | None => loop (S i) rest
      end
  end.

(** The list [results] when the loop is left. *)
Definition yearly_results : list (Z * row) := loop 0 (years financials).

End Loop.

(** *** The interpretation paragraph *)

(** The six phrases of the summary that depend on the count, in the order
    of the text. *)
Definition interpretation (good_years total_years : nat)
  : option (list string) :=
  if Nat.eqb total_years 0 then None
  else
    let well := meets_threshold good_years total_years in
    Some [ (if well then "mostly positive" else "variable or negative");
           (if well then "strong" else "inconsistent");
           (if well then "healthy" else "below ideal");
           (if well then "low" else "relatively high");
           (if well then "attractive" else "mixed or high");
           (if well then "strong fundamentals and valuation"
            else "some weaknesses or risks") ]%string.

(** *** The ten-year price movement *)

Inductive price_note : Type :=
| No_price_data                       (* "No 10-year price data available." *)
| Significant_growth (change_pct : float)
| Limited_growth_or_decline (change_pct : float).

(** The branch on [hist_10y.empty] and the text under the chart. *)
Definition price_movement (price_10y : list float) : price_note :=
  match price_10y with
  | [] => No_price_data
  | start_price :: _ =>
      let end_price := last price_10y start_price in
      let change_pct :=
        mul (div (sub end_price start_price) start_price) (of_Z 100) in
      if gtb change_pct (of_Z 20)
      then Significant_growth change_pct
      else Limited_growth_or_decline change_pct
  end.

End financial_analysis.

(* ===================================================================== *)
(** ** stock_analysis.py *)
(* ===================================================================== *)

Module stock_analysis.

Local Open Scope py_scope.
Local Open Scope string_scope.

(** *** Series *)

(** A series built position by position. *)
Definition tabulate (n : nat) (f : nat -> float) : list float :=
  map f (seq 0 n).

(** The value at position [i] of a series. *)
Definition at_ (s : list float) (i : nat) : float := nth i s NaN.

(** [s.diff()]: no value at the first position, then the difference with
    the previous position. *)
Definition diff (s : list float) : list float :=
  tabulate (List.length s)
    (fun i => match i with
              | O => NaN
              | S j => sub (at_ s i) (at_ s j)
              end).

(** [s.clip(lower=0)] and [s.clip(upper=0)], on one value: NaN is kept. *)
Definition clip_lower0 (x : float) : float := if ltb x zero then zero else x.
Definition clip_upper0 (x : float) : float := if gtb x zero then zero else x.

(** Arithmetic between two series of one frame, position by position. *)
Definition series_op (f : float -> float -> float) (a b : list float)
  : list float :=
  tabulate (List.length a) (fun i => f (at_ a i) (at_ b i)).

(** The numbers of a window, when all of its cells are finite.  Rolling
    aggregations read infinities as missing cells. *)
Fixpoint finite_values (l : list float) : option (list Q) :=
  match l with
  | [] => Some []
  | Fin q :: rest =>
      match finite_values rest with
      | Some qs => Some (q :: qs)
      | None => None
      end
  | _ :: _ => None
  end.

(** The window of [w] cells ending at position [i]; none before position
    [w - 1] or when a cell of the window is missing ([min_periods] is the
    window length). *)
Definition window (w i : nat) (s : list float) : option (list Q) :=
  if (i + 1 <? w)%nat then None
  else finite_values (firstn w (skipn (i + 1 - w) s)).

(** [s.rolling(window=w).agg()] *)
Definition rolling (w : nat) (agg : list Q -> Q) (s : list float)
  : list float :=
  tabulate (List.length s)
    (fun i => match window w i s with
              | Some qs => Fin (agg qs)
              | None => NaN
              end).

Definition total (qs : list Q) : Q := fold_right Qplus 0 qs.

Definition mean (qs : list Q) : Q :=
  Qred (total qs / inject_Z (Z.of_nat (List.length qs))).

Definition minimum (qs : list Q) : Q :=
  match qs with
  | [] => 0
  | q :: rest => fold_right Qmin q rest
  end.

Definition maximum (qs : list Q) : Q :=
  match qs with
  | [] => 0
  | q :: rest => fold_right Qmax q rest
  end.

(** *** calculate_indicators *)

(** The three price columns of the downloaded frame. *)
Record bar : Type := mkBar {
  Close : float;
  High : float;
  Low : float
}.

Definition window_length : nat := 14.

Definition delta (close : list float) : list float := diff close.

Definition gain (close : list float) : list float :=
  map clip_lower0 (delta close).

Definition loss (close : list float) : list float :=
  map neg (map clip_upper0 (delta close)).

Definition avg_gain (close : list float) : list float :=
  rolling window_length mean (gain close).

Definition avg_loss (close : list float) : list float :=
  rolling window_length mean (loss close).

Definition rs (close : list float) : list float :=
  series_op div (avg_gain close) (avg_loss close).

(** [df['RSI'] = 100 - (100 / (1 + rs))] *)
Definition RSI (close : list float) : list float :=
  map (fun r => sub (of_Z 100) (div (of_Z 100) (add (of_Z 1) r))) (rs close).

Definition low14 (df : list bar) : list float :=
  rolling 14 minimum (map Low df).

Definition high14 (df : list bar) : list float :=
  rolling 14 maximum (map High df).

(** [df['%K'] = 100 * ((df['Close'] - low14) / (high14 - low14))] *)
Definition pct_K (df : list bar) : list float :=
  map (mul (of_Z 100))
      (series_op div
         (series_op sub (map Close df) (low14 df))
         (series_op sub (high14 df) (low14 df))).

Definition SMA (w : nat) (close : list float) : list float :=
  rolling w mean close.

(** *** detect_crosses *)

(** The columns of the frame that [detect_crosses] reads, row by row. *)
Record indicators : Type := mkIndicators {
  SMA50 : float;
  SMA200 : float;
  MACD : float;
  Signal : float
}.

(** [s.iloc[-k]]: out of bounds when the series has fewer than [k] rows. *)
Definition iloc_neg (s : list float) (k : nat) : result float :=
  if (k <=? List.length s)%nat
  then Ok (at_ s (List.length s - k))
  else Raise IndexError.

(** [a.iloc[-2] < b.iloc[-2] and a.iloc[-1] > b.iloc[-1]] *)
Definition crosses_above (a b : list float) : result bool :=
  a2 <- iloc_neg a 2 ;;
  b2 <- iloc_neg b 2 ;;
  and_then (ltb a2 b2)
    (a1 <- iloc_neg a 1 ;;
     b1 <- iloc_neg b 1 ;;
     Ok (gtb a1 b1)).

(** [a.iloc[-2] > b.iloc[-2] and a.iloc[-1] < b.iloc[-1]] *)
Definition crosses_below (a b : list float) : result bool :=
  a2 <- iloc_neg a 2 ;;
  b2 <- iloc_neg b 2 ;;
  and_then (gtb a2 b2)
    (a1 <- iloc_neg a 1 ;;
     b1 <- iloc_neg b 1 ;;
     Ok (ltb a1 b1)).

(** The first block of [detect_crosses]: the value of [cross_type] when the
    block is left. *)
Definition sma_cross (df : list indicators) : result string :=
  if (200 <=? List.length df)%nat then
    up <- crosses_above (map SMA50 df) (map SMA200 df) ;;
    if up then Ok "Golden Cross"
    else
      down <- crosses_below (map SMA50 df) (map SMA200 df) ;;
      if down then Ok "Death Cross" else Ok "None"
  else Ok "None".

(** The second block: the value of [macd_signal_crossover]. *)
Definition macd_cross (df : list indicators) : result (option string) :=
  up <- crosses_above (map MACD df) (map Signal df) ;;
  if up then Ok (Some "Bullish Crossover")
  else
    down <- crosses_below (map MACD df) (map Signal df) ;;
    if down then Ok (Some "Bearish Crossover") else Ok None.

Definition detect_crosses (df : list indicators)
  : result (string * option string) :=
  cross_type <- sma_cross df ;;
  macd_signal_crossover <- macd_cross df ;;
  Ok (cross_type, macd_signal_crossover).

(** *** The decision rules of [main] and [summary_report] *)

(** [v == s] for a variable that holds [None] or a string. *)
Definition opt_eqb (v : option string) (s : string) : bool :=
  match v with
  | Some t => String.eqb t s
  | None => false
  end.

Definition technical_decision (cross_type : string)
    (macd_signal_crossover : option string) : string :=
  if String.eqb cross_type "Golden Cross"
     || opt_eqb macd_signal_crossover "Bullish Crossover"
  then "BUY"
  else if String.eqb cross_type "Death Cross"
          || opt_eqb macd_signal_crossover "Bearish Crossover"
  then "SELL"
  else "HOLD".

(** The [overall] component of what [summary_report] returns. *)
Definition overall (avg_sentiment : pyval) (technical_decision : string)
  : result string :=
  b <- and_then (String.eqb technical_decision "BUY")
         (and_then (truthy avg_sentiment) (py_gt avg_sentiment (of_Z 0))) ;;
  Ok (if b then "BUY" else "HOLD/WAIT").

(** The condition of the option trading suggestion at the end of [main].
    The literal [0.05] is the binary64 number nearest to 1/20. *)
Definition call_option_suggested (avg_sentiment : pyval)
    (technical_decision : string) : result bool :=
  and_then (String.eqb technical_decision "BUY")
    (and_then (truthy avg_sentiment)
       (py_gt avg_sentiment (binary64 (1 # 20)))).

(** *** np.mean *)

(** [res += a[i]] over the cells of [a], from left to right. *)
Definition accumulate (res : float) (a : list float) : float :=
  fold_left add64 a res.

(** The eight accumulators [r] of the unrolled loop, after [blocks] more
    blocks of eight cells of [a] have been added to them. *)
Fixpoint add_blocks (blocks : nat) (r a : list float) : list float :=
  match blocks with
  | O => r
  | S b =>
      add_blocks b
        (map (fun p => add64 (fst p) (snd p)) (combine r (firstn 8 a)))
        (skipn 8 a)
  end.

(** The sum of 8 to 128 cells: eight accumulators over the full blocks of
    eight, added in pairs, then the cells left over. *)
Definition unrolled_sum (a : list float) : float :=
  let n := List.length a in
  let r := add_blocks (n / 8 - 1) (firstn 8 a) (skipn 8 a) in
  let r_ (i : nat) := nth i r NaN in
  let res :=
    add64 (add64 (add64 (r_ 0%nat) (r_ 1%nat)) (add64 (r_ 2%nat) (r_ 3%nat)))
          (add64 (add64 (r_ 4%nat) (r_ 5%nat)) (add64 (r_ 6%nat) (r_ 7%nat)))
  in
  accumulate res (skipn (8 * (n / 8)) a).

(** The pairwise summation of numpy's [add.reduce] on a contiguous
    array: fewer than 8 cells are added from left to right, up to 128
    cells go through the unrolled loop, and a longer array is cut in two
    at a multiple of eight.  [depth] bounds the number of cuts; the
    length of the array is always enough ([pairwise_sum_depth]). *)
Fixpoint pairwise_sum (depth : nat) (a : list float) : float :=
  let n := List.length a in
  if (n <? 8)%nat then accumulate zero a
  else
    match depth with
    | S d =>
        if (n <=? 128)%nat then unrolled_sum a
        else
          let n2 := (n / 2 - (n / 2) mod 8)%nat in
          add64 (pairwise_sum d (firstn n2 a)) (pairwise_sum d (skipn n2 a))
    | O => unrolled_sum a
    end.

Definition np_sum (a : list float) : float := pairwise_sum (List.length a) a.

(** [np.mean(scores)] for a list of Python floats: the list becomes an
    array of binary64 numbers (a score that is not one stands for the
    nearest), the sum is [add.reduce] and the quotient by the count is
    rounded once more. *)
Definition np_mean (scores : list Q) : float :=
  let a := map binary64 scores in
  div64 (np_sum a) (binary64 (inject_Z (Z.of_nat (List.length a)))).

(** A number between [-c] and [c]. *)
Definition within (c : Z) (x : float) : Prop :=
  exists r, x = Fin r /\ - inject_Z c <= r /\ r <= inject_Z c.


(** *** sentiment_analysis *)

Section Sentiment.

(** [TextBlob(headline).sentiment.polarity], computed outside the scripts. *)
Variable polarity : string -> Q.

Definition sentiment_analysis (headlines : list string) : pyval * string :=
  match headlines with
  | [] => (PNone, "No headlines to analyze.")
  | _ :: _ =>
      let polarity_scores := map polarity headlines in
      let avg_sentiment := np_mean polarity_scores in
      let summary :=
        if gtb avg_sentiment (binary64 (1 # 20)) then "Positive"
        else if ltb avg_sentiment (neg (binary64 (1 # 20))) then "Negative"
        else "Neutral" in
      (PNum avg_sentiment, summary)
  end.

End Sentiment.

(** *** The MACD columns *)

(** The smoothing factor of [ewm(span=span)]. *)
Definition alpha (span : Z) : Q := 2 / (inject_Z span + 1).

(** The recursion of [ewm(..., adjust=False).mean()] after the first cell.
    [weighted] is the running average and [old_wt] the weight it carries:
    the weight decays by [1 - a] at every position and is reset to 1 when
    a cell is averaged in; a missing cell repeats the running average; a
    cell equal to the running average leaves it as it is. *)
Fixpoint ewm_loop (a : Q) (weighted : float) (old_wt : Q)
    (vals : list float) : list float :=
  match vals with
  | [] => []
  | cur :: rest =>
      if is_nan weighted then
        if is_nan cur then weighted :: ewm_loop a weighted old_wt rest
        else cur :: ewm_loop a cur old_wt rest
      else
        let old_wt := old_wt * (1 - a) in
        if is_nan cur then weighted :: ewm_loop a weighted old_wt rest
        else
          let weighted :=
            if neb weighted cur
            then div (add (mul (Fin old_wt) weighted) (mul (Fin a) cur))
                     (Fin (old_wt + a))
            else weighted in
          weighted :: ewm_loop a weighted 1 rest
  end.

(** Window aggregations read an infinite cell as a missing one. *)
Definition prep_value (x : float) : float :=
  match x with
  | PInf | NInf => NaN
  | _ => x
  end.

(** [s.ewm(span=span, adjust=False).mean()] *)
Definition ewm_mean (span : Z) (s : list float) : list float :=
  match map prep_value s with
  | [] => []
  | first :: rest => first :: ewm_loop (alpha span) first 1 rest
  end.

Definition exp1 (close : list float) : list float := ewm_mean 12 close.
Definition exp2 (close : list float) : list float := ewm_mean 26 close.

(** [df['MACD'] = exp1 - exp2] *)
Definition MACD_line (close : list float) : list float :=
  series_op sub (exp1 close) (exp2 close).

(** [df['Signal'] = df['MACD'].ewm(span=9, adjust=False).mean()] *)
Definition Signal_line (close : list float) : list float :=
  ewm_mean 9 (MACD_line close).

(** [df['%D'] = df['%K'].rolling(window=3).mean()] *)
Definition pct_D (df : list bar) : list float :=
  rolling 3 mean (pct_K df).

(** *** The frame of [calculate_indicators] and the decision of [main] *)

(** A row of the frame returned by [calculate_indicators]. *)
Record frame_row : Type := mkFrameRow {
  prices : bar;
  RSI_cell : float;
  MACD_cell : float;
  Signal_cell : float;
  K_cell : float;
  D_cell : float;
  SMA50_cell : float;
  SMA200_cell : float
}.

Definition calculate_indicators (df : list bar) : list frame_row :=
  let close := map Close df in
  map (fun i =>
         {| prices := nth i df (mkBar NaN NaN NaN);
            RSI_cell := at_ (RSI close) i;
            MACD_cell := at_ (MACD_line close) i;
            Signal_cell := at_ (Signal_line close) i;
            K_cell := at_ (pct_K df) i;
            D_cell := at_ (pct_D df) i;
            SMA50_cell := at_ (SMA 50 close) i;
            SMA200_cell := at_ (SMA 200 close) i |})
      (seq 0 (List.length df)).

(** The four columns that [detect_crosses] reads. *)
Definition crossing_cells (r : frame_row) : indicators :=
  {| SMA50 := SMA50_cell r;
     SMA200 := SMA200_cell r;
     MACD := MACD_cell r;
     Signal := Signal_cell r |}.

(** What [main] does with the downloaded frame, up to the technical
    decision. *)
Inductive analysis : Type :=
| No_data_found             (* st.error("No data found for symbol ...") *)
| Analysed (cross_type : string) (macd_signal_crossover : option string)
           (technical_decision : string).

Definition main_decision (df : list bar) : result analysis :=
  match df with
  | [] => Ok No_data_found
  | _ :: _ =>
      crosses <- detect_crosses (map crossing_cells (calculate_indicators df)) ;;
      Ok (Analysed (fst crosses) (snd crosses)
            (technical_decision (fst crosses) (snd crosses)))
  end.

(** *** fetch_fundamentals and summary_report *)

(** A value of the [ticker.info] dictionary. *)
Inductive infoval : Type :=
| INone
| INum (x : float)
| IStr (s : string).

(** [info.get(key, default)], the dictionary being seen through its
    lookups. *)
Definition info_get (info : string -> option infoval) (key : string)
    (default : infoval) : infoval :=
  match info key with
  | Some v => v
  | None => default
  end.

Record fundamentals : Type := mkFundamentals {
  Market_Cap : infoval;
  PE_Ratio : infoval;
  EPS : infoval;
  Dividend_Yield : infoval;
  High_52_Week : infoval;
  Low_52_Week : infoval
}.

Definition fetch_fundamentals (info : string -> option infoval)
  : fundamentals :=
  {| Market_Cap := info_get info "marketCap" (IStr "N/A");
     PE_Ratio := info_get info "trailingPE" (IStr "N/A");
     EPS := info_get info "trailingEps" (IStr "N/A");
     Dividend_Yield := info_get info "dividendYield" (IStr "N/A");
     High_52_Week := info_get info "fiftyTwoWeekHigh" (IStr "N/A");
     Low_52_Week := info_get info "fiftyTwoWeekLow" (IStr "N/A") |}.

(** [v != 'N/A'] *)
Definition ne_NA (v : infoval) : bool :=
  match v with
  | IStr s => negb (String.eqb s "N/A")
  | _ => true
  end.

(** [v < 15]: ordering [None] or a string against a number raises. *)
Definition lt_15 (v : infoval) : result bool :=
  match v with
  | INum x => Ok (ltb x (of_Z 15))
  | _ => Raise TypeError
  end.

Definition fa_msgs (f : fundamentals) : result (list string) :=
  undervalued <- and_then (ne_NA (PE_Ratio f)) (lt_15 (PE_Ratio f)) ;;
  Ok [if undervalued
      then "PE Ratio suggests the stock might be undervalued."
      else "PE Ratio is average or high."].

Definition qa_msg (avg_sentiment : pyval) : result string :=
  positive <- and_then (truthy avg_sentiment)
                (py_gt avg_sentiment (of_Z 0)) ;;
  Ok ("News sentiment is "
      ++ (if positive then "positive" else "neutral/negative") ++ ".").

Definition ta_msg (technical_decision : string) : string :=
  "Technical analysis suggests: " ++ technical_decision ++ ".".

Definition summary_report (f : fundamentals) (avg_sentiment : pyval)
    (technical_decision : string) (decision_notes : list string)
  : result (list string * string * string * list string * string) :=
  fa <- fa_msgs f ;;
  qa <- qa_msg avg_sentiment ;;
  verdict <- overall avg_sentiment technical_decision ;;
  Ok (fa, qa, ta_msg technical_decision, decision_notes, verdict).

(** *** fetch_newsapi_news *)

(** An article of the response, seen through [article["title"]] and
    [article["url"]]. *)
Record article : Type := mkArticle {
  title : lookup string;
  url : lookup string
}.

(** The response: its status and [data.get("articles", [])]. *)
Record response : Type := mkResponse {
  status_code : Z;
  articles : list article
}.

(** [[article[key] for article in articles]] *)
Fixpoint collect (field : article -> lookup string) (arts : list article)
  : lookup (list string) :=
  match arts with
  | [] => Found []
  | a :: rest =>
      match field a with
      | KeyError => KeyError
      | Found v =>
          match collect field rest with
          | KeyError => KeyError
          | Found vs => Found (v :: vs)
          end
      end
  end.

Definition fetch_newsapi_news (r : response)
  : lookup (list string * list string) :=
  if negb (Z.eqb (status_code r) 200) then Found ([], [])
  else
    match collect title (articles r) with
    | KeyError => KeyError
    | Found headlines =>
        match collect url (articles r) with
        | KeyError => KeyError
        | Found links => Found (headlines, links)
        end
    end.

End stock_analysis.

(* ===================================================================== *)
(** ** Sample inputs *)
(* ===================================================================== *)

Module Samples.

Import financial_analysis stock_analysis.

(** The passing year of the specification: net income 100, ROE 20, profit
    margin 15, debt to equity 0.3, P/E 15, P/B 2, P/S 3, no P/FCF. *)
Definition passing_year : row :=
  {| Net_Income := number 100;
     Total_Debt := number 150;
     Equity := number 500;
     Free_Cash_Flow := PNone;
     ROE := number 20;
     Debt_Equity := number (3 # 10);
     Profit_Margin := number 15;
     P_E := number 15;
     P_B := number 2;
     P_S := number 3;
     P_FCF := PNone |}.

(** The same year with a debt-to-equity ratio of zero. *)
Definition debt_free_year : row :=
  {| Net_Income := number 100;
     Total_Debt := number 0;
     Equity := number 500;
     Free_Cash_Flow := PNone;
     ROE := number 20;
     Debt_Equity := number 0;
     Profit_Margin := number 15;
     P_E := number 15;
     P_B := number 2;
     P_S := number 3;
     P_FCF := PNone |}.

(** The same year with a P/E of 25. *)
Definition expensive_year : row :=
  {| Net_Income := number 100;
     Total_Debt := number 150;
     Equity := number 500;
     Free_Cash_Flow := PNone;
     ROE := number 20;
     Debt_Equity := number (3 # 10);
     Profit_Margin := number 15;
     P_E := number 25;
     P_B := number 2;
     P_S := number 3;
     P_FCF := PNone |}.

(** The passing year with a P/FCF of 12. *)
Definition passing_year_with_pfcf : row :=
  {| Net_Income := number 100;
     Total_Debt := number 150;
     Equity := number 500;
     Free_Cash_Flow := number 100;
     ROE := number 20;
     Debt_Equity := number (3 # 10);
     Profit_Margin := number 15;
     P_E := number 15;
     P_B := number 2;
     P_S := number 3;
     P_FCF := number 12 |}.

(** A year of a company with no debt: net income 100, equity 500, revenue
    600, no cash-flow cells, price 12 and 100 shares; and the same year
    with a debt of 150. *)
Definition debt_free_period : period :=
  {| p_net_income := number 100;
     p_total_debt := number 0;
     p_equity := number 500;
     p_total_revenue := number 600;
     p_cash_from_ops := PNone;
     p_capex := PNone;
     p_price := number 12;
     p_shares_outstanding := number 100 |}.

Definition indebted_period : period :=
  {| p_net_income := number 100;
     p_total_debt := number 150;
     p_equity := number 500;
     p_total_revenue := number 600;
     p_cash_from_ops := PNone;
     p_capex := PNone;
     p_price := number 12;
     p_shares_outstanding := number 100 |}.

(** A year that breaks even: every statement cell is present, net income is
    zero. *)
Definition break_even_year : period :=
  {| p_net_income := number 0;
     p_total_debt := number 50;
     p_equity := number 200;
     p_total_revenue := number 1000;
     p_cash_from_ops := number 30;
     p_capex := number (-10);
     p_price := number 10;
     p_shares_outstanding := number 100 |}.


Definition rising_closes : list float :=
  map (fun i => of_Z (Z.of_nat i)) (seq 1 15).


(** Fourteen bars whose high and low are 3; the close is 5 in the first
    series and 3 in the second. *)
Definition flat_range_close_above : list bar :=
  repeat (mkBar (of_Z 5) (of_Z 3) (of_Z 3)) 14.

Definition flat_range : list bar :=
  repeat (mkBar (of_Z 3) (of_Z 3) (of_Z 3)) 14.

(** Thirteen flat bars and a last bar with close 4, high 6, low 2. *)
Definition open_range : list bar :=
  repeat (mkBar (of_Z 3) (of_Z 3) (of_Z 3)) 13
  ++ [mkBar (of_Z 4) (of_Z 6) (of_Z 2)].

(** A frame of one row, as downloaded on the first trading day of the
    requested range. *)
Definition one_day : list indicators :=
  [mkIndicators NaN NaN (of_Z 0) (of_Z 0)].


(** Three headlines and their polarities 0.2, 0.3 and -0.1. *)
Definition three_headlines : list string := ["up"; "beat"; "miss"]%string.

Definition three_polarities (headline : string) : Q :=
  if String.eqb headline "up" then 2 # 10
  else if String.eqb headline "beat" then 3 # 10
  else - 1 # 10.

(** The passing year with a negative P/FCF. *)
Definition cash_burning_year : row :=
  {| Net_Income := number 100;
     Total_Debt := number 150;
     Equity := number 500;
     Free_Cash_Flow := number (-150);
     ROE := number 20;
     Debt_Equity := number (3 # 10);
     Profit_Margin := number 15;
     P_E := number 15;
     P_B := number 2;
     P_S := number 3;
     P_FCF := number (-8) |}.

(** Statement frames for the fiscal years 2023 and 2022; the balance sheet
    has no row for 2022 and the cash-flow frame none of the two labels. *)
Definition income_row : statement :=
  fun label =>
    if String.eqb label "Net Income" then number 100
    else if String.eqb label "Total Revenue" then number 600
    else PNone.

Definition balance_row : statement :=
  fun label =>
    if String.eqb label "Total Debt" then number 150
    else if String.eqb label "Total Stockholder Equity" then number 500
    else PNone.

Definition cash_row : statement := fun _ => PNone.

Definition sample_financials : statements :=
  [(2023%Z, income_row); (2022%Z, income_row)].

Definition sample_balance_sheet : statements := [(2023%Z, balance_row)].

Definition sample_cashflow : statements :=
  [(2023%Z, cash_row); (2022%Z, cash_row)].

Definition sample_year_ends : list float := [of_Z 12; of_Z 11].

(** Division by zero as Python numbers do it. *)
Definition raising : float -> result float :=
  fun _ => Raise ZeroDivisionError.

(** Division by zero as numpy scalars do it. *)
Definition ieee : float -> result float :=
  fun x => Ok (div x zero).

(** Ten years of prices from 10 to 13. *)
Definition ten_year_prices : list float := [of_Z 10; of_Z 11; of_Z 13].

(** Sixteen bars with close 4, high 6 and low 2. *)
Definition wide_bars : list bar :=
  repeat (mkBar (of_Z 4) (of_Z 6) (of_Z 2)) 16.

(** Two rows of indicators without moving averages, the MACD of the first
    row missing. *)
Definition two_days : list indicators :=
  [mkIndicators NaN NaN NaN (of_Z 0); mkIndicators NaN NaN (of_Z 1) (of_Z 0)].

(** Fundamentals with a P/E of 12, and with a P/E that is [None]. *)
Definition cheap_fundamentals : fundamentals :=
  {| Market_Cap := INum (of_Z 1000);
     PE_Ratio := INum (of_Z 12);
     EPS := INum (of_Z 1);
     Dividend_Yield := IStr "N/A";
     High_52_Week := INum (of_Z 20);
     Low_52_Week := INum (of_Z 10) |}.

Definition no_pe_fundamentals : fundamentals :=
  {| Market_Cap := INum (of_Z 1000);
     PE_Ratio := INone;
     EPS := INum (of_Z 1);
     Dividend_Yield := IStr "N/A";
     High_52_Week := INum (of_Z 20);
     Low_52_Week := INum (of_Z 10) |}.

(** A refused request, and a response with two articles. *)
Definition refused : response :=
  {| status_code := 401; articles := [] |}.

Definition two_articles : response :=
  {| status_code := 200;
     articles := [ {| title := Found "up"%string;
                      url := Found "https://a"%string |};
                   {| title := Found "beat"%string;
                      url := Found "https://b"%string |} ] |}.

(** Two fiscal years of a company with net income 100, revenue 600, debt
    150 and equity 500 in both years, 100 shares, year-end closes 12 and
    11.  In 2023 the capital expenditures use up the cash from operations
    (40 - 40, free cash flow 0); in 2022 the free cash flow is 100. *)
Definition spent_cash_row : statement :=
  fun label =>
    if String.eqb label "Total Cash From Operating Activities" then number 40
    else if String.eqb label "Capital Expenditures" then number (-40)
    else PNone.

Definition free_cash_row : statement :=
  fun label =>
    if String.eqb label "Total Cash From Operating Activities" then number 120
    else if String.eqb label "Capital Expenditures" then number (-20)
    else PNone.

Definition two_year_balance_sheet : statements :=
  [(2023%Z, balance_row); (2022%Z, balance_row)].

Definition two_year_cashflow : statements :=
  [(2023%Z, spent_cash_row); (2022%Z, free_cash_row)].

(** The frame downloaded on the first trading day of the range: one bar. *)
Definition first_day : list bar := [mkBar (of_Z 10) (of_Z 11) (of_Z 9)].

(** Three headlines with the polarities -1.0, 0.15 and 1.0; the second is
    the binary64 number that the literal [0.15] denotes. *)
Definition mixed_headlines : list string := ["crash"; "steady"; "surge"]%string.

Definition mixed_polarities (headline : string) : Q :=
  if String.eqb headline "crash" then - 1
  else if String.eqb headline "steady"
       then 5404319552844595 # 36028797018963968
  else 1.

End Samples.

(* ===================================================================== *)
(** ** Facts about the number model *)
(* ===================================================================== *)

Section FloatFacts.

Local Open Scope Q_scope.

Lemma ltb_Fin (a b : Q) : ltb (Fin a) (Fin b) = true <-> a < b.
Proof.
  unfold ltb. rewrite Qlt_alt.
  destruct (a ?= b); split; intro H; try reflexivity; discriminate H.
Qed.

Lemma gtb_Fin (a b : Q) : gtb (Fin a) (Fin b) = true <-> b < a.
Proof. unfold gtb. apply ltb_Fin. Qed.

Lemma ltb_Fin_false (a b : Q) : ltb (Fin a) (Fin b) = false <-> b <= a.
Proof.
  split; intro H.
  - apply Qnot_lt_le. intro L. apply ltb_Fin in L. congruence.
  - destruct (ltb (Fin a) (Fin b)) eqn:E; [| reflexivity].
    apply ltb_Fin in E. exfalso. apply (Qlt_not_le _ _ E H).
Qed.

Lemma neb_Fin_zero (a : Q) : neb (Fin a) zero = true <-> ~ a == 0.
Proof.
  unfold neb, eqb, zero, of_Z. change (inject_Z 0) with 0.
  rewrite negb_true_iff.
  split; intro H.
  - intro E. apply Qeq_bool_iff in E. congruence.
  - destruct (Qeq_bool a 0) eqn:E; [| reflexivity].
    apply Qeq_bool_iff in E. contradiction.
Qed.


End FloatFacts.

(** The operands that are true are numbers. *)
Lemma truthy_number (v : pyval) : truthy v = true -> exists x, v = PNum x.
Proof. destruct v; simpl; [discriminate | eauto]. Qed.

Lemma bind_Ok {A B : Type} (c : result A) (k : A -> result B) (b : B) :
  bind c k = Ok b -> exists a, c = Ok a /\ k a = Ok b.
Proof. destruct c; simpl; [eauto | discriminate]. Qed.

(* ===================================================================== *)
(** ** financial_analysis.py: the valuation calculator *)
(* ===================================================================== *)

Section CalculatorFacts.

Import financial_analysis.

Variable zero_division : float -> result float.

(** Under the guards of the script the divisor is a non-zero number, so
    [safe_div] returns a number and never reaches its [except] branch. *)
Lemma safe_div_guarded (a b : pyval) :
  truthy a = true -> truthy b = true ->
  exists x y, a = PNum x /\ b = PNum y /\ safe_div zero_division a b = PNum (div x y).
Proof.
  intros Ha Hb.
  destruct (truthy_number _ Ha) as [x ->], (truthy_number _ Hb) as [y ->].
  exists x, y. repeat split.
  unfold financial_analysis.safe_div, py_div. simpl in Hb. unfold neb in Hb.
  apply negb_true_iff in Hb. rewrite Hb. reflexivity.
Qed.

Lemma percent_guarded (a b : pyval) :
  truthy a = true -> truthy b = true ->
  exists x y, a = PNum x /\ b = PNum y /\
    py_mul (safe_div zero_division a b) hundred = Ok (PNum (mul (div x y) (of_Z 100))).
Proof.
  intros Ha Hb. destruct (safe_div_guarded _ _ Ha Hb) as (x & y & -> & -> & E).
  exists x, y. rewrite E. repeat split.
Qed.

(** The body of the loop never raises: every year yields a row. *)
Lemma compute_row_total (p : period) : exists r, compute_row zero_division p = Ok r.
Proof.
  unfold financial_analysis.compute_row.
  assert (Hfcf : exists fcf,
             (if negb (is_none (p_cash_from_ops p)) && negb (is_none (p_capex p))
              then py_add (p_cash_from_ops p) (p_capex p) else Ok PNone) = Ok fcf).
  { destruct (p_cash_from_ops p), (p_capex p); simpl; eauto. }
  destruct Hfcf as [fcf ->]. cbn [bind].
  assert (Hroe : exists roe,
             (if truthy (p_net_income p) && truthy (p_equity p) && py_ne0 (p_equity p)
              then py_mul (safe_div zero_division (p_net_income p) (p_equity p)) hundred
              else Ok PNone) = Ok roe).
  { destruct (truthy (p_net_income p)) eqn:E1, (truthy (p_equity p)) eqn:E2;
      simpl; eauto.
    destruct (py_ne0 (p_equity p)); eauto.
    destruct (percent_guarded _ _ E1 E2) as (x & y & _ & _ & ->). eauto. }
  destruct Hroe as [roe ->]. cbn [bind].
  assert (Hpm : exists pm,
             (if truthy (p_net_income p) && truthy (p_total_revenue p)
              then py_mul (safe_div zero_division (p_net_income p) (p_total_revenue p)) hundred
              else Ok PNone) = Ok pm).
  { destruct (truthy (p_net_income p)) eqn:E1,
             (truthy (p_total_revenue p)) eqn:E2; simpl; eauto.
    destruct (percent_guarded _ _ E1 E2) as (x & y & _ & _ & ->). eauto. }
  destruct (truthy (p_total_debt p) && truthy (p_equity p) && py_ne0 (p_equity p));
    cbn [bind]; destruct Hpm as [pm ->]; cbn [bind].
  all: assert (Hmc : exists mc,
             (if truthy (p_price p) && truthy (p_shares_outstanding p)
              then py_mul (p_price p) (p_shares_outstanding p)
              else Ok PNone) = Ok mc)
    by (destruct (truthy (p_price p)) eqn:E1,
                 (truthy (p_shares_outstanding p)) eqn:E2; simpl; eauto;
        destruct (truthy_number _ E1) as [x ->],
                 (truthy_number _ E2) as [y ->]; simpl; eauto).
  all: destruct Hmc as [mc ->]; cbn [bind]; eauto.
Qed.

(** No year is dropped from the table. *)
Lemma results_length (periods : list period) :
  List.length (results zero_division periods) = List.length periods.
Proof.
  induction periods as [| p rest IH]; simpl; [reflexivity |].
  destruct (compute_row_total p) as [r ->]. simpl. now rewrite IH.
Qed.

End CalculatorFacts.

(* ===================================================================== *)
(** ** financial_analysis.py: the quality scorer *)
(* ===================================================================== *)

(** Case split on the cells and on the tests of a condition. *)
Ltac case_cells :=
  repeat match goal with
         | |- context [match ?v with PNone => _ | PNum _ => _ end] =>
             destruct v
         | |- context [if ?c then _ else _] => destruct c
         end.

Section ScorerFacts.

Import financial_analysis.

(** What a conjunct of the condition tests: the cell is a number, it is not
    zero, and the comparison holds. *)
Lemma cell_and_gt (v : pyval) (k : float) (rest : result bool) :
  cell_and v py_gt k rest =
  match v with
  | PNum x => if neb x zero && gtb x k then rest else Ok false
  | PNone => Ok false
  end.
Proof.
  unfold cell_and. destruct v as [| x]; simpl; [reflexivity |].
  destruct (neb x zero); simpl; [| reflexivity].
  destruct (gtb x k); reflexivity.
Qed.

Lemma cell_and_lt (v : pyval) (k : float) (rest : result bool) :
  cell_and v py_lt k rest =
  match v with
  | PNum x => if neb x zero && ltb x k then rest else Ok false
  | PNone => Ok false
  end.
Proof.
  unfold cell_and. destruct v as [| x]; simpl; [reflexivity |].
  destruct (neb x zero); simpl; [| reflexivity].
  destruct (ltb x k); reflexivity.
Qed.

(** The condition never raises. *)
Lemma good_year_total (r : row) : exists b, good_year r = Ok b.
Proof.
  unfold good_year.
  rewrite !cell_and_gt, !cell_and_lt.
  case_cells; simpl; eauto.
  all: destruct (P_FCF r); simpl; eauto.
Qed.

Lemma good_years_total (df : list row) :
  exists n, good_years df = Ok n /\ (n <= List.length df)%nat.
Proof.
  induction df as [| r rest (n & IH & Hn)]; simpl.
  - exists 0%nat. split; [reflexivity | lia].
  - destruct (good_year_total r) as [b ->]. simpl. rewrite IH. simpl.
    destruct b; eexists; split; try reflexivity; lia.
Qed.

End ScorerFacts.

(* ===================================================================== *)
(** ** financial_analysis.py: claims on the scorer and the verdict *)
(* ===================================================================== *)

Section ScorerClaims.

Import financial_analysis Samples.

Local Open Scope Q_scope.

(** A debt-to-equity cell equal to zero fails the year, whatever the other
    cells are. *)
Lemma good_year_zero_debt_ratio (r : row) :
  Debt_Equity r = PNum zero -> good_year r = Ok false.
Proof.
  intro E. unfold good_year. rewrite !cell_and_gt, !cell_and_lt, E.
  change (neb zero zero && ltb zero (Fin (1 # 2))) with false. cbv iota.
  case_cells; reflexivity.
Qed.

(** A P/FCF cell that is NaN (a missing cell of a float column) fails the
    year: only [None] is exempted. *)
Lemma good_year_nan_pfcf (r : row) :
  P_FCF r = PNum NaN -> good_year r = Ok false.
Proof.
  intro E. unfold good_year. rewrite !cell_and_gt, !cell_and_lt, E.
  change (or_else (is_none (PNum NaN)) (py_lt (PNum NaN) (of_Z 20)))
    with (@Ok bool false).
  case_cells; reflexivity.
Qed.

(** From the statements to the verdict: the year of a company without debt
    reaches the scorer with no debt-to-equity ratio and is rejected, where
    the same year with a debt of 150 (ratio 0.3) is accepted. *)
Lemma debt_free_period_rejected (zero_division : float -> result float) :
  map Debt_Equity (results zero_division [debt_free_period]) = [PNone] /\
  evaluate (DataFrame (results zero_division [debt_free_period]))
    = Ok Mixed_or_weak /\
  map Debt_Equity (results zero_division [indebted_period])
    = [PNum (Fin (3 # 10))] /\
  evaluate (DataFrame (results zero_division [indebted_period]))
    = Ok Performed_well.
Proof. repeat split. Qed.

(** In a frame where another year has a P/FCF, the missing P/FCF of a year
    is NaN and no longer [None]: the year is rejected. *)
Lemma missing_pfcf_in_float_column :
  good_years [passing_year; passing_year_with_pfcf] = Ok 2%nat /\
  map P_FCF (DataFrame [passing_year; passing_year_with_pfcf])
    = [PNum NaN; PNum (Fin 12)] /\
  good_years (DataFrame [passing_year; passing_year_with_pfcf]) = Ok 1%nat /\
  good_years (DataFrame [passing_year; passing_year]) = Ok 2%nat.
Proof. repeat split. Qed.


(** C7.  The verdict is computed for every frame.  The count of passing
    years is the number of rows that satisfy the condition; an empty frame
    gives the message "Insufficient data", and a non-empty frame gives
    "performed well" exactly when the count is at least 0.6 times the
    number of rows (3 of 5 is enough), "mixed or weak" otherwise.  The
    message for an empty frame is not the failing one. *)
Theorem verdict_rule (df : list row) :
  exists good : nat,
    good_years df = Ok good /\
    good = List.length
             (filter (fun r => match good_year r with
                               | Ok b => b
                               | Raise _ => false
                               end) df) /\
    evaluate df = Ok (verdict_of good (List.length df)) /\
    (List.length df = 0%nat -> evaluate df = Ok Insufficient_data) /\
    ((0 < List.length df)%nat ->
       (evaluate df = Ok Performed_well <->
          (6 # 10) * inject_Z (Z.of_nat (List.length df))
            <= inject_Z (Z.of_nat good)) /\
       (evaluate df = Ok Mixed_or_weak <->
          inject_Z (Z.of_nat good)
            < (6 # 10) * inject_Z (Z.of_nat (List.length df)))) /\
    Insufficient_data <> Mixed_or_weak /\
    verdict_of 3 5 = Performed_well /\
    verdict_of 0 5 = Mixed_or_weak.
Proof.
  assert (Hcount : good_years df = Ok (List.length
             (filter (fun r => match good_year r with
                               | Ok b => b
                               | Raise _ => false
                               end) df))).
  { induction df as [| r rest IH]; simpl; [reflexivity |].
    destruct (good_year_total r) as [b ->]. simpl. rewrite IH. simpl.
    destruct b; reflexivity. }
  eexists. split; [exact Hcount |]. split; [reflexivity |].
  set (good := List.length _) in *.
  assert (Hev : evaluate df = Ok (verdict_of good (List.length df))).
  { unfold evaluate. rewrite Hcount. reflexivity. }
  split; [exact Hev |]. rewrite Hev.
  split; [| split; [| repeat split; discriminate]].
  - intros ->. reflexivity.
  - intro Hpos. unfold verdict_of.
    destruct (Nat.eqb_spec (List.length df) 0) as [E | _]; [lia |].
    unfold meets_threshold.
    destruct (Qle_bool (inject_Z (Z.of_nat (List.length df)) * (6 # 10))
                (inject_Z (Z.of_nat good))) eqn:Hle.
    + apply Qle_bool_iff in Hle. split; split; intro H;
        try reflexivity; try discriminate.
      * lra.
      * exfalso. lra.
    + assert (Hlt : ~ inject_Z (Z.of_nat (List.length df)) * (6 # 10)
                      <= inject_Z (Z.of_nat good)).
      { intro H. apply Qle_bool_iff in H. congruence. }
      split; split; intro H; try reflexivity; try discriminate.
      * exfalso. apply Hlt. lra.
      * apply Qnot_le_lt in Hlt. lra.
Qed.

Lemma verdict_rule_witness :
  evaluate [passing_year; passing_year; passing_year;
            expensive_year; debt_free_year] = Ok Performed_well.
Proof.
  destruct (verdict_rule [passing_year; passing_year; passing_year;
                          expensive_year; debt_free_year])
    as (good & Hgood & _ & _ & _ & Hpos & _).
  injection Hgood as <-.
  apply Hpos; [simpl; lia | vm_compute; discriminate].
Defined.

End ScorerClaims.

(* ===================================================================== *)
(** ** financial_analysis.py: claim on the valuation calculator *)
(* ===================================================================== *)

Section CalculatorClaims.

Import financial_analysis Samples.

(** A net income of zero is read as a missing cell: the profit margin, the
    return on equity and the P/E of the year are [None], whatever the other
    cells are. *)
Lemma compute_row_zero_net_income
    (zero_division : float -> result float) (p : period) :
  p_net_income p = PNum zero ->
  exists r, compute_row zero_division p = Ok r /\
            Profit_Margin r = PNone /\ ROE r = PNone /\ P_E r = PNone.
Proof.
  intro E. destruct (compute_row_total zero_division p) as [r Hr].
  exists r. split; [exact Hr |].
  unfold compute_row in Hr. rewrite E in Hr.
  change (truthy (PNum zero)) with false in Hr. cbn [andb] in Hr.
  repeat match type of Hr with
         | bind ?c _ = Ok _ =>
             let H := fresh "H" in
             apply bind_Ok in Hr; destruct Hr as (? & H & Hr)
         end.
  injection Hr as <-. cbn.
  repeat match goal with
         | H : Ok _ = Ok _ |- _ => injection H as <-
         end.
  repeat split.
Qed.

(** C2 (the code departs from the claim).  The loop body never raises and
    no year is dropped ([compute_row_total], [results_length]), but a year
    with every input present and a net income of 0 gets no profit margin
    and no return on equity, where the formulas 100 x 0 / 1000 and
    100 x 0 / 200 are defined and equal to 0: the guard
    [if net_income and total_revenue] reads the number zero as a missing
    operand. *)
Theorem compute_row_break_even_year
    (zero_division : float -> result float) :
  compute_row zero_division break_even_year =
    Ok {| Net_Income := PNum (Fin 0);
          Total_Debt := PNum (Fin 50);
          Equity := PNum (Fin 200);
          Free_Cash_Flow := PNum (Fin 20);
          ROE := PNone;
          Debt_Equity := PNum (Fin (1 # 4));
          Profit_Margin := PNone;
          P_E := PNone;
          P_B := PNum (Fin 5);
          P_S := PNum (Fin 1);
          P_FCF := PNum (Fin 50) |} /\
  mul (div (Fin 0) (Fin 1000)) (of_Z 100) = Fin 0 /\
  mul (div (Fin 0) (Fin 200)) (of_Z 100) = Fin 0.
Proof. repeat split. Qed.

End CalculatorClaims.

(* ===================================================================== *)
(** ** stock_analysis.py: the decision rules *)
(* ===================================================================== *)

Section DecisionClaims.

Import stock_analysis Samples.

Local Open Scope string_scope.

Lemma opt_eqb_eq (v : option string) (s : string) :
  opt_eqb v s = true <-> v = Some s.
Proof.
  destruct v as [t |]; simpl.
  - rewrite String.eqb_eq. split; congruence.
  - split; discriminate.
Qed.

Lemma buy_condition (cross_type : string) (macd : option string) :
  String.eqb cross_type "Golden Cross" || opt_eqb macd "Bullish Crossover"
    = true
  <-> cross_type = "Golden Cross" \/ macd = Some "Bullish Crossover".
Proof. now rewrite orb_true_iff, String.eqb_eq, opt_eqb_eq. Qed.

Lemma sell_condition (cross_type : string) (macd : option string) :
  String.eqb cross_type "Death Cross" || opt_eqb macd "Bearish Crossover"
    = true
  <-> cross_type = "Death Cross" \/ macd = Some "Bearish Crossover".
Proof. now rewrite orb_true_iff, String.eqb_eq, opt_eqb_eq. Qed.

(** C5.  The technical signal is BUY when the cross is golden or the MACD
    crossover is bullish; otherwise SELL when the cross is a death cross or
    the MACD crossover is bearish; otherwise HOLD.  BUY is tested first: a
    golden cross with a bearish MACD crossover gives BUY. *)
Theorem technical_decision_rule (cross_type : string)
    (macd_signal_crossover : option string) :
  let buy := cross_type = "Golden Cross"
             \/ macd_signal_crossover = Some "Bullish Crossover" in
  let sell := cross_type = "Death Cross"
              \/ macd_signal_crossover = Some "Bearish Crossover" in
  (buy -> technical_decision cross_type macd_signal_crossover = "BUY") /\
  (~ buy -> sell ->
     technical_decision cross_type macd_signal_crossover = "SELL") /\
  (~ buy -> ~ sell ->
     technical_decision cross_type macd_signal_crossover = "HOLD") /\
  technical_decision "Golden Cross" (Some "Bearish Crossover") = "BUY".
Proof.
  cbv zeta. unfold technical_decision.
  pose proof (buy_condition cross_type macd_signal_crossover) as Hb.
  pose proof (sell_condition cross_type macd_signal_crossover) as Hs.
  destruct (String.eqb cross_type "Golden Cross"
            || opt_eqb macd_signal_crossover "Bullish Crossover");
  destruct (String.eqb cross_type "Death Cross"
            || opt_eqb macd_signal_crossover "Bearish Crossover").
  all: repeat split; intros; try reflexivity.
  all: try (exfalso; intuition congruence).
Qed.

Lemma technical_decision_rule_witness :
  technical_decision "None" (Some "Bullish Crossover") = "BUY" /\
  technical_decision "Death Cross" None = "SELL" /\
  technical_decision "None" None = "HOLD".
Proof.
  split; [| split].
  - pose proof (technical_decision_rule "None" (Some "Bullish Crossover"))
      as H.
    cbv zeta in H. destruct H as (Hbuy & _).
    apply Hbuy. right. reflexivity.
  - pose proof (technical_decision_rule "Death Cross" None) as H.
    cbv zeta in H. destruct H as (_ & Hsell & _).
    apply Hsell.
    + intros [H | H]; discriminate H.
    + left. reflexivity.
  - pose proof (technical_decision_rule "None" None) as H.
    cbv zeta in H. destruct H as (_ & _ & Hhold & _).
    apply Hhold.
    + intros [H | H]; discriminate H.
    + intros [H | H]; discriminate H.
Defined.

(** C6.  The overall recommendation is computed without error; it is
    "BUY" exactly when the technical signal is "BUY" and the sentiment
    average is a number strictly greater than 0, and "HOLD/WAIT" in every
    other case, in particular when the average is [None] or 0.  The
    threshold is 0 and not the 0.05 of the option suggestion: an average of
    0.03 with a BUY signal gives an overall "BUY" and no call suggestion. *)
Theorem overall_rule (avg_sentiment : pyval) (technical_decision : string) :
  (overall avg_sentiment technical_decision = Ok "BUY" <->
     technical_decision = "BUY" /\
     exists x, avg_sentiment = PNum x /\ gtb x (of_Z 0) = true) /\
  (overall avg_sentiment technical_decision <> Ok "BUY" ->
     overall avg_sentiment technical_decision = Ok "HOLD/WAIT") /\
  overall PNone technical_decision = Ok "HOLD/WAIT" /\
  overall (PNum (of_Z 0)) technical_decision = Ok "HOLD/WAIT" /\
  overall (PNum (Fin (3 # 100))) "BUY" = Ok "BUY" /\
  call_option_suggested (PNum (Fin (3 # 100))) "BUY" = Ok false.
Proof.
  assert (Hnone : overall PNone technical_decision = Ok "HOLD/WAIT").
  { unfold overall. destruct (String.eqb technical_decision "BUY"); reflexivity. }
  assert (Hzero : overall (PNum (of_Z 0)) technical_decision = Ok "HOLD/WAIT").
  { unfold overall. destruct (String.eqb technical_decision "BUY"); reflexivity. }
  split; [| split; [| repeat split; assumption]].
  - unfold overall.
    destruct (String.eqb_spec technical_decision "BUY") as [-> | Hne];
      cbn [and_then bind].
    + destruct avg_sentiment as [| x]; cbn [truthy py_gt and_then bind].
      * split; [discriminate | intros (_ & x & H & _); discriminate H].
      * destruct (neb x zero) eqn:Hnz; cbn [and_then bind].
        -- destruct (gtb x (of_Z 0)) eqn:Hgt; cbn [and_then bind].
           ++ split; [intros _; split; eauto | reflexivity].
           ++ split; [discriminate |].
              intros (_ & y & H & Hy). injection H as <-. congruence.
        -- split; [discriminate |].
           intros (_ & y & H & Hy). injection H as <-.
           destruct x as [| | | q]; try discriminate.
           apply gtb_Fin in Hy. unfold neb in Hnz.
           apply negb_false_iff in Hnz. apply Qeq_bool_iff in Hnz.
           change (inject_Z 0) with 0%Q in *. rewrite Hnz in Hy.
           exfalso. apply (Qlt_irrefl _ Hy).
    + split; [discriminate | intros (H & _); contradiction].
  - unfold overall.
    destruct (String.eqb technical_decision "BUY"); cbn [and_then bind];
      [| reflexivity].
    destruct avg_sentiment as [| x]; cbn [truthy py_gt and_then bind];
      [reflexivity |].
    destruct (neb x zero); cbn [and_then bind]; [| reflexivity].
    destruct (gtb x (of_Z 0)); [congruence | reflexivity].
Qed.

Lemma overall_rule_witness :
  overall (PNum (Fin (1 # 2))) "BUY" = Ok "BUY" /\
  overall (PNum (Fin (1 # 2))) "SELL" = Ok "HOLD/WAIT".
Proof.
  split.
  - destruct (overall_rule (PNum (Fin (1 # 2))) "BUY") as (Hbuy & _).
    apply Hbuy.
    split; [reflexivity |]. exists (Fin (1 # 2)). split; reflexivity.
  - destruct (overall_rule (PNum (Fin (1 # 2))) "SELL") as (_ & Hhold & _).
    apply Hhold. vm_compute. discriminate.
Defined.

End DecisionClaims.

(* ===================================================================== *)
(** ** Series: positions and windows *)
(* ===================================================================== *)

Section SeriesFacts.

Import stock_analysis.

Local Open Scope Q_scope.

Lemma mean_correct (qs : list Q) :
  mean qs == total qs / inject_Z (Z.of_nat (List.length qs)).
Proof. unfold mean. apply Qred_correct. Qed.

Lemma tabulate_length (n : nat) (f : nat -> float) :
  List.length (tabulate n f) = n.
Proof. unfold tabulate. now rewrite length_map, length_seq. Qed.

Lemma at_tabulate (n : nat) (f : nat -> float) (i : nat) :
  (i < n)%nat -> at_ (tabulate n f) i = f i.
Proof.
  intro H. unfold at_, tabulate.
  rewrite (nth_indep _ NaN (f 0%nat)) by now rewrite length_map, length_seq.
  rewrite map_nth, seq_nth by exact H. reflexivity.
Qed.

Lemma at_overflow (s : list float) (i : nat) :
  (List.length s <= i)%nat -> at_ s i = NaN.
Proof. apply nth_overflow. Qed.

(** A position that holds a number is a position of the series. *)
Lemma at_Fin_inside (s : list float) (i : nat) (q : Q) :
  at_ s i = Fin q -> (i < List.length s)%nat.
Proof.
  intro H. destruct (Nat.lt_ge_cases i (List.length s)) as [L | L];
    [exact L |].
  rewrite at_overflow in H by exact L. discriminate.
Qed.

Lemma at_map (f : float -> float) (s : list float) (i : nat) :
  (i < List.length s)%nat -> at_ (map f s) i = f (at_ s i).
Proof.
  intro H. unfold at_.
  rewrite (nth_indep _ NaN (f NaN)) by now rewrite length_map.
  apply map_nth.
Qed.

Lemma series_op_length (f : float -> float -> float) (a b : list float) :
  List.length (series_op f a b) = List.length a.
Proof. apply tabulate_length. Qed.

Lemma at_series_op (f : float -> float -> float) (a b : list float) (i : nat) :
  (i < List.length a)%nat ->
  at_ (series_op f a b) i = f (at_ a i) (at_ b i).
Proof. intro H. unfold series_op. now rewrite at_tabulate. Qed.

Lemma rolling_length (w : nat) (agg : list Q -> Q) (s : list float) :
  List.length (rolling w agg s) = List.length s.
Proof. apply tabulate_length. Qed.

(** A rolling aggregate has no value before its first complete window. *)
Lemma at_rolling_early (w : nat) (agg : list Q -> Q) (s : list float)
    (i : nat) :
  (i + 1 < w)%nat -> at_ (rolling w agg s) i = NaN.
Proof.
  intro H. destruct (Nat.lt_ge_cases i (List.length s)) as [L | L].
  - unfold rolling. rewrite at_tabulate by exact L. unfold window.
    destruct (Nat.ltb_spec (i + 1) w); [reflexivity | lia].
  - apply at_overflow. now rewrite rolling_length.
Qed.

Lemma SMA_early (w : nat) (close : list float) (i : nat) :
  (i + 1 < w)%nat -> at_ (SMA w close) i = NaN.
Proof. apply at_rolling_early. Qed.

Lemma diff_length (s : list float) : List.length (diff s) = List.length s.
Proof. apply tabulate_length. Qed.

(** A position of a rolling aggregate that holds a number is the aggregate
    of a complete window of numbers. *)
Lemma at_rolling_Fin (w : nat) (agg : list Q -> Q) (s : list float)
    (i : nat) (q : Q) :
  at_ (rolling w agg s) i = Fin q ->
  exists qs, window w i s = Some qs /\ q = agg qs.
Proof.
  intro H. pose proof (at_Fin_inside _ _ _ H) as Hi.
  rewrite rolling_length in Hi. unfold rolling in H.
  rewrite at_tabulate in H by exact Hi.
  destruct (window w i s) as [qs |]; [| discriminate].
  exists qs. split; [reflexivity |]. congruence.
Qed.

Lemma finite_values_In (l : list float) (qs : list Q) :
  finite_values l = Some qs -> forall q, In q qs -> In (Fin q) l.
Proof.
  revert qs. induction l as [| x rest IH]; simpl; intros qs H q Hq.
  - injection H as <-. contradiction.
  - destruct x as [| | | a]; try discriminate.
    destruct (finite_values rest) as [qs' |]; [| discriminate].
    injection H as <-. destruct Hq as [-> | Hq]; [now left |].
    right. eapply IH; eauto.
Qed.

Lemma finite_values_nth (l : list float) (qs : list Q) :
  finite_values l = Some qs ->
  forall k q, nth k l NaN = Fin q -> In q qs.
Proof.
  revert qs. induction l as [| x rest IH]; simpl; intros qs H k q Hk.
  - destruct k; discriminate.
  - destruct x as [| | | a]; try discriminate.
    destruct (finite_values rest) as [qs' |]; [| discriminate].
    injection H as <-. destruct k as [| k].
    + injection Hk as ->. now left.
    + right. eapply IH; eauto.
Qed.

Lemma In_firstn (n : nat) (l : list float) (x : float) :
  In x (firstn n l) -> In x l.
Proof.
  revert l. induction n as [| n IH]; intros [| y l]; simpl; try tauto.
  intros [-> | H]; [now left | right; now apply IH].
Qed.

Lemma In_skipn (n : nat) (l : list float) (x : float) :
  In x (skipn n l) -> In x l.
Proof.
  revert l. induction n as [| n IH]; intros [| y l]; simpl; try tauto.
  intro H. right. now apply IH.
Qed.

(** The numbers of a window are cells of the series. *)
Lemma window_In (w i : nat) (s : list float) (qs : list Q) :
  window w i s = Some qs -> forall q, In q qs -> In (Fin q) s.
Proof.
  unfold window. destruct (i + 1 <? w)%nat; [discriminate |].
  intros H q Hq.
  pose proof (finite_values_In _ _ H q Hq) as Hin.
  apply In_firstn in Hin. eapply In_skipn; eauto.
Qed.

(** The cell at the position of a window is one of its numbers. *)
Lemma window_last (w i : nat) (s : list float) (qs : list Q) (q : Q) :
  (0 < w)%nat -> window w i s = Some qs -> at_ s i = Fin q -> In q qs.
Proof.
  unfold window. intros Hw H Hq.
  destruct (Nat.ltb_spec (i + 1) w) as [L | L]; [discriminate |].
  apply (finite_values_nth _ _ H (w - 1)).
  rewrite nth_firstn.
  destruct (Nat.ltb_spec (w - 1) w) as [_ | L']; [| lia].
  rewrite nth_skipn.
  replace (i + 1 - w + (w - 1))%nat with i by lia. exact Hq.
Qed.

Lemma total_nonneg (qs : list Q) :
  (forall q, In q qs -> 0 <= q) -> 0 <= total qs.
Proof.
  induction qs as [| a rest IH]; simpl; intro H.
  - apply Qle_refl.
  - assert (0 <= a) by (apply H; now left).
    assert (0 <= total rest) by (apply IH; intros; apply H; now right).
    lra.
Qed.


Lemma minimum_le (qs : list Q) (q : Q) : In q qs -> minimum qs <= q.
Proof.
  destruct qs as [| a rest]; [contradiction |]. simpl.
  revert a. induction rest as [| b rest IH]; simpl; intros a H.
  - destruct H as [-> | []]. apply Qle_refl.
  - destruct H as [-> | [-> | H]].
    + eapply Qle_trans; [apply Q.le_min_r |]. apply (IH q). now left.
    + apply Q.le_min_l.
    + eapply Qle_trans; [apply Q.le_min_r |]. apply (IH a). now right.
Qed.

Lemma maximum_ge (qs : list Q) (q : Q) : In q qs -> q <= maximum qs.
Proof.
  destruct qs as [| a rest]; [contradiction |]. simpl.
  revert a. induction rest as [| b rest IH]; simpl; intros a H.
  - destruct H as [-> | []]. apply Qle_refl.
  - destruct H as [-> | [-> | H]].
    + eapply Qle_trans; [| apply Q.le_max_r]. apply (IH q). now left.
    + apply Q.le_max_l.
    + eapply Qle_trans; [| apply Q.le_max_r]. apply (IH a). now right.
Qed.

End SeriesFacts.

(* ===================================================================== *)
(** ** Rounding to binary64 *)
(* ===================================================================== *)

Section RoundingFacts.

Local Open Scope Z_scope.












End RoundingFacts.

Section Binary64Facts.

Local Open Scope Q_scope.










(** The literal [0.05] is a binary64 number slightly above 1/20. *)
Lemma literal_0_05 :
  binary64 (1 # 20) = Fin (3602879701896397 # 72057594037927936).
Proof. vm_compute. reflexivity. Qed.

Lemma neg_literal_0_05 :
  neg (binary64 (1 # 20)) = Fin (- 3602879701896397 # 72057594037927936).
Proof. vm_compute. reflexivity. Qed.

End Binary64Facts.

(* ===================================================================== *)
(** ** np.mean: range and accuracy of the computed average *)
(* ===================================================================== *)

Section MeanFacts.

Import stock_analysis.

Local Open Scope Q_scope.


Lemma within_weaken (a b : Z) (x : float) :
  (a <= b)%Z -> within a x -> within b x.
Proof.
  intros Hab (r & -> & H1 & H2). exists r. split; [reflexivity |].
  rewrite Zle_Qle in Hab. lra.
Qed.










(** The depth given to [pairwise_sum] is never exhausted: any larger depth
    gives the same sum. *)
Lemma pairwise_sum_depth (d d' : nat) (a : list float) :
  (List.length a <= d)%nat -> (List.length a <= d')%nat ->
  pairwise_sum d a = pairwise_sum d' a.
Proof.
  revert d' a. induction d as [| d IH]; intros d' a H H'.
  - assert (E : List.length a = 0%nat) by lia.
    destruct d'; cbn [pairwise_sum]; rewrite E; reflexivity.
  - destruct d' as [| d'].
    + assert (E : List.length a = 0%nat) by lia.
      cbn [pairwise_sum]. rewrite E. reflexivity.
    + cbn [pairwise_sum].
      destruct (Nat.ltb_spec (List.length a) 8) as [L | L]; [reflexivity |].
      destruct (Nat.leb_spec (List.length a) 128) as [S | S]; [reflexivity |].
      remember (List.length a) as n eqn:En.
      remember (n / 2 - (n / 2) mod 8)%nat as n2 eqn:En2.
      assert (Hhalf : (64 <= n / 2)%nat).
      { pose proof (Nat.div_mod_eq n 2).
        pose proof (Nat.mod_upper_bound n 2). lia. }
      assert (Hm : ((n / 2) mod 8 < 8)%nat)
        by (apply Nat.mod_upper_bound; lia).
      assert (Hn2 : (0 < n2 < n)%nat).
      { subst n2. pose proof (Nat.div_mod_eq n 2). lia. }
      f_equal; apply IH;
        rewrite ?length_firstn, ?length_skipn; lia.
Qed.

























End MeanFacts.

(* ===================================================================== *)
(** ** stock_analysis.py: sentiment_analysis *)
(* ===================================================================== *)

Section SentimentClaims.

Import stock_analysis Samples.

Local Open Scope Q_scope.

(** The label as a function of the average. *)
Lemma sentiment_label (polarity : string -> Q) (headline : string)
    (others : list string) :
  let avg := np_mean (map polarity (headline :: others)) in
  sentiment_analysis polarity (headline :: others)
  = (PNum avg,
     if gtb avg (binary64 (1 # 20)) then "Positive"%string
     else if ltb avg (neg (binary64 (1 # 20))) then "Negative"%string
     else "Neutral"%string).
Proof. reflexivity. Qed.


(** C9, counterexample to the claim as stated.  The three scores -1.0,
    0.15 and 1.0 are binary64 numbers; their arithmetic mean is below
    0.05 (and not below -0.05), which the claim labels Neutral.  The
    function returns another number, 0.05000000000000001, above the
    literal 0.05, and the label Positive: -1.0 + 0.15 is rounded before
    1.0 is added. *)
Lemma sentiment_analysis_not_exact_mean :
  let scores := map mixed_polarities mixed_headlines in
  map binary64 scores = map Fin scores /\
  fold_right Qplus 0 scores / 3 < 1 # 20 /\
  - (1 # 20) <= fold_right Qplus 0 scores / 3 /\
  sentiment_analysis mixed_polarities mixed_headlines
  = (PNum (Fin (7205759403792795 # 144115188075855872)), "Positive"%string) /\
  ~ 7205759403792795 # 144115188075855872 == fold_right Qplus 0 scores / 3.
Proof.
  cbv zeta. split; [vm_compute; reflexivity |].
  split; [vm_compute; reflexivity |].
  split; [vm_compute; discriminate |].
  split; [vm_compute; reflexivity |].
  vm_compute. discriminate.
Qed.



End SentimentClaims.

(* ===================================================================== *)
(** ** stock_analysis.py: detect_crosses *)
(* ===================================================================== *)

Section CrossClaims.

Import stock_analysis Samples.

Local Open Scope string_scope.

Lemma iloc_neg_Ok (s : list float) (k : nat) :
  (k <= List.length s)%nat ->
  iloc_neg s k = Ok (at_ s (List.length s - k)).
Proof.
  intro H. unfold iloc_neg.
  destruct (Nat.leb_spec k (List.length s)); [reflexivity | lia].
Qed.

Lemma iloc_neg_Raise (s : list float) (k : nat) :
  (List.length s < k)%nat -> iloc_neg s k = Raise IndexError.
Proof.
  intro H. unfold iloc_neg.
  destruct (Nat.leb_spec k (List.length s)); [lia | reflexivity].
Qed.

(** With two rows or more, the crossing tests read their four cells. *)
Lemma crosses_above_Ok (a b : list float) :
  (2 <= List.length a)%nat -> List.length b = List.length a ->
  crosses_above a b =
    Ok (ltb (at_ a (List.length a - 2)) (at_ b (List.length a - 2))
        && gtb (at_ a (List.length a - 1)) (at_ b (List.length a - 1))).
Proof.
  intros Ha Hb. unfold crosses_above.
  rewrite (iloc_neg_Ok a 2), (iloc_neg_Ok b 2), (iloc_neg_Ok a 1),
    (iloc_neg_Ok b 1), Hb by lia.
  cbn [bind]. destruct (ltb _ _); reflexivity.
Qed.

Lemma crosses_below_Ok (a b : list float) :
  (2 <= List.length a)%nat -> List.length b = List.length a ->
  crosses_below a b =
    Ok (gtb (at_ a (List.length a - 2)) (at_ b (List.length a - 2))
        && ltb (at_ a (List.length a - 1)) (at_ b (List.length a - 1))).
Proof.
  intros Ha Hb. unfold crosses_below.
  rewrite (iloc_neg_Ok a 2), (iloc_neg_Ok b 2), (iloc_neg_Ok a 1),
    (iloc_neg_Ok b 1), Hb by lia.
  cbn [bind]. destruct (gtb _ _); reflexivity.
Qed.

(** With fewer than two rows, reading the second-to-last cell raises. *)
Lemma crosses_above_Raise (a b : list float) :
  (List.length a < 2)%nat -> crosses_above a b = Raise IndexError.
Proof.
  intro H. unfold crosses_above. now rewrite (iloc_neg_Raise a 2).
Qed.

(** The MACD block does not look at the number of rows beyond the two it
    reads: with two rows or more it returns. *)
Lemma macd_cross_Ok (df : list indicators) :
  (2 <= List.length df)%nat -> exists m, macd_cross df = Ok m.
Proof.
  intro H. unfold macd_cross.
  rewrite crosses_above_Ok, crosses_below_Ok
    by (rewrite ?length_map; auto).
  cbn [bind].
  destruct (_ && _); [eauto |]. destruct (_ && _); eauto.
Qed.

Lemma macd_cross_Raise (df : list indicators) :
  (List.length df < 2)%nat -> macd_cross df = Raise IndexError.
Proof.
  intro H. unfold macd_cross.
  rewrite crosses_above_Raise by (rewrite length_map; exact H).
  reflexivity.
Qed.

(** The SMA block returns on every frame. *)
Lemma sma_cross_total (df : list indicators) : exists s, sma_cross df = Ok s.
Proof.
  unfold sma_cross.
  destruct (Nat.leb_spec 200 (List.length df)) as [H | H]; [| eauto].
  rewrite crosses_above_Ok, crosses_below_Ok
    by (rewrite ?length_map; auto; lia).
  cbn [bind].
  destruct (_ && _); [eauto |]. destruct (_ && _); eauto.
Qed.

(** With two rows or more [detect_crosses] returns. *)
Lemma detect_crosses_Ok (df : list indicators) :
  (2 <= List.length df)%nat -> exists v, detect_crosses df = Ok v.
Proof.
  intro H. unfold detect_crosses.
  destruct (sma_cross_total df) as [s ->].
  destruct (macd_cross_Ok df H) as [m ->]. cbn [bind]. eauto.
Qed.

(** C4 (the code departs from the claim).  The MACD block is outside the
    test on 200 rows, but it reads [iloc[-2]] without a test on the number
    of rows: on a frame of one row the SMA block leaves "None" and the MACD
    block raises [IndexError], so [detect_crosses] raises instead of
    returning no crossover.  The same holds for an empty frame. *)
Theorem detect_crosses_one_row_raises (r : indicators) :
  sma_cross [r] = Ok "None" /\
  macd_cross [r] = Raise IndexError /\
  detect_crosses [r] = Raise IndexError /\
  detect_crosses [] = Raise IndexError.
Proof. repeat split. Qed.



End CrossClaims.

(* ===================================================================== *)
(** ** stock_analysis.py: the RSI column *)
(* ===================================================================== *)

Section RSIClaims.

Import stock_analysis Samples.

Local Open Scope Q_scope.







Lemma at_rolling_cases (w : nat) (agg : list Q -> Q) (s : list float)
    (i : nat) :
  at_ (rolling w agg s) i = NaN \/ exists q, at_ (rolling w agg s) i = Fin q.
Proof.
  destruct (Nat.lt_ge_cases i (List.length s)) as [L | L].
  - unfold rolling. rewrite at_tabulate by exact L.
    destruct (window w i s); eauto.
  - left. apply at_overflow. now rewrite rolling_length.
Qed.

Lemma gain_length (close : list float) :
  List.length (gain close) = List.length close.
Proof. unfold gain, delta. now rewrite length_map, diff_length. Qed.

(** The RSI cell as a function of the two averages of its row. *)
Lemma at_RSI (close : list float) (i : nat) :
  (i < List.length close)%nat ->
  at_ (RSI close) i =
  sub (of_Z 100)
      (div (of_Z 100)
           (add (of_Z 1)
                (div (at_ (avg_gain close) i) (at_ (avg_loss close) i)))).
Proof.
  intro H.
  assert (Hlen : List.length (avg_gain close) = List.length close).
  { unfold avg_gain. now rewrite rolling_length, gain_length. }
  unfold RSI. rewrite at_map by (unfold rs; now rewrite series_op_length, Hlen).
  unfold rs. rewrite at_series_op by now rewrite Hlen. reflexivity.
Qed.

Lemma RSI_length (close : list float) :
  List.length (RSI close) = List.length close.
Proof.
  unfold RSI, rs, avg_gain.
  now rewrite length_map, series_op_length, rolling_length, gain_length.
Qed.


(** The RSI of a row whose average loss is zero. *)
Lemma rsi_no_loss (g l : Q) :
  l == 0 ->
  sub (of_Z 100) (div (of_Z 100) (add (of_Z 1) (div (Fin g) (Fin l))))
  = match g ?= 0 with
    | Gt => Fin 100
    | Eq => NaN
    | Lt => Fin 100
    end.
Proof.
  intro Hl. apply Qeq_bool_iff in Hl. unfold div at 2. rewrite Hl.
  destruct (g ?= 0); reflexivity.
Qed.




End RSIClaims.

(* ===================================================================== *)
(** ** stock_analysis.py: the stochastic %K column *)
(* ===================================================================== *)

Section StochasticClaims.

Import stock_analysis Samples.

Local Open Scope Q_scope.

Lemma low14_length (df : list bar) :
  List.length (low14 df) = List.length df.
Proof. unfold low14. now rewrite rolling_length, length_map. Qed.

Lemma high14_length (df : list bar) :
  List.length (high14 df) = List.length df.
Proof. unfold high14. now rewrite rolling_length, length_map. Qed.

(** The %K cell as a function of the close and of the two rolling extremes
    of its row. *)
Lemma at_pct_K (df : list bar) (i : nat) :
  (i < List.length df)%nat ->
  at_ (pct_K df) i =
  mul (of_Z 100)
      (div (sub (at_ (map Close df) i) (at_ (low14 df) i))
           (sub (at_ (high14 df) i) (at_ (low14 df) i))).
Proof.
  intro H. unfold pct_K.
  rewrite at_map by now rewrite !series_op_length, length_map.
  rewrite at_series_op by now rewrite series_op_length, length_map.
  rewrite !at_series_op by now rewrite ?length_map, ?high14_length.
  reflexivity.
Qed.

(** The rolling low is below the low of the row, the rolling high above
    its high. *)
Lemma low14_le_Low (df : list bar) (i : nat) (l lo : Q) :
  at_ (low14 df) i = Fin l -> at_ (map Low df) i = Fin lo -> l <= lo.
Proof.
  intros Hl Hlo. apply at_rolling_Fin in Hl. destruct Hl as (qs & Hw & ->).
  apply minimum_le.
  apply (window_last 14 i (map Low df) qs lo); [lia | exact Hw | exact Hlo].
Qed.

Lemma High_le_high14 (df : list bar) (i : nat) (h hi : Q) :
  at_ (high14 df) i = Fin h -> at_ (map High df) i = Fin hi -> hi <= h.
Proof.
  intros Hh Hhi. apply at_rolling_Fin in Hh. destruct Hh as (qs & Hw & ->).
  apply maximum_ge.
  apply (window_last 14 i (map High df) qs hi); [lia | exact Hw | exact Hhi].
Qed.

(** The quotient of %K on a flat range and on an open range. *)
Lemma pct_K_flat (c l h : Q) :
  h == l ->
  mul (of_Z 100) (div (sub (Fin c) (Fin l)) (sub (Fin h) (Fin l)))
  = match c ?= l with
    | Eq => NaN
    | Gt => PInf
    | Lt => NInf
    end.
Proof.
  intro Hhl. unfold sub, fin, div.
  assert (Hz : Qeq_bool (Qred (h - l)) 0 = true).
  { apply Qeq_bool_iff. rewrite Qred_correct. lra. }
  rewrite Hz.
  assert (Hc : (Qred (c - l) ?= 0) = (c ?= l)).
  { rewrite Qred_correct. destruct (c ?= l) eqn:E.
    - apply Qeq_alt in E. apply (proj1 (Qeq_alt _ _)). lra.
    - apply Qlt_alt in E. apply (proj1 (Qlt_alt _ _)). lra.
    - apply Qgt_alt in E. apply (proj1 (Qgt_alt _ _)). lra. }
  rewrite Hc. destruct (c ?= l); reflexivity.
Qed.

Lemma pct_K_open (c l h : Q) :
  ~ h == l ->
  exists k,
    mul (of_Z 100) (div (sub (Fin c) (Fin l)) (sub (Fin h) (Fin l))) = Fin k /\
    k == 100 * ((c - l) / (h - l)).
Proof.
  intro Hhl. unfold sub, fin, div.
  assert (Hz : Qeq_bool (Qred (h - l)) 0 = false).
  { destruct (Qeq_bool (Qred (h - l)) 0) eqn:E; [| reflexivity].
    apply Qeq_bool_iff in E. rewrite Qred_correct in E.
    exfalso. apply Hhl. lra. }
  rewrite Hz. eexists. split; [reflexivity |].
  change (inject_Z 100) with 100. now rewrite !Qred_correct.
Qed.

(** C10, counterexample to the claim as stated.  On fourteen bars whose
    high and low are all 3 and whose close is 5, the rolling high and low
    are defined and equal at the last position, and %K there is +inf, the
    result of dividing 2 by 0: it is not "no value". *)
Lemma pct_K_flat_range_is_infinite :
  at_ (high14 flat_range_close_above) 13 = Fin 3 /\
  at_ (low14 flat_range_close_above) 13 = Fin 3 /\
  at_ (pct_K flat_range_close_above) 13 = PInf /\
  is_nan (at_ (pct_K flat_range_close_above) 13) = false.
Proof. repeat split. Qed.

(** C10, as amended.  Where the 14-bar rolling high and low are defined and
    the close is a number, the quotient is computed without a test on the
    divisor and without raising.  On a flat range (high14 = low14) the
    divisor is 0: %K is NaN (no value) when the close equals low14, which
    is the case whenever the close of the bar lies between its low and its
    high, and it is +inf or -inf when the close is above or below.
    Otherwise %K = 100 x (close - low14) / (high14 - low14). *)
Theorem pct_K_cases (df : list bar) (i : nat) (h l c : Q) :
  at_ (high14 df) i = Fin h ->
  at_ (low14 df) i = Fin l ->
  at_ (map Close df) i = Fin c ->
  (h == l -> c == l -> at_ (pct_K df) i = NaN) /\
  (h == l -> l < c -> at_ (pct_K df) i = PInf) /\
  (h == l -> c < l -> at_ (pct_K df) i = NInf) /\
  (h == l ->
   forall lo hi : Q,
     at_ (map Low df) i = Fin lo -> at_ (map High df) i = Fin hi ->
     lo <= c -> c <= hi -> at_ (pct_K df) i = NaN) /\
  (~ h == l ->
   exists k, at_ (pct_K df) i = Fin k /\
             k == 100 * ((c - l) / (h - l))).
Proof.
  intros Hh Hl Hc.
  assert (Hi : (i < List.length df)%nat).
  { apply at_Fin_inside in Hh. now rewrite high14_length in Hh. }
  rewrite (at_pct_K df i Hi), Hh, Hl, Hc.
  assert (Hflat : h == l -> c == l ->
            mul (of_Z 100) (div (sub (Fin c) (Fin l)) (sub (Fin h) (Fin l)))
            = NaN).
  { intros Hhl Hcl. rewrite (pct_K_flat c l h Hhl).
    now rewrite (proj1 (Qeq_alt c l) Hcl). }
  split; [exact Hflat |].
  split; [| split; [| split]].
  - intros Hhl Hcl. rewrite (pct_K_flat c l h Hhl).
    now rewrite (proj1 (Qgt_alt c l) Hcl).
  - intros Hhl Hcl. rewrite (pct_K_flat c l h Hhl).
    now rewrite (proj1 (Qlt_alt c l) Hcl).
  - intros Hhl lo hi Hlo Hhi Hlc Hch. apply Hflat; [exact Hhl |].
    pose proof (low14_le_Low df i l lo Hl Hlo).
    pose proof (High_le_high14 df i h hi Hh Hhi).
    lra.
  - apply pct_K_open.
Qed.

Lemma pct_K_cases_witness :
  at_ (pct_K flat_range) 13 = NaN /\
  at_ (pct_K flat_range_close_above) 13 = PInf /\
  at_ (pct_K open_range) 13 = Fin 50.
Proof.
  split; [| split].
  - destruct (pct_K_cases flat_range 13 3 3 3 eq_refl eq_refl eq_refl)
      as (_ & _ & _ & H & _).
    apply (H eq_refl 3 3); [reflexivity | reflexivity | |]; discriminate.
  - destruct (pct_K_cases flat_range_close_above 13 3 3 5
                eq_refl eq_refl eq_refl) as (_ & H & _).
    apply H; reflexivity.
  - destruct (pct_K_cases open_range 13 6 2 4 eq_refl eq_refl eq_refl)
      as (_ & _ & _ & _ & H).
    destruct H as (k & Hk & _); [discriminate |].
    rewrite Hk.
    assert (E : Fin k = Fin 50) by (rewrite <- Hk; reflexivity).
    exact E.
Defined.

End StochasticClaims.

(* ===================================================================== *)
(** ** financial_analysis.py: what the scorer accepts *)
(* ===================================================================== *)

Section ScorerRules.

Import financial_analysis.

Local Open Scope Q_scope.

Lemma cell_and_true (v : pyval) (cmp : pyval -> float -> result bool)
    (k : float) (rest : result bool) :
  cell_and v cmp k rest = Ok true <->
  truthy v = true /\ cmp v k = Ok true /\ rest = Ok true.
Proof.
  unfold cell_and. destruct (truthy v); cbn [and_then bind].
  - destruct (cmp v k) as [[|] | e]; cbn [and_then bind];
      intuition congruence.
  - intuition congruence.
Qed.

Lemma py_gt_true (v : pyval) (k : float) :
  py_gt v k = Ok true <-> exists x, v = PNum x /\ gtb x k = true.
Proof.
  destruct v as [| x]; simpl.
  - split; [discriminate | intros (x & H & _); discriminate H].
  - split.
    + intro H. exists x. split; congruence.
    + intros (y & H & Hy). injection H as <-. now rewrite Hy.
Qed.

Lemma py_lt_true (v : pyval) (k : float) :
  py_lt v k = Ok true <-> exists x, v = PNum x /\ ltb x k = true.
Proof.
  destruct v as [| x]; simpl.
  - split; [discriminate | intros (x & H & _); discriminate H].
  - split.
    + intro H. exists x. split; congruence.
    + intros (y & H & Hy). injection H as <-. now rewrite Hy.
Qed.

(** A number above a threshold that is not negative is not zero. *)
Lemma gtb_nonneg_truthy (x : float) (k : Z) :
  (0 <= k)%Z -> gtb x (of_Z k) = true -> truthy (PNum x) = true.
Proof.
  intros Hk H. destruct x as [| | | q]; try discriminate; try reflexivity.
  apply gtb_Fin in H. apply neb_Fin_zero. intro E. rewrite E in H.
  apply (Qlt_not_le _ _ H). change 0 with (inject_Z 0).
  rewrite <- Zle_Qle. exact Hk.
Qed.

(** The condition of the scorer, cell by cell. *)
Lemma good_year_true_iff (r : row) :
  good_year r = Ok true <->
  (exists x, Net_Income r = PNum x /\ gtb x (of_Z 0) = true) /\
  (exists x, ROE r = PNum x /\ gtb x (of_Z 15) = true) /\
  (exists x, Profit_Margin r = PNum x /\ gtb x (of_Z 10) = true) /\
  (exists x, Debt_Equity r = PNum x /\
             neb x zero = true /\ ltb x (Fin (1 # 2)) = true) /\
  (exists x, P_E r = PNum x /\ neb x zero = true /\ ltb x (of_Z 20) = true) /\
  (exists x, P_B r = PNum x /\ neb x zero = true /\ ltb x (of_Z 3) = true) /\
  (exists x, P_S r = PNum x /\ neb x zero = true /\ ltb x (of_Z 4) = true) /\
  (P_FCF r = PNone \/
   exists x, P_FCF r = PNum x /\ ltb x (of_Z 20) = true).
Proof.
  unfold good_year. rewrite !cell_and_true, !py_gt_true, !py_lt_true.
  assert (Hlast : or_else (is_none (P_FCF r)) (py_lt (P_FCF r) (of_Z 20))
                  = Ok true <->
                  P_FCF r = PNone \/
                  exists x, P_FCF r = PNum x /\ ltb x (of_Z 20) = true).
  { destruct (P_FCF r) as [| x]; simpl.
    - split; [now left | reflexivity].
    - split.
      + intro H. right. exists x. split; congruence.
      + intros [H | (y & H & Hy)]; [discriminate |].
        injection H as <-. now rewrite Hy. }
  rewrite Hlast. clear Hlast.
  split.
  - intros (_ & H1 & _ & H2 & _ & H3 & T4 & (x4 & E4 & L4) & T5
            & (x5 & E5 & L5) & T6 & (x6 & E6 & L6) & T7 & (x7 & E7 & L7) & H8).
    rewrite E4 in T4. rewrite E5 in T5. rewrite E6 in T6. rewrite E7 in T7.
    repeat split; eauto 6.
  - intros ((x1 & E1 & G1) & (x2 & E2 & G2) & (x3 & E3 & G3)
            & (x4 & E4 & N4 & L4) & (x5 & E5 & N5 & L5)
            & (x6 & E6 & N6 & L6) & (x7 & E7 & N7 & L7) & H8).
    rewrite E1, E2, E3, E4, E5, E6, E7.
    repeat split; eauto;
      try (eapply gtb_nonneg_truthy; [| eassumption]; lia).
Qed.

(** X1.  The exact condition under which a row is counted: net income,
    return on equity and profit margin are numbers above 0, 15 and 10;
    debt to equity, P/E, P/B and P/S are numbers different from zero and
    below 0.5, 20, 3 and 4; and P/FCF is [None] or a number below 20.  A
    NaN cell satisfies none of the comparisons. *)
Theorem good_year_iff (r : row) :
  good_year r = Ok true <->
  (exists x, Net_Income r = PNum x /\ gtb x (of_Z 0) = true) /\
  (exists x, ROE r = PNum x /\ gtb x (of_Z 15) = true) /\
  (exists x, Profit_Margin r = PNum x /\ gtb x (of_Z 10) = true) /\
  (exists x, Debt_Equity r = PNum x /\
             neb x zero = true /\ ltb x (Fin (1 # 2)) = true) /\
  (exists x, P_E r = PNum x /\ neb x zero = true /\ ltb x (of_Z 20) = true) /\
  (exists x, P_B r = PNum x /\ neb x zero = true /\ ltb x (of_Z 3) = true) /\
  (exists x, P_S r = PNum x /\ neb x zero = true /\ ltb x (of_Z 4) = true) /\
  (P_FCF r = PNone \/
   exists x, P_FCF r = PNum x /\ ltb x (of_Z 20) = true).
Proof. exact (good_year_true_iff r). Qed.

(** X2.  A negative P/FCF is accepted like a missing one: the year of a
    company that burns cash is counted as if it had no P/FCF. *)
Theorem good_year_negative_pfcf (r : row) (q : Q) :
  P_FCF r = PNum (Fin q) -> q < 0 ->
  good_year r =
  good_year {| Net_Income := Net_Income r; Total_Debt := Total_Debt r;
               Equity := Equity r; Free_Cash_Flow := Free_Cash_Flow r;
               ROE := ROE r; Debt_Equity := Debt_Equity r;
               Profit_Margin := Profit_Margin r; P_E := P_E r;
               P_B := P_B r; P_S := P_S r; P_FCF := PNone |}.
Proof.
  intros E Hq. unfold good_year. cbn [Net_Income ROE Profit_Margin
    Debt_Equity P_E P_B P_S P_FCF]. rewrite E.
  assert (H : or_else (is_none (PNum (Fin q))) (py_lt (PNum (Fin q)) (of_Z 20))
              = Ok true).
  { cbn [is_none or_else py_lt]. f_equal. apply ltb_Fin.
    change (inject_Z 20) with 20. lra. }
  rewrite H. reflexivity.
Qed.

End ScorerRules.

(* ===================================================================== *)
(** ** financial_analysis.py: what the calculator returns *)
(* ===================================================================== *)

Section CalculatorRules.

Import financial_analysis.

Local Open Scope Q_scope.

Variable zero_division : float -> result float.

Lemma truthy_Fin (q : Q) : ~ q == 0 -> truthy (PNum (Fin q)) = true.
Proof. intro H. now apply neb_Fin_zero. Qed.

Lemma truthy_cases (v : pyval) :
  truthy v = true ->
  v = PNum NaN \/ v = PNum PInf \/ v = PNum NInf \/
  exists q, v = PNum (Fin q) /\ ~ q == 0.
Proof.
  destruct v as [| [| | | q]]; simpl; intro H; try discriminate; auto.
  right. right. right. exists q. split; [reflexivity |].
  now apply neb_Fin_zero.
Qed.

Lemma eqb_zero_Fin (q : Q) : ~ q == 0 -> eqb (Fin q) zero = false.
Proof.
  intro H. apply neb_Fin_zero in H. unfold neb in H.
  now apply negb_true_iff in H.
Qed.

(** The quotient of two numbers whose divisor is not zero. *)
Lemma safe_div_Fin (a b : Q) :
  ~ b == 0 ->
  safe_div zero_division (PNum (Fin a)) (PNum (Fin b))
  = PNum (Fin (Qred (a / b))).
Proof.
  intro Hb. unfold safe_div, py_div. rewrite (eqb_zero_Fin b Hb).
  unfold div. destruct (Qeq_bool b 0) eqn:E; [| reflexivity].
  apply Qeq_bool_iff in E. contradiction.
Qed.

Lemma percent_Fin (a b : Q) :
  ~ b == 0 ->
  exists k,
    py_mul (safe_div zero_division (PNum (Fin a)) (PNum (Fin b))) hundred
    = Ok (PNum (Fin k)) /\ k == 100 * (a / b).
Proof.
  intro Hb. rewrite (safe_div_Fin a b Hb). eexists. split; [reflexivity |].
  change (inject_Z 100) with 100. rewrite !Qred_correct. ring.
Qed.

(** A price over a per-share figure is the market value over the figure. *)
Lemma per_share_Fin (price x shares : Q) :
  ~ x == 0 -> ~ shares == 0 ->
  exists k,
    safe_div zero_division (PNum (Fin price))
      (safe_div zero_division (PNum (Fin x)) (PNum (Fin shares)))
    = PNum (Fin k) /\ k == price * shares / x.
Proof.
  intros Hx Hs. rewrite (safe_div_Fin x shares Hs).
  assert (Hq : ~ Qred (x / shares) == 0).
  { rewrite Qred_correct. intro E. apply Hx.
    assert (E' : x == x / shares * shares) by (field; exact Hs).
    rewrite E' , E. ring. }
  rewrite (safe_div_Fin price _ Hq). eexists. split; [reflexivity |].
  rewrite !Qred_correct. field. split; assumption.
Qed.

(** The fields of the row that the loop body returns. *)
Lemma compute_row_inv (p : period) (r : row) :
  compute_row zero_division p = Ok r ->
  (if negb (is_none (p_cash_from_ops p)) && negb (is_none (p_capex p))
   then py_add (p_cash_from_ops p) (p_capex p)
   else Ok PNone) = Ok (Free_Cash_Flow r) /\
  (if truthy (p_net_income p) && truthy (p_equity p) && py_ne0 (p_equity p)
   then py_mul (safe_div zero_division (p_net_income p) (p_equity p)) hundred
   else Ok PNone) = Ok (ROE r) /\
  (if truthy (p_total_debt p) && truthy (p_equity p) && py_ne0 (p_equity p)
   then safe_div zero_division (p_total_debt p) (p_equity p)
   else PNone) = Debt_Equity r /\
  (if truthy (p_net_income p) && truthy (p_total_revenue p)
   then py_mul (safe_div zero_division (p_net_income p) (p_total_revenue p))
          hundred
   else Ok PNone) = Ok (Profit_Margin r) /\
  (if truthy (p_net_income p) && truthy (p_shares_outstanding p)
      && truthy (p_price p)
   then safe_div zero_division (p_price p)
          (safe_div zero_division (p_net_income p) (p_shares_outstanding p))
   else PNone) = P_E r /\
  (if truthy (p_equity p) && truthy (p_shares_outstanding p)
      && truthy (p_price p)
   then safe_div zero_division (p_price p)
          (safe_div zero_division (p_equity p) (p_shares_outstanding p))
   else PNone) = P_B r /\
  (if truthy (p_total_revenue p) && truthy (p_shares_outstanding p)
      && truthy (p_price p)
   then safe_div zero_division (p_price p)
          (safe_div zero_division (p_total_revenue p)
             (p_shares_outstanding p))
   else PNone) = P_S r /\
  (if truthy (Free_Cash_Flow r) && truthy (p_shares_outstanding p)
      && truthy (p_price p)
   then safe_div zero_division (p_price p)
          (safe_div zero_division (Free_Cash_Flow r)
             (p_shares_outstanding p))
   else PNone) = P_FCF r /\
  Net_Income r = p_net_income p /\
  Total_Debt r = p_total_debt p /\
  Equity r = p_equity p.
Proof.
  unfold compute_row. intro H.
  apply bind_Ok in H. destruct H as (fcf & Hfcf & H).
  apply bind_Ok in H. destruct H as (roe & Hroe & H).
  apply bind_Ok in H. destruct H as (de & Hde & H).
  apply bind_Ok in H. destruct H as (pm & Hpm & H).
  apply bind_Ok in H. destruct H as (mc & Hmc & H).
  injection H as <-. cbn [Free_Cash_Flow ROE Debt_Equity Profit_Margin
    P_E P_B P_S P_FCF Net_Income Total_Debt Equity].
  repeat split; try assumption.
  destruct (truthy (p_total_debt p) && truthy (p_equity p)
            && py_ne0 (p_equity p)); congruence.
Qed.

(** X3.  For a year whose eight inputs are numbers different from zero,
    with a free cash flow different from zero, every field of the row has
    its formula value; the four price ratios are the market value (price
    times shares) over net income, equity, revenue and free cash flow. *)
Theorem compute_row_formulas
    (ni debt eq rev cfo capex price shares : Q) :
  ~ ni == 0 -> ~ debt == 0 -> ~ eq == 0 -> ~ rev == 0 ->
  ~ cfo + capex == 0 -> ~ price == 0 -> ~ shares == 0 ->
  exists r fcf roe de pm pe pb ps pfcf,
    compute_row zero_division
      {| p_net_income := PNum (Fin ni);
         p_total_debt := PNum (Fin debt);
         p_equity := PNum (Fin eq);
         p_total_revenue := PNum (Fin rev);
         p_cash_from_ops := PNum (Fin cfo);
         p_capex := PNum (Fin capex);
         p_price := PNum (Fin price);
         p_shares_outstanding := PNum (Fin shares) |} = Ok r /\
    Free_Cash_Flow r = PNum (Fin fcf) /\ fcf == cfo + capex /\
    ROE r = PNum (Fin roe) /\ roe == 100 * (ni / eq) /\
    Debt_Equity r = PNum (Fin de) /\ de == debt / eq /\
    Profit_Margin r = PNum (Fin pm) /\ pm == 100 * (ni / rev) /\
    P_E r = PNum (Fin pe) /\ pe == price * shares / ni /\
    P_B r = PNum (Fin pb) /\ pb == price * shares / eq /\
    P_S r = PNum (Fin ps) /\ ps == price * shares / rev /\
    P_FCF r = PNum (Fin pfcf) /\ pfcf == price * shares / (cfo + capex).
Proof.
  intros Hni Hdebt Heq Hrev Hfcf Hprice Hshares.
  set (p := {| p_net_income := PNum (Fin ni) |}).
  destruct (compute_row_total zero_division p) as [r Hr].
  destruct (compute_row_inv p r Hr)
    as (Efcf & Eroe & Ede & Epm & Epe & Epb & Eps & Epfcf & _).
  subst p. cbn [p_net_income p_total_debt p_equity p_total_revenue
    p_cash_from_ops p_capex p_price p_shares_outstanding] in *.
  change (py_ne0 (PNum (Fin eq))) with (truthy (PNum (Fin eq))) in *.
  rewrite ?(truthy_Fin ni Hni), ?(truthy_Fin debt Hdebt),
    ?(truthy_Fin eq Heq), ?(truthy_Fin rev Hrev),
    ?(truthy_Fin price Hprice), ?(truthy_Fin shares Hshares) in *.
  cbn [is_none negb andb py_add add] in *.
  injection Efcf as Efcf.
  assert (Hfcf' : ~ Qred (cfo + capex) == 0) by now rewrite Qred_correct.
  unfold fin in Efcf. rewrite <- Efcf in Epfcf.
  rewrite (truthy_Fin _ Hfcf') in Epfcf. cbn [andb] in Epfcf.
  destruct (percent_Fin ni eq Heq) as (roe & Hroe & Hroe').
  destruct (percent_Fin ni rev Hrev) as (pm & Hpm & Hpm').
  destruct (per_share_Fin price ni shares Hni Hshares) as (pe & Hpe & Hpe').
  destruct (per_share_Fin price eq shares Heq Hshares) as (pb & Hpb & Hpb').
  destruct (per_share_Fin price rev shares Hrev Hshares) as (ps & Hps & Hps').
  destruct (per_share_Fin price _ shares Hfcf' Hshares)
    as (pfcf & Hpfcf & Hpfcf').
  rewrite Hroe in Eroe. rewrite Hpm in Epm. rewrite Hpe in Epe.
  rewrite Hpb in Epb. rewrite Hps in Eps. rewrite Hpfcf in Epfcf.
  rewrite (safe_div_Fin debt eq Heq) in Ede.
  exists r, (Qred (cfo + capex)), roe, (Qred (debt / eq)), pm, pe, pb, ps, pfcf.
  repeat split; try congruence; try assumption; try apply Qred_correct.
  rewrite Hpfcf', Qred_correct. reflexivity.
Qed.

(** A guarded quotient is a number. *)
Lemma percent_number (a b : pyval) :
  truthy a = true -> truthy b = true ->
  exists x, py_mul (safe_div zero_division a b) hundred = Ok (PNum x).
Proof.
  intros Ha Hb. destruct (percent_guarded zero_division a b Ha Hb)
    as (x & y & _ & _ & ->). eauto.
Qed.

(** X4.  When each of the three ratios of the statements and the free cash
    flow are missing from the row: free cash flow when one of its two
    cells is absent (a cell equal to zero counts as present); return on
    equity, debt to equity and profit margin when one of their two
    operands is absent or equal to zero. *)
Theorem compute_row_missing_fields (p : period) (r : row) :
  compute_row zero_division p = Ok r ->
  (Free_Cash_Flow r = PNone <->
     p_cash_from_ops p = PNone \/ p_capex p = PNone) /\
  (ROE r = PNone <->
     truthy (p_net_income p) = false \/ truthy (p_equity p) = false) /\
  (Debt_Equity r = PNone <->
     truthy (p_total_debt p) = false \/ truthy (p_equity p) = false) /\
  (Profit_Margin r = PNone <->
     truthy (p_net_income p) = false \/ truthy (p_total_revenue p) = false).
Proof.
  intro Hr. destruct (compute_row_inv p r Hr)
    as (Efcf & Eroe & Ede & Epm & _).
  assert (Hne0 : forall v, truthy v = true -> py_ne0 v = true).
  { intros [| x] H; [discriminate | exact H]. }
  split; [| split; [| split]].
  - destruct (p_cash_from_ops p) as [| x], (p_capex p) as [| y];
      simpl in Efcf; injection Efcf as <-; split; intro H;
      try reflexivity; try discriminate; auto.
    destruct H; discriminate.
  - destruct (truthy (p_net_income p)) eqn:E1,
             (truthy (p_equity p)) eqn:E2; cbn [andb] in Eroe.
    + rewrite (Hne0 _ E2) in Eroe.
      destruct (percent_number _ _ E1 E2) as (x & Hx).
      rewrite Hx in Eroe. injection Eroe as <-.
      split; [discriminate | intros [H | H]; discriminate].
    + injection Eroe as <-. split; auto.
    + injection Eroe as <-. split; auto.
    + injection Eroe as <-. split; auto.
  - destruct (truthy (p_total_debt p)) eqn:E1,
             (truthy (p_equity p)) eqn:E2; cbn [andb] in Ede.
    + rewrite (Hne0 _ E2) in Ede.
      destruct (safe_div_guarded zero_division _ _ E1 E2)
        as (x & y & _ & _ & Hx).
      rewrite Hx in Ede. rewrite <- Ede.
      split; [discriminate | intros [H | H]; discriminate].
    + rewrite <- Ede. split; auto.
    + rewrite <- Ede. split; auto.
    + rewrite <- Ede. split; auto.
  - destruct (truthy (p_net_income p)) eqn:E1,
             (truthy (p_total_revenue p)) eqn:E2; cbn [andb] in Epm.
    + destruct (percent_number _ _ E1 E2) as (x & Hx).
      rewrite Hx in Epm. injection Epm as <-.
      split; [discriminate | intros [H | H]; discriminate].
    + injection Epm as <-. split; auto.
    + injection Epm as <-. split; auto.
    + injection Epm as <-. split; auto.
Qed.

(** What a counted year needs. *)
Lemma essential_inputs (p : period) (r : row) :
  compute_row zero_division p = Ok r ->
  good_year r = Ok true ->
  (exists x, p_net_income p = PNum x /\ gtb x (of_Z 0) = true) /\
  truthy (p_total_debt p) = true /\
  truthy (p_equity p) = true /\
  truthy (p_total_revenue p) = true /\
  truthy (p_price p) = true /\
  truthy (p_shares_outstanding p) = true.
Proof.
  intros Hr Hgood.
  destruct (compute_row_inv p r Hr)
    as (_ & _ & Ede & Epm & Epe & _ & _ & _ & Eni & _).
  apply good_year_true_iff in Hgood.
  destruct Hgood as ((x1 & E1 & G1) & _ & (x3 & E3 & _) & (x4 & E4 & _)
                     & (x5 & E5 & _) & _).
  rewrite Eni in E1.
  split; [eauto |].
  destruct (truthy (p_total_debt p)); [| cbn [andb] in Ede; congruence].
  destruct (truthy (p_equity p)); [| cbn [andb] in Ede; congruence].
  destruct (truthy (p_total_revenue p));
    [| rewrite andb_false_r in Epm; congruence].
  destruct (truthy (p_price p));
    [| rewrite andb_false_r in Epe; congruence].
  destruct (truthy (p_shares_outstanding p));
    [| rewrite andb_false_r in Epe; cbn [andb] in Epe; congruence].
  repeat split.
Qed.

(** X5.  A year is counted only if its six essential inputs are there:
    when the row computed for a year satisfies the scorer, the net income
    is a positive number and the total debt, the equity, the revenue, the
    price and the share count are numbers different from zero.  A year
    without debt, without a price or without a share count is never
    counted. *)
Theorem good_year_essential_inputs (p : period) (r : row) :
  compute_row zero_division p = Ok r ->
  good_year r = Ok true ->
  (exists x, p_net_income p = PNum x /\ gtb x (of_Z 0) = true) /\
  truthy (p_total_debt p) = true /\
  truthy (p_equity p) = true /\
  truthy (p_total_revenue p) = true /\
  truthy (p_price p) = true /\
  truthy (p_shares_outstanding p) = true.
Proof. exact (essential_inputs p r). Qed.

End CalculatorRules.

(* ===================================================================== *)
(** ** financial_analysis.py: divisions by zero, the frame, the loop *)
(* ===================================================================== *)

Section CalculatorDivisions.

Import financial_analysis.

Local Open Scope Q_scope.

(** A per-share figure is not zero: the second division of a price ratio
    has a divisor different from zero. *)
Lemma per_share_not_zero (x shares : float) :
  neb x zero = true -> neb shares zero = true ->
  shares <> PInf -> shares <> NInf ->
  eqb (div x shares) zero = false.
Proof.
  intros Hx Hs Hp Hn.
  destruct shares as [| | | b]; try congruence.
  - destruct x; reflexivity.
  - apply neb_Fin_zero in Hs.
    destruct x as [| | | a]; simpl.
    + reflexivity.
    + destruct (b ?= 0); reflexivity.
    + destruct (b ?= 0); reflexivity.
    + destruct (Qeq_bool b 0) eqn:E.
      * apply Qeq_bool_iff in E. contradiction.
      * apply neb_Fin_zero in Hx. apply eqb_zero_Fin.
        rewrite Qred_correct. intro E'. apply Hx.
        assert (E2 : a == a / b * b) by (field; exact Hs).
        rewrite E2, E'. ring.
Qed.

Lemma safe_div_same (zd zd' : float -> result float) (a b : pyval) :
  truthy b = true -> safe_div zd a b = safe_div zd' a b.
Proof.
  intro Hb. destruct a as [| x], b as [| y]; try reflexivity.
  unfold safe_div, py_div. simpl in Hb. unfold neb in Hb.
  apply negb_true_iff in Hb. now rewrite Hb.
Qed.

(** A price ratio under its guard: a number, the same whatever a division
    by zero would do. *)
Lemma price_ratio_guarded (zd : float -> result float)
    (x shares price : pyval) :
  truthy x = true -> truthy shares = true -> truthy price = true ->
  shares <> PNum PInf -> shares <> PNum NInf ->
  exists a s c,
    x = PNum a /\ shares = PNum s /\ price = PNum c /\
    safe_div zd price (safe_div zd x shares) = PNum (div c (div a s)).
Proof.
  intros Hx Hs Hc Hp Hn.
  destruct (truthy_number _ Hx) as [a ->].
  destruct (truthy_number _ Hs) as [s ->].
  destruct (truthy_number _ Hc) as [c ->].
  exists a, s, c. repeat split.
  assert (Hz : eqb (div a s) zero = false).
  { apply per_share_not_zero; try assumption; congruence. }
  assert (Hs0 : eqb s zero = false).
  { simpl in Hs. unfold neb in Hs. now apply negb_true_iff in Hs. }
  unfold safe_div, py_div. rewrite Hs0. cbn [bind]. now rewrite Hz.
Qed.

Lemma row_ext (r r' : row) :
  Net_Income r = Net_Income r' -> Total_Debt r = Total_Debt r' ->
  Equity r = Equity r' -> Free_Cash_Flow r = Free_Cash_Flow r' ->
  ROE r = ROE r' -> Debt_Equity r = Debt_Equity r' ->
  Profit_Margin r = Profit_Margin r' -> P_E r = P_E r' ->
  P_B r = P_B r' -> P_S r = P_S r' -> P_FCF r = P_FCF r' -> r = r'.
Proof. destruct r, r'; simpl; intros; congruence. Qed.

(** X6.  With a share count that is not infinite, the loop body never
    divides by zero: the row does not depend on what a division by zero
    would do (raise, as for Python numbers, or return an infinity or NaN,
    as for numpy scalars). *)
Theorem compute_row_never_divides_by_zero
    (zd zd' : float -> result float) (p : period) :
  p_shares_outstanding p <> PNum PInf ->
  p_shares_outstanding p <> PNum NInf ->
  compute_row zd p = compute_row zd' p.
Proof.
  intros Hp Hn.
  destruct (compute_row_total zd p) as [r Hr].
  destruct (compute_row_total zd' p) as [r' Hr'].
  rewrite Hr, Hr'. f_equal.
  destruct (compute_row_inv zd p r Hr)
    as (Efcf & Eroe & Ede & Epm & Epe & Epb & Eps & Epfcf & Eni & Edebt & Eeq).
  destruct (compute_row_inv zd' p r' Hr')
    as (Efcf' & Eroe' & Ede' & Epm' & Epe' & Epb' & Eps' & Epfcf'
        & Eni' & Edebt' & Eeq').
  assert (Hfcf : Free_Cash_Flow r = Free_Cash_Flow r') by congruence.
  assert (Hratio : forall x,
            (if truthy x && truthy (p_shares_outstanding p)
                && truthy (p_price p)
             then safe_div zd (p_price p)
                    (safe_div zd x (p_shares_outstanding p))
             else PNone)
            = (if truthy x && truthy (p_shares_outstanding p)
                  && truthy (p_price p)
               then safe_div zd' (p_price p)
                      (safe_div zd' x (p_shares_outstanding p))
               else PNone)).
  { intro x.
    destruct (truthy x) eqn:E1, (truthy (p_shares_outstanding p)) eqn:E2,
             (truthy (p_price p)) eqn:E3; try reflexivity.
    cbn [andb].
    destruct (price_ratio_guarded zd x _ _ E1 E2 E3 Hp Hn)
      as (a & s & c & Ha & Hs & Hc & E).
    destruct (price_ratio_guarded zd' x _ _ E1 E2 E3 Hp Hn)
      as (a' & s' & c' & Ha' & Hs' & Hc' & E').
    rewrite E, E'. congruence. }
  assert (Hdirect : forall a b, truthy b = true ->
            safe_div zd a b = safe_div zd' a b)
    by (intros; now apply safe_div_same).
  apply row_ext; try congruence.
  - destruct (truthy (p_net_income p) && truthy (p_equity p)) eqn:G;
      cbn [andb] in *.
    + apply andb_true_iff in G. destruct G as (_ & G).
      rewrite (Hdirect _ _ G) in Eroe. congruence.
    + congruence.
  - destruct (truthy (p_total_debt p) && truthy (p_equity p)) eqn:G;
      cbn [andb] in *.
    + apply andb_true_iff in G. destruct G as (_ & G).
      rewrite (Hdirect _ _ G) in Ede. congruence.
    + congruence.
  - destruct (truthy (p_net_income p) && truthy (p_total_revenue p)) eqn:G.
    + apply andb_true_iff in G. destruct G as (_ & G).
      rewrite (Hdirect _ _ G) in Epm. congruence.
    + congruence.
  - rewrite <- Epe, <- Epe'. apply Hratio.
  - rewrite <- Epb, <- Epb'. apply Hratio.
  - rewrite <- Eps, <- Eps'. apply Hratio.
  - rewrite <- Epfcf, <- Epfcf', <- Hfcf. apply Hratio.
Qed.

End CalculatorDivisions.

Section FrameRules.

Import financial_analysis.

Local Open Scope Q_scope.

(** The count of the loop over the rows is the number of rows that satisfy
    the condition. *)
Lemma good_years_count (df : list row) :
  good_years df =
  Ok (List.length (filter (fun r => match good_year r with
                                    | Ok b => b
                                    | Raise _ => false
                                    end) df)).
Proof.
  induction df as [| r rest IH]; simpl; [reflexivity |].
  destruct (good_year_total r) as [b ->]. simpl. rewrite IH. simpl.
  destruct b; reflexivity.
Qed.

(** A cell of the frame that is a number other than NaN is the cell of the
    dictionary; a cell of the frame that is [None] is [None] in the
    dictionary. *)
Lemma to_cell_number (col : list pyval) (v : pyval) (x : float) :
  to_cell col v = PNum x -> is_nan x = false -> v = PNum x.
Proof.
  unfold to_cell. destruct (has_number col); [| auto].
  destruct v; intros H Hx; [| exact H].
  injection H as <-. discriminate.
Qed.

Lemma to_cell_none (col : list pyval) (v : pyval) :
  to_cell col v = PNone -> v = PNone.
Proof.
  unfold to_cell. destruct (has_number col); [| auto].
  destruct v; [reflexivity | discriminate].
Qed.

Lemma gtb_not_nan (x k : float) : gtb x k = true -> is_nan x = false.
Proof. destruct x; [destruct k; discriminate | | |]; reflexivity. Qed.

Lemma ltb_not_nan (x k : float) : ltb x k = true -> is_nan x = false.
Proof. destruct x; [discriminate | | |]; reflexivity. Qed.

(** The row of the frame built from a row of [results], the columns being
    those of the whole list. *)
Lemma DataFrame_map (rs : list row) :
  exists conv : row -> row,
    DataFrame rs = map conv rs /\
    forall r, good_year (conv r) = Ok true -> good_year r = Ok true.
Proof.
  exists (fun r =>
    {| Net_Income := to_cell (map Net_Income rs) (Net_Income r);
       Total_Debt := to_cell (map Total_Debt rs) (Total_Debt r);
       Equity := to_cell (map Equity rs) (Equity r);
       Free_Cash_Flow := to_cell (map Free_Cash_Flow rs) (Free_Cash_Flow r);
       ROE := to_cell (map ROE rs) (ROE r);
       Debt_Equity := to_cell (map Debt_Equity rs) (Debt_Equity r);
       Profit_Margin := to_cell (map Profit_Margin rs) (Profit_Margin r);
       P_E := to_cell (map P_E rs) (P_E r);
       P_B := to_cell (map P_B rs) (P_B r);
       P_S := to_cell (map P_S rs) (P_S r);
       P_FCF := to_cell (map P_FCF rs) (P_FCF r) |}).
  split; [reflexivity |].
  intros r H. apply good_year_true_iff in H. apply good_year_true_iff.
  cbn [Net_Income ROE Profit_Margin Debt_Equity P_E P_B P_S P_FCF] in H.
  destruct H as ((x1 & E1 & G1) & (x2 & E2 & G2) & (x3 & E3 & G3)
                 & (x4 & E4 & N4 & L4) & (x5 & E5 & N5 & L5)
                 & (x6 & E6 & N6 & L6) & (x7 & E7 & N7 & L7) & H8).
  apply to_cell_number in E1; [| eapply gtb_not_nan; eauto].
  apply to_cell_number in E2; [| eapply gtb_not_nan; eauto].
  apply to_cell_number in E3; [| eapply gtb_not_nan; eauto].
  apply to_cell_number in E4; [| eapply ltb_not_nan; eauto].
  apply to_cell_number in E5; [| eapply ltb_not_nan; eauto].
  apply to_cell_number in E6; [| eapply ltb_not_nan; eauto].
  apply to_cell_number in E7; [| eapply ltb_not_nan; eauto].
  repeat split; eauto.
  destruct H8 as [H8 | (x8 & E8 & L8)].
  - left. eapply to_cell_none; eauto.
  - right. apply to_cell_number in E8; [| eapply ltb_not_nan; eauto]. eauto.
Qed.

Lemma filter_map_le (conv : row -> row) (keep : row -> bool)
    (rs : list row) :
  (forall r, keep (conv r) = true -> keep r = true) ->
  (List.length (filter keep (map conv rs))
   <= List.length (filter keep rs))%nat.
Proof.
  intro H. induction rs as [| r rest IH]; simpl; [lia |].
  destruct (keep (conv r)) eqn:E.
  - rewrite (H r E). simpl. lia.
  - destruct (keep r); simpl; lia.
Qed.

(** The count read from the frame and the count over the dictionaries. *)
Lemma DataFrame_count (rs : list row) :
  List.length (DataFrame rs) = List.length rs /\
  exists n m : nat,
    good_years (DataFrame rs) = Ok n /\ good_years rs = Ok m /\ (n <= m)%nat.
Proof.
  split; [unfold DataFrame; apply length_map |].
  destruct (DataFrame_map rs) as (conv & -> & Hconv).
  rewrite !good_years_count. do 2 eexists.
  split; [reflexivity |]. split; [reflexivity |].
  apply filter_map_le. intros r H.
  destruct (good_year (conv r)) as [[|] | e] eqn:E; try discriminate.
  now rewrite (Hconv r E).
Qed.

(** X7.  Building the frame from [results] keeps the number of rows and
    never turns a rejected year into a counted one: the count of good years
    read from the frame is at most the count over the dictionaries.  (It
    can be smaller: a missing P/FCF becomes NaN in a column that holds a
    number.) *)
Theorem DataFrame_good_years (rs : list row) :
  List.length (DataFrame rs) = List.length rs /\
  exists n m : nat,
    good_years (DataFrame rs) = Ok n /\ good_years rs = Ok m /\ (n <= m)%nat.
Proof. exact (DataFrame_count rs). Qed.

End FrameRules.

Section LoopRules.

Import financial_analysis.

Local Open Scope Q_scope.

Variable zero_division : float -> result float.
Variables financials balance_sheet cashflow : statements.
Variable year_ends : list float.
Variable shares_outstanding : pyval.

(** A year of the index of a frame is found in the frame. *)
Lemma loc_In (frame : statements) (year : Z) :
  In year (map fst frame) -> exists s, loc frame year = Found s.
Proof.
  induction frame as [| [y s] rest IH]; simpl; [contradiction |].
  intros [-> | H].
  - rewrite Z.eqb_refl. eauto.
  - destruct (Z.eqb y year); eauto.
Qed.

Lemma In_firstn_Z (n : nat) (l : list Z) (x : Z) :
  In x (firstn n l) -> In x l.
Proof.
  revert l. induction n as [| n IH]; intros [| y l]; simpl; try tauto.
  intros [-> | H]; [now left | right; now apply IH].
Qed.

Lemma years_found (year : Z) :
  In year (years financials) -> exists s, loc financials year = Found s.
Proof. intro H. apply loc_In. eapply In_firstn_Z; eauto. Qed.

(** Whether both other frames have the year. *)
Lemma try_year_Some (i : nat) (year : Z) :
  In year (years financials) ->
  match loc balance_sheet year, loc cashflow year with
  | Found bal, Found cash =>
      exists fin r,
        loc financials year = Found fin /\
        compute_row zero_division
          (read_period fin bal cash (year_end_close year_ends i)
             shares_outstanding) = Ok r /\
        try_year zero_division financials balance_sheet cashflow year_ends
          shares_outstanding i year = Some (year, r)
  | _, _ =>
      try_year zero_division financials balance_sheet cashflow year_ends
        shares_outstanding i year = None
  end.
Proof.
  intro H. destruct (years_found year H) as [fin Hfin].
  unfold try_year. rewrite Hfin.
  destruct (loc balance_sheet year) as [bal |]; [| reflexivity].
  destruct (loc cashflow year) as [cash |]; [| reflexivity].
  destruct (compute_row_total zero_division
              (read_period fin bal cash (year_end_close year_ends i)
                 shares_outstanding)) as [r Hr].
  exists fin, r. rewrite Hr. repeat split.
Qed.



(** Every row of the table comes from the statements of its year and from
    the close at the position of the year. *)
Lemma loop_rows (i : nat) (ys : list Z) (year : Z) (r : row) :
  (forall y, In y ys -> In y (years financials)) ->
  In (year, r) (loop zero_division financials balance_sheet cashflow
                  year_ends shares_outstanding i ys) ->
  exists k fin bal cash,
    nth_error ys k = Some year /\
    loc financials year = Found fin /\
    loc balance_sheet year = Found bal /\
    loc cashflow year = Found cash /\
    compute_row zero_division
      (read_period fin bal cash (year_end_close year_ends (i + k))
         shares_outstanding) = Ok r.
Proof.
  revert i. induction ys as [| y rest IH]; intros i H Hin; [contradiction |].
  cbn [loop] in Hin.
  pose proof (try_year_Some i y (H y (or_introl eq_refl))) as Hy.
  assert (Hrest : forall z, In z rest -> In z (years financials))
    by (intros; apply H; now right).
  assert (Htail : In (year, r)
            (loop zero_division financials balance_sheet cashflow year_ends
               shares_outstanding (S i) rest) ->
          exists k fin bal cash,
            nth_error (y :: rest) k = Some year /\
            loc financials year = Found fin /\
            loc balance_sheet year = Found bal /\
            loc cashflow year = Found cash /\
            compute_row zero_division
              (read_period fin bal cash (year_end_close year_ends (i + k))
                 shares_outstanding) = Ok r).
  { intro Ht. destruct (IH (S i) Hrest Ht)
      as (k & fin & bal & cash & Hk & Hf & Hb & Hc & Hr).
    exists (S k), fin, bal, cash. repeat split; try assumption.
    replace (i + S k)%nat with (S i + k)%nat by lia. exact Hr. }
  destruct (loc balance_sheet y) as [bal |] eqn:Eb;
    [destruct (loc cashflow y) as [cash |] eqn:Ec |].
  - destruct Hy as (fin & r0 & Hf & Hr0 & Hy). rewrite Hy in Hin.
    destruct Hin as [Hin | Hin]; [| now apply Htail].
    injection Hin as <- <-.
    exists 0%nat, fin, bal, cash. rewrite Nat.add_0_r. repeat split;
      assumption.
  - rewrite Hy in Hin. now apply Htail.
  - rewrite Hy in Hin. now apply Htail.
Qed.

(** X9.  Prices are paired with years by position: the row of a year is
    computed from the statements of that year and from the close at the
    position, in [year_ends], that the year has in [years], whatever the
    date of that close. *)
Theorem yearly_results_rows (year : Z) (r : row) :
  In (year, r) (yearly_results zero_division financials balance_sheet
                  cashflow year_ends shares_outstanding) ->
  exists k fin bal cash,
    nth_error (firstn 5 (map fst financials)) k = Some year /\
    loc financials year = Found fin /\
    loc balance_sheet year = Found bal /\
    loc cashflow year = Found cash /\
    compute_row zero_division
      (read_period fin bal cash (year_end_close year_ends k)
         shares_outstanding) = Ok r.
Proof.
  intro H. unfold yearly_results in H.
  apply (loop_rows 0 (years financials) year r) in H; auto.
Qed.

End LoopRules.

Section VerdictRules.

Import financial_analysis.

Local Open Scope Q_scope.

Lemma verdict_of_zero (total : nat) :
  verdict_of 0 total <> Performed_well.
Proof.
  unfold verdict_of. destruct (Nat.eqb_spec total 0) as [E | E];
    [discriminate |].
  unfold meets_threshold.
  destruct (Qle_bool (inject_Z (Z.of_nat total) * (6 # 10))
              (inject_Z (Z.of_nat 0))) eqn:L; [| discriminate].
  apply Qle_bool_iff in L. exfalso.
  assert (H : 0 < inject_Z (Z.of_nat total)).
  { change 0 with (inject_Z 0). rewrite <- Zlt_Qlt. lia. }
  change (inject_Z (Z.of_nat 0)) with 0 in L. lra.
Qed.

Lemma filter_none (keep : row -> bool) (rs : list row) :
  (forall r, In r rs -> keep r = false) -> filter keep rs = [].
Proof.
  induction rs as [| r rest IH]; simpl; intro H; [reflexivity |].
  rewrite (H r (or_introl eq_refl)). apply IH. intros; apply H; now right.
Qed.

(** X10.  Without a year-end close (an empty price history) or without a
    share count, no year of the table is counted and the verdict is never
    "performed well", whatever the statements hold. *)
Theorem no_price_no_good_year
    (zero_division : float -> result float)
    (financials balance_sheet cashflow : statements)
    (year_ends : list float) (shares_outstanding : pyval) :
  year_ends = [] \/ truthy shares_outstanding = false ->
  let df := DataFrame
              (map snd (yearly_results zero_division financials
                          balance_sheet cashflow year_ends
                          shares_outstanding)) in
  good_years df = Ok 0%nat /\ evaluate df <> Ok Performed_well.
Proof.
  intros Hmiss df.
  set (rs := map snd (yearly_results zero_division financials
                        balance_sheet cashflow year_ends
                        shares_outstanding)) in *.
  assert (Hnone : good_years rs = Ok 0%nat).
  { rewrite good_years_count. f_equal.
    rewrite filter_none; [reflexivity |].
    intros r Hr. subst rs. apply in_map_iff in Hr.
    destruct Hr as ([year r'] & <- & Hin). cbn [snd].
    unfold yearly_results in Hin.
    destruct (loop_rows _ _ _ _ _ _ 0 _ _ _ (fun y Hy => Hy) Hin)
      as (k & fin & bal & cash & _ & _ & _ & _ & Hrow).
    cbn [Nat.add] in Hrow.
    destruct (good_year r') as [[|] | e] eqn:E; try reflexivity.
    exfalso.
    destruct (essential_inputs _ _ _ Hrow E)
      as (_ & _ & _ & _ & Hprice & Hshares).
    cbn [read_period p_price p_shares_outstanding] in Hprice, Hshares.
    destruct Hmiss as [-> | Hs]; [| congruence].
    unfold year_end_close in Hprice. destruct k; discriminate. }
  destruct (DataFrame_count rs) as (_ & n & m & Hn & Hm & Hle).
  fold df in Hn.
  assert (n = 0%nat) by (rewrite Hnone in Hm; injection Hm as <-; lia).
  subst n. split; [exact Hn |].
  unfold evaluate. rewrite Hn. cbn [bind]. intro H. injection H as H.
  exact (verdict_of_zero _ H).
Qed.

(** The interpretation paragraph follows the verdict: there is none when
    the table is empty, and its six phrases are all favourable or all
    unfavourable. *)
Lemma interpretation_follows_verdict (good_years total_years : nat) :
  match verdict_of good_years total_years with
  | Insufficient_data => interpretation good_years total_years = None
  | Performed_well =>
      interpretation good_years total_years
      = Some ["mostly positive"; "strong"; "healthy"; "low"; "attractive";
              "strong fundamentals and valuation"]%string
  | Mixed_or_weak =>
      interpretation good_years total_years
      = Some ["variable or negative"; "inconsistent"; "below ideal";
              "relatively high"; "mixed or high";
              "some weaknesses or risks"]%string
  end.
Proof.
  unfold verdict_of, interpretation.
  destruct (Nat.eqb total_years 0); [reflexivity |].
  destruct (meets_threshold good_years total_years); reflexivity.
Qed.

(** X11.  The note under the ten-year chart.  Without prices the note says
    so.  With a first price above zero the change is
    100 x (last - first) / first, and the note speaks of significant
    growth exactly when the last price is more than 1.2 times the first.
    With a first price of zero nothing is raised: the change is an infinity
    or NaN, and growth is reported exactly when the last price is above
    zero. *)
Theorem price_movement_rule (start_price end_price : Q) (rest : list float) :
  last (Fin start_price :: rest) (Fin start_price) = Fin end_price ->
  price_movement [] = No_price_data /\
  (0 < start_price ->
   exists change : Q,
     change == 100 * ((end_price - start_price) / start_price) /\
     ((12 # 10) * start_price < end_price ->
      price_movement (Fin start_price :: rest)
      = Significant_growth (Fin change)) /\
     (end_price <= (12 # 10) * start_price ->
      price_movement (Fin start_price :: rest)
      = Limited_growth_or_decline (Fin change))) /\
  (start_price == 0 ->
   (0 < end_price ->
    price_movement (Fin start_price :: rest) = Significant_growth PInf) /\
   (end_price == 0 ->
    price_movement (Fin start_price :: rest)
    = Limited_growth_or_decline NaN) /\
   (end_price < 0 ->
    price_movement (Fin start_price :: rest)
    = Limited_growth_or_decline NInf)).
Proof.
  intro Hlast. split; [reflexivity |].
  unfold price_movement. rewrite Hlast. unfold sub, fin, div.
  split.
  - intro Hpos.
    assert (Hz : Qeq_bool start_price 0 = false).
    { destruct (Qeq_bool start_price 0) eqn:E; [| reflexivity].
      apply Qeq_bool_iff in E. lra. }
    rewrite Hz. unfold fin, mul, fin.
    change (of_Z 100) with (Fin (inject_Z 100)). cbv iota.
    set (c := Qred (Qred (Qred (end_price - start_price) / start_price)
                    * inject_Z 100)).
    assert (Hc : c == (end_price - start_price) / start_price * 100).
    { subst c. change (inject_Z 100) with 100.
      now rewrite !Qred_correct. }
    exists c. split.
    + rewrite Hc. apply Qmult_comm.
    + set (t := (end_price - start_price) / start_price) in *.
      split; intro H.
      * assert (Ht : (1 # 5) < t).
        { apply Qlt_shift_div_l; [exact Hpos | lra]. }
        assert (G : gtb (Fin c) (of_Z 20) = true).
        { apply gtb_Fin. change (inject_Z 20) with 20. rewrite Hc. lra. }
        now rewrite G.
      * assert (Ht : t <= (1 # 5)).
        { apply Qle_shift_div_r; [exact Hpos | lra]. }
        assert (G : gtb (Fin c) (of_Z 20) = false).
        { unfold gtb. apply ltb_Fin_false. change (inject_Z 20) with 20.
          rewrite Hc. lra. }
        now rewrite G.
  - intro Hzero. apply Qeq_bool_iff in Hzero. rewrite Hzero.
    assert (Hcmp : (Qred (end_price - start_price) ?= 0) = (end_price ?= 0)).
    { apply Qeq_bool_iff in Hzero. rewrite Qred_correct, Hzero.
      destruct (end_price ?= 0) eqn:E.
      - apply Qeq_alt in E. apply (proj1 (Qeq_alt _ _)). lra.
      - apply Qlt_alt in E. apply (proj1 (Qlt_alt _ _)). lra.
      - apply Qgt_alt in E. apply (proj1 (Qgt_alt _ _)). lra. }
    rewrite Hcmp.
    split; [| split]; intro H.
    + now rewrite (proj1 (Qgt_alt end_price 0) H).
    + now rewrite (proj1 (Qeq_alt end_price 0) H).
    + now rewrite (proj1 (Qlt_alt end_price 0) H).
Qed.

End VerdictRules.

(* ===================================================================== *)
(** ** stock_analysis.py: news, fundamentals and the summary *)
(* ===================================================================== *)

Section SummaryRules.

Import stock_analysis.

Local Open Scope string_scope.

Lemma overall_total (avg_sentiment : pyval) (technical_decision : string) :
  exists v, overall avg_sentiment technical_decision = Ok v.
Proof.
  unfold overall.
  destruct (String.eqb technical_decision "BUY"); cbn [and_then bind];
    [| eauto].
  destruct avg_sentiment as [| x]; cbn [truthy py_gt and_then bind];
    [eauto |].
  destruct (neb x zero); cbn [and_then bind]; eauto.
Qed.

Lemma qa_msg_total (avg_sentiment : pyval) :
  exists v, qa_msg avg_sentiment = Ok v.
Proof.
  unfold qa_msg.
  destruct avg_sentiment as [| x]; cbn [truthy py_gt and_then bind];
    [eauto |].
  destruct (neb x zero); cbn [and_then bind]; eauto.
Qed.

(** X12.  The message on the P/E ratio, from the [info] dictionary.  With
    no "trailingPE" key, or with the text "N/A", the message is "average or
    high".  With a number it is "might be undervalued" exactly when the
    number is below 15, a negative ratio included, and "average or high"
    otherwise, NaN included.  With [None] or any other text, the
    comparison raises [TypeError]. *)
Theorem pe_ratio_message (info : string -> option infoval) :
  let average := "PE Ratio is average or high." in
  let undervalued := "PE Ratio suggests the stock might be undervalued." in
  match info "trailingPE" with
  | None => fa_msgs (fetch_fundamentals info) = Ok (average :: nil)
  | Some (INum x) =>
      fa_msgs (fetch_fundamentals info)
      = Ok ((if ltb x (of_Z 15) then undervalued else average) :: nil)
  | Some (IStr s) =>
      if String.eqb s "N/A"
      then fa_msgs (fetch_fundamentals info) = Ok (average :: nil)
      else fa_msgs (fetch_fundamentals info) = Raise TypeError
  | Some INone => fa_msgs (fetch_fundamentals info) = Raise TypeError
  end.
Proof.
  cbv zeta. unfold fa_msgs, fetch_fundamentals, info_get. cbn [PE_Ratio].
  destruct (info "trailingPE") as [[| x | s] |]; try reflexivity.
  cbn [ne_NA]. destruct (String.eqb s "N/A"); reflexivity.
Qed.

(** X13.  [summary_report] raises exactly when the P/E message does, that
    is when the "PE Ratio" entry is [None] or a text other than "N/A";
    otherwise it returns, with the decision notes unchanged and with the
    overall recommendation of the decision rule. *)
Theorem summary_report_raises (f : fundamentals) (avg_sentiment : pyval)
    (technical_decision : string) (decision_notes : list string) :
  (summary_report f avg_sentiment technical_decision decision_notes
   = Raise TypeError <->
   PE_Ratio f = INone \/ exists s, PE_Ratio f = IStr s /\ s <> "N/A") /\
  (forall e, summary_report f avg_sentiment technical_decision decision_notes
             = Raise e -> e = TypeError) /\
  (forall fa qa ta notes verdict,
     summary_report f avg_sentiment technical_decision decision_notes
     = Ok (fa, qa, ta, notes, verdict) ->
     fa_msgs f = Ok fa /\ notes = decision_notes /\
     overall avg_sentiment technical_decision = Ok verdict).
Proof.
  unfold summary_report.
  destruct (qa_msg_total avg_sentiment) as [qa Hqa].
  destruct (overall_total avg_sentiment technical_decision) as [ov Hov].
  rewrite Hqa, Hov.
  unfold fa_msgs. destruct (PE_Ratio f) as [| x | s]; cbn [ne_NA lt_15].
  - cbn [and_then bind]. split; [| split].
    + split; [intros _; now left | reflexivity].
    + intros e H. congruence.
    + intros; discriminate.
  - cbn [and_then bind]. split; [| split].
    + split; [discriminate |].
      intros [H | (s & H & _)]; discriminate H.
    + intros e H. discriminate.
    + intros fa qa' ta notes verdict H. injection H as <- <- <- <- <-.
      repeat split.
  - destruct (String.eqb_spec s "N/A") as [-> | Hne];
      cbn [negb and_then bind].
    + split; [| split].
      * split; [discriminate |].
        intros [H | (s & H & Hs)]; [discriminate |].
        injection H as <-. contradiction.
      * intros e H. discriminate.
      * intros fa qa' ta notes verdict H. injection H as <- <- <- <- <-.
        repeat split.
    + split; [| split].
      * split; [intros _; right; eauto | reflexivity].
      * intros e H. congruence.
      * intros; discriminate.
Qed.

(** X14.  The call suggestion is the stricter of the two recommendations:
    whenever it is shown the overall recommendation is "BUY"; and the
    overall recommendation is "BUY" without the suggestion exactly when the
    signal is "BUY" and the average is a number above 0 and not above
    0.05 (the binary64 literal).  Neither is ever raised by the sentiment
    value. *)
Theorem call_suggestion_implies_buy (avg_sentiment : pyval)
    (technical_decision : string) :
  (exists b, call_option_suggested avg_sentiment technical_decision = Ok b) /\
  (call_option_suggested avg_sentiment technical_decision = Ok true ->
   overall avg_sentiment technical_decision = Ok "BUY") /\
  (overall avg_sentiment technical_decision = Ok "BUY" /\
   call_option_suggested avg_sentiment technical_decision = Ok false <->
   technical_decision = "BUY" /\
   exists x, avg_sentiment = PNum x /\
             gtb x (of_Z 0) = true /\ gtb x (binary64 (1 # 20)) = false).
Proof.
  unfold call_option_suggested, overall. rewrite literal_0_05.
  destruct (String.eqb_spec technical_decision "BUY") as [-> | Hne];
    cbn [and_then bind].
  - destruct avg_sentiment as [| x]; cbn [truthy py_gt and_then bind].
    + split; [eauto |]. split; [discriminate |].
      split; [intros [H _]; discriminate |].
      intros (_ & x & H & _). discriminate.
    + destruct (neb x zero) eqn:Hnz; cbn [and_then bind].
      * split; [eauto |]. split.
        -- intro H.
           assert (H' : gtb x (Fin (3602879701896397 # 72057594037927936))
                        = true) by congruence.
           assert (G : gtb x (of_Z 0) = true).
           { destruct x as [| | | q]; try discriminate H'; try reflexivity.
             apply gtb_Fin in H'. apply gtb_Fin.
             assert (Hc : (0 < 3602879701896397 # 72057594037927936)%Q)
               by reflexivity.
             change (inject_Z 0) with 0%Q. lra. }
           now rewrite G.
        -- split.
           ++ intros [H1 H2]. split; [reflexivity |]. exists x.
              destruct (gtb x (of_Z 0)); [| discriminate].
              repeat split. congruence.
           ++ intros (_ & y & H & G0 & G1). injection H as <-.
              rewrite G0, G1. split; reflexivity.
      * split; [eauto |]. split; [discriminate |].
        split; [intros [H _]; discriminate |].
        intros (_ & y & H & G0 & _). injection H as <-.
        destruct x as [| | | q]; try discriminate.
        apply gtb_Fin in G0. unfold neb in Hnz.
        apply negb_false_iff in Hnz. apply Qeq_bool_iff in Hnz.
        change (inject_Z 0) with 0%Q in *. lra.
  - split; [eauto |]. split; [discriminate |].
    split; [intros [H _]; discriminate | intros [H _]; contradiction].
Qed.

End SummaryRules.

Section NewsRules.

Import stock_analysis.

Local Open Scope Q_scope.

(** The mean of numbers that lie between two bounds lies between them. *)
Lemma total_bounds (lo hi : Q) (qs : list Q) :
  (forall q, In q qs -> lo <= q /\ q <= hi) ->
  inject_Z (Z.of_nat (List.length qs)) * lo <= total qs /\
  total qs <= inject_Z (Z.of_nat (List.length qs)) * hi.
Proof.
  induction qs as [| a rest IH]; intro H.
  - cbn [total fold_right List.length Z.of_nat].
    change (inject_Z 0) with 0. split; lra.
  - assert (Ha : lo <= a /\ a <= hi) by (apply H; now left).
    assert (Hr : forall q, In q rest -> lo <= q /\ q <= hi)
      by (intros; apply H; now right).
    specialize (IH Hr).
    cbn [total fold_right List.length]. fold (total rest).
    rewrite Nat2Z.inj_succ. unfold Z.succ. rewrite inject_Z_plus.
    change (inject_Z 1) with 1. split; lra.
Qed.

Lemma mean_bounds (lo hi : Q) (qs : list Q) :
  qs <> [] ->
  (forall q, In q qs -> lo <= q /\ q <= hi) ->
  lo <= mean qs /\ mean qs <= hi.
Proof.
  intros Hne H. rewrite mean_correct.
  destruct (total_bounds lo hi qs H) as [Hlo Hhi].
  assert (Hn : 0 < inject_Z (Z.of_nat (List.length qs))).
  { change 0 with (inject_Z 0). rewrite <- Zlt_Qlt.
    destruct qs; [contradiction | simpl List.length; lia]. }
  split.
  - apply Qle_shift_div_l; [exact Hn |]. lra.
  - apply Qle_shift_div_r; [exact Hn |]. lra.
Qed.


(** X16.  The call suggestion and the sentiment label agree: on the result
    of [sentiment_analysis], the suggestion is shown exactly when the
    technical signal is "BUY" and the label is "Positive"; and a
    "Negative" label never gives an overall "BUY". *)
Theorem call_suggestion_label (polarity : string -> Q)
    (headlines : list string) (technical_decision : string) :
  let avg_sentiment := fst (sentiment_analysis polarity headlines) in
  let summary := snd (sentiment_analysis polarity headlines) in
  (call_option_suggested avg_sentiment technical_decision = Ok true <->
   technical_decision = "BUY"%string /\ summary = "Positive"%string) /\
  (summary = "Negative"%string ->
   overall avg_sentiment technical_decision = Ok "HOLD/WAIT"%string).
Proof.
  destruct headlines as [| h rest]; cbv zeta.
  - cbn [sentiment_analysis fst snd]. split.
    + unfold call_option_suggested.
      destruct (String.eqb technical_decision "BUY"); cbn [and_then truthy];
        split; try discriminate; intros [_ H]; discriminate H.
    + discriminate.
  - rewrite sentiment_label. cbn [fst snd].
    set (avg := np_mean (map polarity (h :: rest))). clearbody avg.
    unfold call_option_suggested, overall.
    cbn [truthy py_gt].
    rewrite neg_literal_0_05, literal_0_05.
    set (c := 3602879701896397 # 72057594037927936).
    assert (Hc : 0 < c) by reflexivity.
    assert (Hc' : - 3602879701896397 # 72057594037927936 < 0) by reflexivity.
    set (c' := - 3602879701896397 # 72057594037927936) in *.
    clearbody c c'.
    destruct (gtb avg (Fin c)) eqn:G.
    + assert (Hnz : neb avg zero = true).
      { destruct avg as [| | | m]; try reflexivity.
        apply neb_Fin_zero. apply gtb_Fin in G. intro E. lra. }
      rewrite Hnz.
      destruct (String.eqb_spec technical_decision "BUY") as [-> | Hne];
        cbn [and_then bind].
      * split; [split; auto | discriminate].
      * split; [| discriminate].
        split; [discriminate | intros [H _]; contradiction].
    + split.
      * destruct (String.eqb technical_decision "BUY"),
                 (neb avg zero); cbn [and_then bind];
          (split; [discriminate |]).
        all: intros [_ H];
          destruct (ltb avg (Fin c')); discriminate H.
      * destruct (ltb avg (Fin c')) eqn:L; [| discriminate].
        intros _.
        assert (G0 : gtb avg (of_Z 0) = false).
        { destruct avg as [| | | m]; try reflexivity; try discriminate L.
          apply ltb_Fin in L. unfold gtb. apply ltb_Fin_false.
          change (inject_Z 0) with 0. lra. }
        rewrite G0.
        destruct (String.eqb technical_decision "BUY"),
                 (neb avg zero); reflexivity.
Qed.

Lemma collect_length (field : article -> lookup string)
    (arts : list article) (vs : list string) :
  collect field arts = Found vs ->
  List.length vs = List.length arts /\
  forall i a, nth_error arts i = Some a ->
              exists v, field a = Found v /\ nth_error vs i = Some v.
Proof.
  revert vs. induction arts as [| a rest IH]; intros vs H.
  - injection H as <-. split; [reflexivity |]. intros [| i] b Hb; discriminate.
  - cbn [collect] in H. destruct (field a) as [v |] eqn:Ea; [| discriminate].
    destruct (collect field rest) as [vs' |]; [| discriminate].
    injection H as <-. destruct (IH vs' eq_refl) as [Hlen Hnth].
    split; [simpl; now rewrite Hlen |].
    intros [| i] b Hb.
    + injection Hb as <-. exists v. split; [exact Ea | reflexivity].
    + now apply Hnth.
Qed.

Lemma collect_KeyError (field : article -> lookup string)
    (arts : list article) :
  collect field arts = KeyError <->
  exists a, In a arts /\ field a = KeyError.
Proof.
  induction arts as [| a rest IH]; cbn [collect].
  - split; [discriminate | intros (a & [] & _)].
  - destruct (field a) as [v |] eqn:Ea.
    + destruct (collect field rest) as [vs |].
      * split; [discriminate |].
        intros (b & [<- | Hb] & Hk); [congruence |].
        assert (H : @Found (list string) vs = KeyError)
          by (apply IH; eauto).
        discriminate H.
      * split; [| reflexivity]. intros _.
        destruct (proj1 IH eq_refl) as (b & Hb & Hk).
        exists b. split; [now right | exact Hk].
    + split; [| reflexivity]. intros _. exists a. split; [now left | exact Ea].
Qed.

(** X17.  What [fetch_newsapi_news] returns.  With a status other than 200
    it returns no headline and no link.  With status 200 it raises
    [KeyError] exactly when an article has no "title" or no "url";
    otherwise the headlines and the links are those of the articles, in
    order and in equal number, so that pairing them loses nothing. *)
Theorem fetch_newsapi_news_rule (r : response) :
  (status_code r <> 200%Z -> fetch_newsapi_news r = Found ([], [])) /\
  (status_code r = 200%Z ->
   (fetch_newsapi_news r = KeyError <->
    exists a, In a (articles r) /\
              (title a = KeyError \/ url a = KeyError)) /\
   forall headlines links,
     fetch_newsapi_news r = Found (headlines, links) ->
     List.length headlines = List.length (articles r) /\
     List.length links = List.length (articles r) /\
     forall i a, nth_error (articles r) i = Some a ->
       exists h l, title a = Found h /\ url a = Found l /\
                   nth_error headlines i = Some h /\
                   nth_error links i = Some l).
Proof.
  unfold fetch_newsapi_news. split.
  - intro H. destruct (Z.eqb_spec (status_code r) 200); [contradiction |].
    reflexivity.
  - intros ->. cbn [Z.eqb Pos.eqb negb]. split.
    + pose proof (collect_KeyError title (articles r)) as Ht.
      pose proof (collect_KeyError url (articles r)) as Hu.
      destruct (collect title (articles r)) as [hs |].
      * destruct (collect url (articles r)) as [ls |].
        -- split; [discriminate |].
           intros (a & Ha & [Hk | Hk]).
           ++ assert (H : @Found (list string) hs = KeyError)
                by (apply Ht; eauto).
              discriminate H.
           ++ assert (H : @Found (list string) ls = KeyError)
                by (apply Hu; eauto).
              discriminate H.
        -- split; [| reflexivity]. intros _.
           destruct (proj1 Hu eq_refl) as (a & Ha & Hk). eauto.
      * split; [| reflexivity]. intros _.
        destruct (proj1 Ht eq_refl) as (a & Ha & Hk). eauto.
    + intros headlines links H.
      destruct (collect title (articles r)) as [hs |] eqn:Et; [| discriminate].
      destruct (collect url (articles r)) as [ls |] eqn:Eu; [| discriminate].
      injection H as <- <-.
      destruct (collect_length _ _ _ Et) as [Hlt Hnt].
      destruct (collect_length _ _ _ Eu) as [Hlu Hnu].
      repeat split; try assumption.
      intros i a Ha. destruct (Hnt i a Ha) as (h & Hh & Hh').
      destruct (Hnu i a Ha) as (l & Hl & Hl'). eauto 8.
Qed.

(** X18.  A request for news that fails (any status other than 200, as
    with the placeholder API key) leaves the overall recommendation at
    "HOLD/WAIT" and the call suggestion off, whatever the technical
    signal is. *)
Theorem failed_news_never_buys (r : response) (polarity : string -> Q)
    (technical_decision : string) :
  status_code r <> 200%Z ->
  exists headlines links,
    fetch_newsapi_news r = Found (headlines, links) /\
    sentiment_analysis polarity headlines
      = (PNone, "No headlines to analyze."%string) /\
    overall (fst (sentiment_analysis polarity headlines)) technical_decision
      = Ok "HOLD/WAIT"%string /\
    call_option_suggested (fst (sentiment_analysis polarity headlines))
      technical_decision = Ok false.
Proof.
  intro H. exists [], []. split.
  - unfold fetch_newsapi_news.
    destruct (Z.eqb_spec (status_code r) 200); [contradiction | reflexivity].
  - split; [reflexivity |]. cbn [sentiment_analysis fst].
    unfold overall, call_option_suggested.
    destruct (String.eqb technical_decision "BUY"); split; reflexivity.
Qed.

End NewsRules.

(* ===================================================================== *)
(** ** stock_analysis.py: the crossing tests on missing cells *)
(* ===================================================================== *)

Section CrossingRules.

Import stock_analysis.

Local Open Scope string_scope.

Lemma ltb_nan_l (x : float) : ltb NaN x = false.
Proof. destruct x; reflexivity. Qed.

Lemma ltb_nan_r (x : float) : ltb x NaN = false.
Proof. destruct x; reflexivity. Qed.

(** A pair of series that crosses neither way when one of the four cells
    read is NaN. *)
Lemma no_crossing_on_nan (a b : list float) :
  (2 <= List.length a)%nat -> List.length b = List.length a ->
  is_nan (at_ a (List.length a - 2)) || is_nan (at_ b (List.length a - 2))
  || is_nan (at_ a (List.length a - 1)) || is_nan (at_ b (List.length a - 1))
    = true ->
  crosses_above a b = Ok false /\ crosses_below a b = Ok false.
Proof.
  intros Ha Hb H.
  rewrite (crosses_above_Ok a b Ha Hb), (crosses_below_Ok a b Ha Hb).
  unfold gtb.
  destruct (at_ a (List.length a - 2)), (at_ b (List.length a - 2)),
           (at_ a (List.length a - 1)), (at_ b (List.length a - 1));
    try discriminate H;
    rewrite ?ltb_nan_l, ?ltb_nan_r, ?andb_false_r; split; reflexivity.
Qed.

(** A pair of series that crosses neither way when the two series are
    equal on the last two rows. *)
Lemma ltb_irrefl (x : float) : ltb x x = false.
Proof.
  destruct x as [| | | q]; try reflexivity.
  apply ltb_Fin_false. apply Qle_refl.
Qed.

Lemma no_crossing_on_equal (a b : list float) :
  (2 <= List.length a)%nat -> List.length b = List.length a ->
  at_ a (List.length a - 1) = at_ b (List.length a - 1) ->
  crosses_above a b = Ok false /\ crosses_below a b = Ok false.
Proof.
  intros Ha Hb H.
  rewrite (crosses_above_Ok a b Ha Hb), (crosses_below_Ok a b Ha Hb).
  unfold gtb. rewrite H, ltb_irrefl, !andb_false_r. split; reflexivity.
Qed.

(** X19.  On a frame of two rows or more, a missing value (NaN) in any of
    the four cells that a crossing test reads gives no crossing, without
    an error: "None" for the moving averages, [None] for MACD and
    signal. *)
Theorem missing_cell_no_cross (df : list indicators) :
  (2 <= List.length df)%nat ->
  let n := List.length df in
  let missing (a b : indicators -> float) :=
    is_nan (at_ (map a df) (n - 2)) || is_nan (at_ (map b df) (n - 2))
    || is_nan (at_ (map a df) (n - 1)) || is_nan (at_ (map b df) (n - 1)) in
  (missing SMA50 SMA200 = true -> sma_cross df = Ok "None") /\
  (missing MACD Signal = true -> macd_cross df = Ok None).
Proof.
  intros Hn n missing. subst missing. cbv beta.
  split; intro H.
  - unfold sma_cross. destruct (200 <=? List.length df)%nat; [| reflexivity].
    destruct (no_crossing_on_nan (map SMA50 df) (map SMA200 df))
      as [-> ->]; rewrite ?length_map; auto.
  - unfold macd_cross.
    destruct (no_crossing_on_nan (map MACD df) (map Signal df))
      as [-> ->]; rewrite ?length_map; auto.
Qed.

End CrossingRules.

(* ===================================================================== *)
(** ** stock_analysis.py: ranges and warm-up of the oscillators *)
(* ===================================================================== *)

Section OscillatorRules.

Import stock_analysis.

Local Open Scope Q_scope.

Lemma pct_K_length (df : list bar) :
  List.length (pct_K df) = List.length df.
Proof.
  unfold pct_K. now rewrite length_map, !series_op_length, length_map.
Qed.

(** The first gain and the first loss are missing. *)
Lemma diff_head (s : list float) :
  s <> [] -> exists rest, diff s = NaN :: rest.
Proof.
  intro H. destruct s as [| x s]; [contradiction |].
  unfold diff, tabulate. simpl List.length. cbn [seq map]. eauto.
Qed.

Lemma rolling_head_nan (w : nat) (agg : list Q -> Q) (rest : list float)
    (i : nat) :
  (i + 1 <= w)%nat -> at_ (rolling w agg (NaN :: rest)) i = NaN.
Proof.
  intro H. destruct (Nat.lt_ge_cases (i + 1) w) as [L | L].
  - now apply at_rolling_early.
  - destruct (Nat.lt_ge_cases i (List.length (NaN :: rest))) as [Hi | Hi].
    + unfold rolling. rewrite at_tabulate by exact Hi. unfold window.
      destruct (Nat.ltb_spec (i + 1) w); [reflexivity |].
      replace (i + 1 - w)%nat with 0%nat by lia.
      destruct w; [lia |]. reflexivity.
    + apply at_overflow. now rewrite rolling_length.
Qed.

(** X20.  The RSI has no value on the first fourteen rows: its first
    number can only appear on the fifteenth row, the first difference
    being missing.  On a frame of fourteen rows or fewer the RSI shown by
    [main] is NaN. *)
Theorem RSI_warm_up (close : list float) (i : nat) :
  (i < 14)%nat -> at_ (RSI close) i = NaN.
Proof.
  intro H. destruct (Nat.lt_ge_cases i (List.length close)) as [Hi | Hi].
  - rewrite (at_RSI close i Hi).
    assert (Hne : close <> []) by (destruct close; [simpl in Hi; lia | discriminate]).
    destruct (diff_head close Hne) as (rest & Hd).
    assert (Hg : at_ (avg_gain close) i = NaN).
    { unfold avg_gain, gain, delta. rewrite Hd. cbn [map clip_lower0 ltb].
      apply rolling_head_nan. unfold window_length. lia. }
    rewrite Hg. reflexivity.
  - apply at_overflow. now rewrite RSI_length.
Qed.

(** The cells of a complete window are numbers. *)
Lemma finite_values_all (l : list float) (qs : list Q) :
  finite_values l = Some qs ->
  forall k, (k < List.length l)%nat -> exists q, nth k l NaN = Fin q.
Proof.
  revert qs. induction l as [| x rest IH]; simpl; intros qs H k Hk; [lia |].
  destruct x as [| | | a]; try discriminate.
  destruct (finite_values rest) as [qs' |]; [| discriminate].
  destruct k as [| k]; [eauto |]. apply (IH qs' eq_refl). lia.
Qed.

Lemma window_cell (w i : nat) (s : list float) (qs : list Q) :
  (0 < w)%nat -> (i < List.length s)%nat -> window w i s = Some qs ->
  exists q, at_ s i = Fin q.
Proof.
  unfold window. intros Hw Hi H.
  destruct (Nat.ltb_spec (i + 1) w) as [L | L]; [discriminate |].
  destruct (finite_values_all _ _ H (w - 1)%nat) as (q & Hq).
  - rewrite length_firstn, length_skipn. lia.
  - exists q. rewrite nth_firstn in Hq.
    destruct (Nat.ltb_spec (w - 1) w) as [_ | L']; [| lia].
    rewrite nth_skipn in Hq.
    replace (i + 1 - w + (w - 1))%nat with i in Hq by lia. exact Hq.
Qed.

(** A %K cell that is a number comes from numbers: the close, the low and
    the high of its row, the rolling low and the rolling high. *)
Lemma pct_K_Fin_inputs (df : list bar) (i : nat) (k : Q) :
  at_ (pct_K df) i = Fin k ->
  exists c lo hi l h,
    at_ (map Close df) i = Fin c /\
    at_ (map Low df) i = Fin lo /\
    at_ (map High df) i = Fin hi /\
    at_ (low14 df) i = Fin l /\
    at_ (high14 df) i = Fin h /\
    ~ h == l /\ k == 100 * ((c - l) / (h - l)).
Proof.
  intro H. pose proof (at_Fin_inside _ _ _ H) as Hi.
  rewrite pct_K_length in Hi. rewrite (at_pct_K df i Hi) in H.
  assert (Hlow : exists l qs, at_ (low14 df) i = Fin l /\
                              window 14 i (map Low df) = Some qs).
  { destruct (at_rolling_cases 14 minimum (map Low df) i) as [E | (l & E)];
      fold (low14 df) in E.
    - rewrite E in H. exfalso.
      destruct (at_ (map Close df) i), (at_ (high14 df) i); discriminate H.
    - destruct (at_rolling_Fin _ _ _ _ _ E) as (qs & Hw & _). eauto. }
  destruct Hlow as (l & qsl & Hl & Hwl).
  assert (Hhigh : exists h qs, at_ (high14 df) i = Fin h /\
                               window 14 i (map High df) = Some qs).
  { destruct (at_rolling_cases 14 maximum (map High df) i) as [E | (h & E)];
      fold (high14 df) in E.
    - rewrite E, Hl in H. exfalso.
      destruct (at_ (map Close df) i); discriminate H.
    - destruct (at_rolling_Fin _ _ _ _ _ E) as (qs & Hw & _). eauto. }
  destruct Hhigh as (h & qsh & Hh & Hwh).
  rewrite Hl, Hh in H.
  destruct (window_cell 14 i (map Low df) qsl) as (lo & Hlo);
    [lia | now rewrite length_map | exact Hwl |].
  destruct (window_cell 14 i (map High df) qsh) as (hi & Hhi);
    [lia | now rewrite length_map | exact Hwh |].
  destruct (at_ (map Close df) i) as [| | | c] eqn:Hc.
  - discriminate H.
  - exfalso. cbn [sub] in H. unfold sub, fin, div in H.
    destruct (Qred (h - l) ?= 0); discriminate H.
  - exfalso. cbn [sub] in H. unfold sub, fin, div in H.
    destruct (Qred (h - l) ?= 0); discriminate H.
  - exists c, lo, hi, l, h. repeat split; try assumption.
    + intro E. rewrite (pct_K_flat c l h E) in H.
      destruct (c ?= l); discriminate H.
    + destruct (Qeq_dec h l) as [E | E].
      * rewrite (pct_K_flat c l h E) in H. destruct (c ?= l); discriminate H.
      * destruct (pct_K_open c l h E) as (k' & Hk & Hk').
        rewrite Hk in H. injection H as <-. exact Hk'.
Qed.

Lemma pct_K_bounds (df : list bar) (i : nat) (k : Q) :
  at_ (pct_K df) i = Fin k ->
  (forall lo c hi,
     at_ (map Low df) i = Fin lo -> at_ (map Close df) i = Fin c ->
     at_ (map High df) i = Fin hi -> lo <= c /\ c <= hi) ->
  0 <= k /\ k <= 100.
Proof.
  intros H Hbar.
  destruct (pct_K_Fin_inputs df i k H)
    as (c & lo & hi & l & h & Hc & Hlo & Hhi & Hl & Hh & Hne & Hk).
  destruct (Hbar lo c hi Hlo Hc Hhi) as [H1 H2].
  pose proof (low14_le_Low df i l lo Hl Hlo) as H3.
  pose proof (High_le_high14 df i h hi Hh Hhi) as H4.
  assert (Hpos : 0 < h - l).
  { assert (l <= h) by lra.
    apply Qle_lt_or_eq in H0. destruct H0 as [L | E]; [lra |].
    exfalso. apply Hne. symmetry. exact E. }
  assert (Ht0 : 0 <= (c - l) / (h - l)).
  { apply Qle_shift_div_l; [exact Hpos | lra]. }
  assert (Ht1 : (c - l) / (h - l) <= 1).
  { apply Qle_shift_div_r; [exact Hpos | lra]. }
  rewrite Hk. split; lra.
Qed.

(** X21.  On a bar whose close lies between its low and its high, a %K
    that is a number lies between 0 and 100. *)
Theorem pct_K_range (df : list bar) (i : nat) (k lo c hi : Q) :
  at_ (pct_K df) i = Fin k ->
  at_ (map Low df) i = Fin lo ->
  at_ (map Close df) i = Fin c ->
  at_ (map High df) i = Fin hi ->
  lo <= c -> c <= hi ->
  0 <= k /\ k <= 100.
Proof.
  intros H Hlo Hc Hhi H1 H2. apply (pct_K_bounds df i k H).
  intros lo' c' hi' Hlo' Hc' Hhi'.
  assert (lo' = lo) by congruence. assert (c' = c) by congruence.
  assert (hi' = hi) by congruence. subst. split; assumption.
Qed.

(** X22.  When the close of every bar lies between its low and its high,
    every %D cell that is a number lies between 0 and 100 (a %D cell is
    the mean of three %K cells, and has no value when one of them is
    missing or infinite). *)
Theorem pct_D_range (df : list bar) :
  (forall j lo c hi,
     at_ (map Low df) j = Fin lo -> at_ (map Close df) j = Fin c ->
     at_ (map High df) j = Fin hi -> lo <= c /\ c <= hi) ->
  forall i d, at_ (pct_D df) i = Fin d -> 0 <= d /\ d <= 100.
Proof.
  intros Hbars i d H.
  destruct (at_rolling_Fin _ _ _ _ _ H) as (qs & Hw & ->).
  destruct qs as [| q0 qs']; [split; discriminate |].
  apply mean_bounds; [discriminate |].
  intros q Hq. pose proof (window_In _ _ _ _ Hw q Hq) as Hin.
  destruct (In_nth _ _ NaN Hin) as (j & Hj & Hnth).
  apply (pct_K_bounds df j q Hnth). apply Hbars.
Qed.

End OscillatorRules.

(* ===================================================================== *)
(** ** stock_analysis.py: the exponential averages and the decision *)
(* ===================================================================== *)

Section AverageRules.

Import stock_analysis.

Local Open Scope Q_scope.

Lemma ewm_loop_length (a : Q) (vals : list float) :
  forall weighted old_wt,
    List.length (ewm_loop a weighted old_wt vals) = List.length vals.
Proof.
  induction vals as [| cur rest IH]; intros weighted old_wt; [reflexivity |].
  cbn [ewm_loop].
  destruct (is_nan weighted), (is_nan cur); cbn [List.length];
    now rewrite IH.
Qed.

Lemma ewm_mean_length (span : Z) (s : list float) :
  List.length (ewm_mean span s) = List.length s.
Proof.
  unfold ewm_mean. destruct s as [| x rest]; [reflexivity |].
  cbn [map List.length]. now rewrite ewm_loop_length, length_map.
Qed.

(** One step of the average on two numbers. *)
Lemma ewm_step (a y x : Q) :
  exists y',
    (if neb (Fin y) (Fin x)
     then div (add (mul (Fin (1 * (1 - a))) (Fin y)) (mul (Fin a) (Fin x)))
              (Fin (1 * (1 - a) + a))
     else Fin y) = Fin y' /\
    y' == a * x + (1 - a) * y.
Proof.
  unfold neb, eqb. destruct (Qeq_bool y x) eqn:E; cbn [negb].
  - exists y. split; [reflexivity |]. apply Qeq_bool_iff in E. rewrite E. ring.
  - unfold mul, add, fin, div.
    assert (Hz : Qeq_bool (1 * (1 - a) + a) 0 = false).
    { destruct (Qeq_bool (1 * (1 - a) + a) 0) eqn:Hq; [| reflexivity].
      apply Qeq_bool_iff in Hq. exfalso. lra. }
    rewrite Hz. eexists. split; [reflexivity |].
    rewrite !Qred_correct. field.
    intro Hq. lra.
Qed.

(** The average of a series of numbers is a series of numbers that follows
    the recurrence. *)
Lemma ewm_loop_numbers (a : Q) (xs : list Q) :
  forall y,
  exists ys,
    ewm_loop a (Fin y) 1 (map Fin xs) = map Fin ys /\
    List.length ys = List.length xs /\
    forall i, (i < List.length xs)%nat ->
      nth i ys 0 == a * nth i xs 0 + (1 - a) * nth i (y :: ys) 0.
Proof.
  induction xs as [| x rest IH]; intro y.
  - exists []. repeat split. simpl. intros i Hi. lia.
  - cbn [map ewm_loop is_nan].
    destruct (ewm_step a y x) as (y' & -> & Hy').
    destruct (IH y') as (ys & -> & Hlen & Hrec).
    exists (y' :: ys). split; [reflexivity |].
    split; [simpl; now rewrite Hlen |].
    intros [| i] Hi.
    + exact Hy'.
    + cbn [nth]. apply Hrec. simpl in Hi. lia.
Qed.

(** X23.  On a series without missing values the exponential average
    starts at the first value and follows
    y[i] = alpha x[i] + (1 - alpha) y[i-1] with alpha = 2 / (span + 1);
    it has one cell per input cell. *)
Theorem ewm_mean_recurrence (span : Z) (x0 : Q) (xs : list Q) :
  exists ys,
    ewm_mean span (map Fin (x0 :: xs)) = map Fin (x0 :: ys) /\
    List.length ys = List.length xs /\
    forall i, (i < List.length xs)%nat ->
      nth (S i) (x0 :: ys) 0
      == alpha span * nth (S i) (x0 :: xs) 0
         + (1 - alpha span) * nth i (x0 :: ys) 0.
Proof.
  unfold ewm_mean. rewrite map_map. cbn [map prep_value].
  destruct (ewm_loop_numbers (alpha span) xs x0) as (ys & Hrun & Hlen & Hrec).
  exists ys. rewrite <- (map_map Fin prep_value).
  replace (map prep_value (map Fin xs)) with (map Fin xs)
    by (rewrite map_map; reflexivity).
  rewrite Hrun. repeat split; assumption.
Qed.

Lemma convex_bounds (a lo hi x y : Q) :
  0 <= a -> a <= 1 -> lo <= x -> x <= hi -> lo <= y -> y <= hi ->
  lo <= a * x + (1 - a) * y /\ a * x + (1 - a) * y <= hi.
Proof.
  intros Ha0 Ha1 Hx0 Hx1 Hy0 Hy1.
  assert (H1 : 0 <= a * (x - lo)) by (apply Qmult_le_0_compat; lra).
  assert (H2 : 0 <= (1 - a) * (y - lo)) by (apply Qmult_le_0_compat; lra).
  assert (H3 : 0 <= a * (hi - x)) by (apply Qmult_le_0_compat; lra).
  assert (H4 : 0 <= (1 - a) * (hi - y)) by (apply Qmult_le_0_compat; lra).
  split.
  - assert (E : a * x + (1 - a) * y - lo
                == a * (x - lo) + (1 - a) * (y - lo)) by ring.
    lra.
  - assert (E : hi - (a * x + (1 - a) * y)
                == a * (hi - x) + (1 - a) * (hi - y)) by ring.
    lra.
Qed.

Lemma ewm_loop_bounds (a lo hi : Q) (xs : list Q) :
  0 <= a -> a <= 1 ->
  (forall x, In x xs -> lo <= x /\ x <= hi) ->
  forall y, lo <= y -> y <= hi ->
  exists ys,
    ewm_loop a (Fin y) 1 (map Fin xs) = map Fin ys /\
    forall q, In q ys -> lo <= q /\ q <= hi.
Proof.
  intros Ha0 Ha1. induction xs as [| x rest IH]; intros Hxs y Hy0 Hy1.
  - exists []. split; [reflexivity | intros q []].
  - cbn [map ewm_loop is_nan].
    destruct (ewm_step a y x) as (y' & -> & Hy').
    destruct (Hxs x (or_introl eq_refl)) as [Hx0 Hx1].
    destruct (convex_bounds a lo hi x y Ha0 Ha1 Hx0 Hx1 Hy0 Hy1)
      as [Hb0 Hb1].
    rewrite <- Hy' in Hb0, Hb1.
    destruct (IH (fun z Hz => Hxs z (or_intror Hz)) y' Hb0 Hb1)
      as (ys & -> & Hys).
    exists (y' :: ys). split; [reflexivity |].
    intros q [<- | Hq]; [split; assumption | now apply Hys].
Qed.

Lemma alpha_bounds (span : Z) :
  (1 <= span)%Z -> 0 <= alpha span /\ alpha span <= 1.
Proof.
  intro H. unfold alpha.
  assert (Hs : 0 < inject_Z span + 1).
  { assert (inject_Z 1 <= inject_Z span) by (rewrite <- Zle_Qle; exact H).
    change (inject_Z 1) with 1 in *. lra. }
  split.
  - apply Qle_shift_div_l; [exact Hs | lra].
  - apply Qle_shift_div_r; [exact Hs |].
    assert (inject_Z 1 <= inject_Z span) by (rewrite <- Zle_Qle; exact H).
    change (inject_Z 1) with 1 in *. lra.
Qed.

(** X24.  An exponential average of a series of numbers stays between the
    smallest and the largest value of the series (for a span of 1 or
    more): the two averages behind the MACD never leave the range of the
    closes. *)
Theorem ewm_mean_bounds (span : Z) (lo hi : Q) (xs : list Q) :
  (1 <= span)%Z ->
  (forall x, In x xs -> lo <= x /\ x <= hi) ->
  exists ys,
    ewm_mean span (map Fin xs) = map Fin ys /\
    List.length ys = List.length xs /\
    forall y, In y ys -> lo <= y /\ y <= hi.
Proof.
  intros Hspan Hxs. destruct xs as [| x0 rest].
  - exists []. split; [reflexivity |]. split; [reflexivity |]. intros y [].
  - destruct (alpha_bounds span Hspan) as [Ha0 Ha1].
    destruct (Hxs x0 (or_introl eq_refl)) as [H0 H1].
    destruct (ewm_loop_bounds (alpha span) lo hi rest Ha0 Ha1
                (fun z Hz => Hxs z (or_intror Hz)) x0 H0 H1)
      as (ys & Hrun & Hys).
    exists (x0 :: ys).
    assert (Hmean : ewm_mean span (map Fin (x0 :: rest)) = map Fin (x0 :: ys)).
    { unfold ewm_mean. rewrite map_map. cbn [map prep_value].
      rewrite <- (map_map Fin prep_value).
      replace (map prep_value (map Fin rest)) with (map Fin rest)
        by (rewrite map_map; reflexivity).
      now rewrite Hrun. }
    split; [exact Hmean |]. split.
    + apply (f_equal (@List.length float)) in Hmean.
      rewrite ewm_mean_length, !length_map in Hmean. now symmetry.
    + intros z [E | Hz]; [subst z; split; assumption | now apply Hys].
Qed.

End AverageRules.

Section DecisionRules.

Import stock_analysis.

Local Open Scope Q_scope.

Lemma frame_length (df : list bar) :
  List.length (map crossing_cells (calculate_indicators df))
  = List.length df.
Proof.
  unfold calculate_indicators. now rewrite !length_map, length_seq.
Qed.

(** The four columns read by [detect_crosses], in the frame returned by
    [calculate_indicators]. *)
Lemma frame_SMA50 (df : list bar) :
  map SMA50 (map crossing_cells (calculate_indicators df))
  = tabulate (List.length df) (at_ (SMA 50 (map Close df))).
Proof. unfold calculate_indicators. rewrite !map_map. reflexivity. Qed.

Lemma frame_SMA200 (df : list bar) :
  map SMA200 (map crossing_cells (calculate_indicators df))
  = tabulate (List.length df) (at_ (SMA 200 (map Close df))).
Proof. unfold calculate_indicators. rewrite !map_map. reflexivity. Qed.

Lemma frame_MACD (df : list bar) :
  map MACD (map crossing_cells (calculate_indicators df))
  = tabulate (List.length df) (at_ (MACD_line (map Close df))).
Proof. unfold calculate_indicators. rewrite !map_map. reflexivity. Qed.

Lemma frame_Signal (df : list bar) :
  map Signal (map crossing_cells (calculate_indicators df))
  = tabulate (List.length df) (at_ (Signal_line (map Close df))).
Proof. unfold calculate_indicators. rewrite !map_map. reflexivity. Qed.

Lemma main_decision_rows (df : list bar) :
  (1 <= List.length df)%nat ->
  main_decision df =
  bind (detect_crosses (map crossing_cells (calculate_indicators df)))
       (fun crosses =>
          Ok (Analysed (fst crosses) (snd crosses)
                (technical_decision (fst crosses) (snd crosses)))).
Proof.
  intro H. destruct df as [| b rest]; [simpl in H; lia | reflexivity].
Qed.

Lemma no_crossing_on_last (a b : list float) :
  (2 <= List.length a)%nat -> List.length b = List.length a ->
  ltb (at_ a (List.length a - 1)) (at_ b (List.length a - 1)) = false ->
  ltb (at_ b (List.length a - 1)) (at_ a (List.length a - 1)) = false ->
  crosses_above a b = Ok false /\ crosses_below a b = Ok false.
Proof.
  intros Ha Hb H1 H2.
  rewrite (crosses_above_Ok a b Ha Hb), (crosses_below_Ok a b Ha Hb).
  unfold gtb. rewrite H1, H2, !andb_false_r. split; reflexivity.
Qed.

(** The decision of [main] when the moving averages give no cross. *)
Lemma decision_without_cross (macd : option string) :
  (technical_decision "None" macd = "BUY"%string
   <-> macd = Some "Bullish Crossover"%string) /\
  (technical_decision "None" macd = "SELL"%string
   <-> macd = Some "Bearish Crossover"%string).
Proof.
  unfold technical_decision. cbn [String.eqb Ascii.eqb Bool.eqb orb].
  pose proof (opt_eqb_eq macd "Bullish Crossover") as Hb.
  pose proof (opt_eqb_eq macd "Bearish Crossover") as Hs.
  destruct (opt_eqb macd "Bullish Crossover") eqn:E1.
  - assert (macd = Some "Bullish Crossover"%string) by now apply Hb.
    subst macd. split; split; intro H; try reflexivity; discriminate H.
  - destruct (opt_eqb macd "Bearish Crossover") eqn:E2.
    + assert (macd = Some "Bearish Crossover"%string) by now apply Hs.
      subst macd. split; split; intro H; try reflexivity; discriminate H.
    + split; split; intro H; try discriminate H.
      * apply Hb in H. discriminate H.
      * apply Hs in H. discriminate H.
Qed.

(** X25.  With 200 rows or fewer the moving averages never give a cross:
    below 200 rows the test is skipped, and with exactly 200 rows the
    SMA200 of the second-to-last row has no value.  A Golden or Death
    Cross needs 201 rows, and up to there the technical decision is "BUY"
    exactly on a bullish MACD crossover and "SELL" exactly on a bearish
    one. *)
Theorem short_history_no_cross (df : list bar) :
  (List.length df <= 200)%nat ->
  sma_cross (map crossing_cells (calculate_indicators df))
    = Ok "None"%string /\
  forall cross_type macd decision,
    main_decision df = Ok (Analysed cross_type macd decision) ->
    cross_type = "None"%string /\
    (decision = "BUY"%string <-> macd = Some "Bullish Crossover"%string) /\
    (decision = "SELL"%string <-> macd = Some "Bearish Crossover"%string).
Proof.
  intro Hlen.
  assert (Hsma : sma_cross (map crossing_cells (calculate_indicators df))
                 = Ok "None"%string).
  { unfold sma_cross. rewrite frame_length.
    destruct (Nat.leb_spec 200 (List.length df)) as [H | H]; [| reflexivity].
    assert (Hn : List.length df = 200%nat) by lia.
    destruct (no_crossing_on_nan
                (map SMA50 (map crossing_cells (calculate_indicators df)))
                (map SMA200 (map crossing_cells (calculate_indicators df))))
      as [-> ->]; try reflexivity.
    - rewrite length_map, frame_length. lia.
    - now rewrite !length_map.
    - rewrite length_map, frame_length, Hn, frame_SMA200, Hn.
      rewrite (at_tabulate 200 _ 198) by lia.
      rewrite (SMA_early 200 (map Close df) 198) by lia.
      cbn [is_nan]. now rewrite orb_true_r. }
  split; [exact Hsma |].
  intros cross_type macd decision H. unfold main_decision in H.
  destruct df as [| b rest]; [discriminate |].
  unfold detect_crosses in H. rewrite Hsma in H. cbn [bind] in H.
  destruct (macd_cross _) as [m | e]; cbn [bind] in H; [| discriminate].
  injection H as <- <- <-. cbn [fst snd].
  split; [reflexivity |]. apply decision_without_cross.
Qed.

Lemma seq_map_const (f : nat -> float) (c : float) (n : nat) :
  forall start,
    (forall i, (start <= i < start + n)%nat -> f i = c) ->
    map f (seq start n) = repeat c n.
Proof.
  induction n as [| n IH]; intros start H; [reflexivity |].
  cbn [seq map repeat]. rewrite (H start) by lia. f_equal.
  apply IH. intros i Hi. apply H. lia.
Qed.

Lemma tabulate_repeat (n : nat) (f : nat -> float) (c : float) :
  (forall i, (i < n)%nat -> f i = c) -> tabulate n f = repeat c n.
Proof.
  intro H. unfold tabulate. apply seq_map_const. intros i Hi. apply H. lia.
Qed.

Lemma at_repeat (c : float) (n i : nat) :
  (i < n)%nat -> at_ (repeat c n) i = c.
Proof.
  intro H. unfold at_. apply nth_repeat_lt. exact H.
Qed.

(** The exponential average of a constant series is the series. *)
Lemma ewm_loop_constant (a v : Q) (n : nat) :
  ewm_loop a (Fin v) 1 (repeat (Fin v) n) = repeat (Fin v) n.
Proof.
  induction n as [| n IH]; [reflexivity |].
  cbn [repeat ewm_loop is_nan].
  assert (E : neb (Fin v) (Fin v) = false).
  { unfold neb, eqb. apply negb_false_iff. apply Qeq_bool_iff. reflexivity. }
  rewrite E, IH. reflexivity.
Qed.

Lemma ewm_mean_constant (span : Z) (v : Q) (n : nat) :
  ewm_mean span (repeat (Fin v) n) = repeat (Fin v) n.
Proof.
  unfold ewm_mean. rewrite map_repeat. cbn [prep_value].
  destruct n as [| n]; [reflexivity |].
  cbn [repeat]. now rewrite ewm_loop_constant.
Qed.

(** A rolling mean of a constant series is missing or the constant. *)
Lemma rolling_mean_constant (w n i : nat) (v : Q) :
  (0 < w)%nat ->
  at_ (rolling w mean (repeat (Fin v) n)) i = NaN \/
  at_ (rolling w mean (repeat (Fin v) n)) i = Fin (Qred v).
Proof.
  intro Hw.
  destruct (at_rolling_cases w mean (repeat (Fin v) n) i) as [E | (q & E)];
    [now left | right].
  rewrite E. pose proof (at_Fin_inside _ _ _ E) as Hi.
  rewrite rolling_length in Hi.
  destruct (at_rolling_Fin _ _ _ _ _ E) as (qs & Hwin & ->).
  assert (Hall : forall q, In q qs -> v <= q /\ q <= v).
  { intros q Hq. apply (window_In _ _ _ _ Hwin) in Hq.
    apply repeat_spec in Hq. injection Hq as ->. split; apply Qle_refl. }
  assert (Hne : qs <> []).
  { assert (Hin : In v qs).
    { apply (window_last w i (repeat (Fin v) n) qs v Hw Hwin).
      rewrite repeat_length in Hi. now apply at_repeat. }
    intro Z. rewrite Z in Hin. contradiction. }
  destruct (mean_bounds v v qs Hne Hall) as [H1 H2].
  f_equal. unfold mean in *. apply Qred_complete.
  rewrite Qred_correct in H1, H2. apply Qle_antisym; assumption.
Qed.

Lemma ltb_missing_or_equal (x y c : float) :
  x = NaN \/ x = c -> y = NaN \/ y = c -> ltb x y = false.
Proof.
  intros [-> | ->] [-> | ->];
    rewrite ?ltb_nan_l, ?ltb_nan_r, ?ltb_irrefl; reflexivity.
Qed.

(** X26.  On a frame of two rows or more whose closes are all the same
    number, the MACD and its signal are 0 on every row, the moving
    averages do not cross, and the technical decision of [main] is
    "HOLD". *)
Theorem flat_prices_hold (df : list bar) (v : Q) :
  (2 <= List.length df)%nat ->
  (forall b, In b df -> Close b = Fin v) ->
  MACD_line (map Close df) = repeat (Fin 0) (List.length df) /\
  Signal_line (map Close df) = repeat (Fin 0) (List.length df) /\
  main_decision df = Ok (Analysed "None" None "HOLD").
Proof.
  intros Hlen Hflat. set (n := List.length df) in *.
  assert (Hclose : map Close df = repeat (Fin v) n).
  { subst n. clear Hlen. induction df as [| b rest IH]; [reflexivity |].
    cbn [map List.length repeat]. rewrite (Hflat b (or_introl eq_refl)).
    f_equal. apply IH. intros; apply Hflat; now right. }
  assert (Hmacd : MACD_line (map Close df) = repeat (Fin 0) n).
  { unfold MACD_line, exp1, exp2. rewrite Hclose, !ewm_mean_constant.
    unfold series_op. rewrite repeat_length.
    apply tabulate_repeat. intros i Hi. rewrite (at_repeat _ n i Hi).
    unfold sub, fin. f_equal.
    transitivity (Qred 0); [apply Qred_complete; ring | reflexivity]. }
  assert (Hsignal : Signal_line (map Close df) = repeat (Fin 0) n).
  { unfold Signal_line. rewrite Hmacd. apply ewm_mean_constant. }
  split; [exact Hmacd |]. split; [exact Hsignal |].
  set (frame := map crossing_cells (calculate_indicators df)).
  assert (Hframe : List.length frame = n) by apply frame_length.
  assert (Hm : macd_cross frame = Ok None).
  { unfold macd_cross.
    destruct (no_crossing_on_equal (map MACD frame) (map Signal frame))
      as [-> ->]; try reflexivity.
    - rewrite length_map. lia.
    - now rewrite !length_map.
    - rewrite length_map, Hframe. subst frame.
      rewrite frame_MACD, frame_Signal. fold n.
      rewrite !at_tabulate by lia. now rewrite Hmacd, Hsignal. }
  assert (Hs : sma_cross frame = Ok "None"%string).
  { unfold sma_cross. destruct (200 <=? List.length frame)%nat;
      [| reflexivity].
    destruct (no_crossing_on_last (map SMA50 frame) (map SMA200 frame))
      as [-> ->]; try reflexivity.
    - rewrite length_map. lia.
    - now rewrite !length_map.
    - rewrite length_map, Hframe. subst frame.
      rewrite frame_SMA50, frame_SMA200. fold n.
      rewrite !at_tabulate by lia. unfold SMA. rewrite Hclose.
      apply (ltb_missing_or_equal _ _ (Fin (Qred v)));
        apply rolling_mean_constant; lia.
    - rewrite length_map, Hframe. subst frame.
      rewrite frame_SMA50, frame_SMA200. fold n.
      rewrite !at_tabulate by lia. unfold SMA. rewrite Hclose.
      apply (ltb_missing_or_equal _ _ (Fin (Qred v)));
        apply rolling_mean_constant; lia. }
  rewrite main_decision_rows by (subst n; lia).
  fold frame. unfold detect_crosses. rewrite Hs, Hm. reflexivity.
Qed.

End DecisionRules.

(* ===================================================================== *)
(** ** The rules on the sample inputs *)
(* ===================================================================== *)

Section FinancialRuns.

Import financial_analysis Samples.

Local Open Scope Q_scope.

Lemma good_year_iff_witness : good_year passing_year = Ok true.
Proof.
  apply (good_year_iff passing_year).
  repeat split; try (eexists; split; [reflexivity |]; repeat split).
  left. reflexivity.
Defined.

Lemma good_year_negative_pfcf_witness :
  good_year cash_burning_year = good_year passing_year /\
  good_year cash_burning_year = Ok true.
Proof.
  assert (H : good_year cash_burning_year = good_year passing_year).
  { rewrite (good_year_negative_pfcf cash_burning_year (-8)).
    - reflexivity.
    - reflexivity.
    - reflexivity. }
  split; [exact H |]. rewrite H. reflexivity.
Defined.

Lemma compute_row_formulas_witness :
  exists r,
    compute_row raising
      {| p_net_income := PNum (Fin 100);
         p_total_debt := PNum (Fin 150);
         p_equity := PNum (Fin 500);
         p_total_revenue := PNum (Fin 600);
         p_cash_from_ops := PNum (Fin 90);
         p_capex := PNum (Fin (-30));
         p_price := PNum (Fin 12);
         p_shares_outstanding := PNum (Fin 100) |} = Ok r /\
    P_E r = PNum (Fin 12) /\ P_FCF r = PNum (Fin 20).
Proof.
  destruct (compute_row_formulas raising 100 150 500 600 90 (-30) 12 100)
    as (r & fcf & roe & de & pm & pe & pb & ps & pfcf & Hrun & _);
    try discriminate.
  exists r. split; [exact Hrun |].
  assert (E : Ok r = Ok {| Net_Income := PNum (Fin 100);
                           Total_Debt := PNum (Fin 150);
                           Equity := PNum (Fin 500);
                           Free_Cash_Flow := PNum (Fin 60);
                           ROE := PNum (Fin 20);
                           Debt_Equity := PNum (Fin (3 # 10));
                           Profit_Margin := PNum (Fin (50 # 3));
                           P_E := PNum (Fin 12);
                           P_B := PNum (Fin (12 # 5));
                           P_S := PNum (Fin 2);
                           P_FCF := PNum (Fin 20) |})
    by (rewrite <- Hrun; reflexivity).
  injection E as ->. split; reflexivity.
Defined.

Lemma compute_row_missing_fields_witness :
  truthy (p_net_income break_even_year) = false /\
  exists r, compute_row raising break_even_year = Ok r /\
            ROE r = PNone /\ Profit_Margin r = PNone.
Proof.
  split; [reflexivity |].
  destruct (compute_row_total raising break_even_year) as [r Hr].
  exists r. split; [exact Hr |].
  destruct (compute_row_missing_fields raising break_even_year r Hr)
    as (_ & Hroe & _ & Hpm).
  split; [apply Hroe | apply Hpm]; left; reflexivity.
Defined.

Lemma good_year_essential_inputs_witness :
  exists r, compute_row raising indebted_period = Ok r /\
            good_year r = Ok true /\
            truthy (p_total_debt indebted_period) = true.
Proof.
  destruct (compute_row_total raising indebted_period) as [r Hr].
  exists r. split; [exact Hr |].
  assert (Hgood : good_year r = Ok true).
  { assert (E : bind (Ok r) good_year = Ok true)
      by (rewrite <- Hr; reflexivity).
    exact E. }
  split; [exact Hgood |].
  apply (good_year_essential_inputs raising indebted_period r Hr Hgood).
Defined.

Lemma compute_row_never_divides_by_zero_witness :
  compute_row raising break_even_year = compute_row ieee break_even_year.
Proof.
  apply compute_row_never_divides_by_zero; discriminate.
Defined.

Lemma yearly_results_rows_witness :
  exists r,
    In (2023%Z, r)
       (yearly_results raising sample_financials sample_balance_sheet
          sample_cashflow sample_year_ends (number 100)) /\
    exists k fin bal cash,
      nth_error (firstn 5 (map fst sample_financials)) k = Some 2023%Z /\
      loc sample_financials 2023 = Found fin /\
      loc sample_balance_sheet 2023 = Found bal /\
      loc sample_cashflow 2023 = Found cash /\
      compute_row raising
        (read_period fin bal cash (year_end_close sample_year_ends k)
           (number 100)) = Ok r.
Proof.
  eexists. split.
  - left. reflexivity.
  - apply (yearly_results_rows raising sample_financials
             sample_balance_sheet sample_cashflow sample_year_ends
             (number 100) 2023).
    left. reflexivity.
Defined.

Lemma no_price_no_good_year_witness :
  good_years
    (DataFrame
       (map snd (yearly_results raising sample_financials
                   sample_balance_sheet sample_cashflow [] (number 100))))
  = Ok 0%nat.
Proof.
  apply (no_price_no_good_year raising sample_financials
           sample_balance_sheet sample_cashflow [] (number 100)).
  left. reflexivity.
Defined.

Lemma price_movement_rule_witness :
  price_movement ten_year_prices = Significant_growth (Fin 30).
Proof.
  destruct (price_movement_rule 10 13 [of_Z 11; of_Z 13] eq_refl)
    as (_ & Hpos & _).
  destruct Hpos as (change & Hchange & Hgrowth & _); [reflexivity |].
  assert (Hrun : price_movement ten_year_prices
                 = Significant_growth (Fin change))
    by (apply Hgrowth; reflexivity).
  rewrite Hrun.
  assert (E : Significant_growth (Fin change) = Significant_growth (Fin 30))
    by (rewrite <- Hrun; reflexivity).
  exact E.
Defined.

End FinancialRuns.

Section StockRuns.

Import stock_analysis Samples.

Local Open Scope Q_scope.

Lemma summary_report_raises_witness :
  summary_report no_pe_fundamentals (PNum (Fin (1 # 10))) "BUY" []
    = Raise TypeError /\
  overall (PNum (Fin (1 # 10))) "BUY" = Ok "BUY"%string.
Proof.
  split.
  - apply (summary_report_raises no_pe_fundamentals (PNum (Fin (1 # 10)))
             "BUY" []).
    left. reflexivity.
  - destruct (summary_report_raises cheap_fundamentals (PNum (Fin (1 # 10)))
                "BUY" []) as (_ & _ & H).
    apply (H ["PE Ratio suggests the stock might be undervalued."%string]
             "News sentiment is positive."%string
             "Technical analysis suggests: BUY."%string [] "BUY"%string).
    reflexivity.
Defined.

Lemma call_suggestion_implies_buy_witness :
  overall (PNum (Fin (1 # 10))) "BUY" = Ok "BUY"%string /\
  (overall (PNum (Fin (3 # 100))) "BUY" = Ok "BUY"%string /\
   call_option_suggested (PNum (Fin (3 # 100))) "BUY" = Ok false).
Proof.
  split.
  - destruct (call_suggestion_implies_buy (PNum (Fin (1 # 10))) "BUY")
      as (_ & H & _).
    apply H. reflexivity.
  - destruct (call_suggestion_implies_buy (PNum (Fin (3 # 100))) "BUY")
      as (_ & _ & H).
    apply H. split; [reflexivity |].
    exists (Fin (3 # 100)). repeat split.
Defined.


Lemma call_suggestion_label_witness :
  call_option_suggested
    (fst (sentiment_analysis three_polarities three_headlines)) "BUY"
  = Ok true.
Proof.
  pose proof (call_suggestion_label three_polarities three_headlines "BUY")
    as H. cbv zeta in H. destruct H as (H & _).
  apply H. split; [reflexivity | vm_compute; reflexivity].
Defined.

Lemma fetch_newsapi_news_rule_witness :
  fetch_newsapi_news refused = Found ([], []) /\
  List.length (articles two_articles) = 2%nat /\
  exists headlines links,
    fetch_newsapi_news two_articles = Found (headlines, links) /\
    List.length headlines = 2%nat /\ List.length links = 2%nat.
Proof.
  split; [| split; [reflexivity |]].
  - apply (fetch_newsapi_news_rule refused). discriminate.
  - exists ["up"; "beat"]%string, ["https://a"; "https://b"]%string.
    split; [reflexivity |].
    destruct (fetch_newsapi_news_rule two_articles) as (_ & H).
    destruct (H eq_refl) as (_ & Hfound).
    destruct (Hfound ["up"; "beat"]%string ["https://a"; "https://b"]%string
                eq_refl) as (Hh & Hl & _).
    split; [exact Hh | exact Hl].
Defined.

Lemma failed_news_never_buys_witness :
  exists headlines links,
    fetch_newsapi_news refused = Found (headlines, links) /\
    overall (fst (sentiment_analysis three_polarities headlines)) "BUY"
      = Ok "HOLD/WAIT"%string.
Proof.
  destruct (failed_news_never_buys refused three_polarities "BUY")
    as (headlines & links & Hf & _ & Ho & _); [discriminate |].
  exists headlines, links. split; assumption.
Defined.

Lemma missing_cell_no_cross_witness :
  macd_cross two_days = Ok None /\ sma_cross two_days = Ok "None"%string.
Proof.
  assert (Hn : (2 <= List.length two_days)%nat) by (simpl; lia).
  pose proof (missing_cell_no_cross two_days Hn) as H. cbv zeta in H.
  destruct H as (Hs & Hm). split; [apply Hm | apply Hs]; reflexivity.
Defined.

Lemma RSI_warm_up_witness : at_ (RSI rising_closes) 13 = NaN.
Proof. apply RSI_warm_up. lia. Defined.

Lemma pct_K_range_witness :
  at_ (pct_K open_range) 13 = Fin 50 /\ 0 <= 50 /\ 50 <= 100.
Proof.
  split; [reflexivity |].
  apply (pct_K_range open_range 13 50 2 4 6); try reflexivity; discriminate.
Defined.

Lemma wide_bars_cells (j : nat) (q : Q) (f : bar -> float) (c : Q) :
  f (mkBar (of_Z 4) (of_Z 6) (of_Z 2)) = Fin c ->
  at_ (map f wide_bars) j = Fin q -> q = c.
Proof.
  intros Hf H. unfold wide_bars in H. rewrite map_repeat, Hf in H.
  destruct (Nat.lt_ge_cases j 16) as [L | L].
  - rewrite (at_repeat _ 16 j L) in H. now injection H.
  - rewrite at_overflow in H by (now rewrite repeat_length). discriminate.
Qed.

Lemma pct_D_range_witness :
  at_ (pct_D wide_bars) 15 = Fin 50 /\ 0 <= 50 /\ 50 <= 100.
Proof.
  split; [reflexivity |].
  apply (pct_D_range wide_bars) with (i := 15%nat); [| reflexivity].
  intros j lo c hi Hlo Hc Hhi.
  apply (wide_bars_cells j lo Low 2 eq_refl) in Hlo.
  apply (wide_bars_cells j c Close 4 eq_refl) in Hc.
  apply (wide_bars_cells j hi High 6 eq_refl) in Hhi.
  subst. split; discriminate.
Defined.

Lemma ewm_mean_recurrence_witness :
  ewm_mean 12 (map Fin [1; 2; 3]) = map Fin [1; 15 # 13; 243 # 169] /\
  15 # 13 == alpha 12 * 2 + (1 - alpha 12) * 1.
Proof.
  destruct (ewm_mean_recurrence 12 1 [2; 3]) as (ys & Hrun & Hlen & Hrec).
  assert (E : map Fin (1 :: ys) = map Fin [1; 15 # 13; 243 # 169])
    by (rewrite <- Hrun; reflexivity).
  split; [rewrite Hrun; exact E |].
  injection E as E. destruct ys as [| y ys]; [discriminate |].
  injection E as -> _.
  apply (Hrec 0%nat). simpl. lia.
Defined.

Lemma ewm_mean_bounds_witness :
  exists ys,
    ewm_mean 26 (map Fin [1; 2; 3]) = map Fin ys /\
    forall y, In y ys -> 1 <= y /\ y <= 3.
Proof.
  destruct (ewm_mean_bounds 26 1 3 [1; 2; 3]) as (ys & Hrun & _ & Hys).
  - lia.
  - intros x [<- | [<- | [<- | []]]]; split; discriminate.
  - exists ys. split; assumption.
Defined.

Lemma short_history_no_cross_witness :
  sma_cross (map crossing_cells (calculate_indicators flat_range))
  = Ok "None"%string.
Proof.
  apply (short_history_no_cross flat_range). simpl. lia.
Defined.

Lemma flat_prices_hold_witness :
  main_decision flat_range = Ok (Analysed "None" None "HOLD").
Proof.
  apply (flat_prices_hold flat_range 3).
  - simpl. lia.
  - intros b Hb. apply repeat_spec in Hb. subst b. reflexivity.
Defined.

End StockRuns.

(* ===================================================================== *)
(** ** Further rules: outcomes of [main], price ratios, RSI on streaks *)
(* ===================================================================== *)

Section OutcomeRules.

Import financial_analysis stock_analysis Samples.

Local Open Scope Q_scope.

Lemma technical_decision_values (cross_type : string)
    (macd : option string) :
  technical_decision cross_type macd = "BUY"%string \/
  technical_decision cross_type macd = "SELL"%string \/
  technical_decision cross_type macd = "HOLD"%string.
Proof.
  unfold technical_decision.
  destruct (_ || _); [now left |]. destruct (_ || _); auto.
Qed.

(** X27.  What [main] does with the downloaded frame.  An empty frame
    gives the message "No data found".  A frame of one row raises
    [IndexError] in [detect_crosses].  A frame of two rows or more always
    gives a technical decision, one of "BUY", "SELL" and "HOLD", whatever
    the prices are (missing or infinite values included). *)
Theorem main_decision_outcomes (df : list bar) :
  (df = [] -> main_decision df = Ok No_data_found) /\
  (List.length df = 1%nat -> main_decision df = Raise IndexError) /\
  ((2 <= List.length df)%nat ->
   exists cross_type macd,
     main_decision df
     = Ok (Analysed cross_type macd (technical_decision cross_type macd)) /\
     (technical_decision cross_type macd = "BUY"%string \/
      technical_decision cross_type macd = "SELL"%string \/
      technical_decision cross_type macd = "HOLD"%string)).
Proof.
  split; [intros ->; reflexivity |]. split.
  - intro H. rewrite main_decision_rows by lia. unfold detect_crosses.
    destruct (sma_cross_total (map crossing_cells (calculate_indicators df)))
      as [s ->].
    rewrite macd_cross_Raise by (rewrite frame_length; lia). reflexivity.
  - intro H. rewrite main_decision_rows by lia.
    destruct (detect_crosses_Ok (map crossing_cells (calculate_indicators df)))
      as [[ct m] ->]; [rewrite frame_length; exact H |].
    exists ct, m. split; [reflexivity |]. apply technical_decision_values.
Qed.

Lemma main_decision_outcomes_witness :
  main_decision [mkBar (of_Z 3) (of_Z 3) (of_Z 3)] = Raise IndexError /\
  exists cross_type macd,
    main_decision flat_range
    = Ok (Analysed cross_type macd (technical_decision cross_type macd)).
Proof.
  destruct (main_decision_outcomes [mkBar (of_Z 3) (of_Z 3) (of_Z 3)])
    as (_ & Hone & _).
  split; [apply Hone; reflexivity |].
  destruct (main_decision_outcomes flat_range) as (_ & _ & Htwo).
  destruct Htwo as (ct & m & Hrun & _); [simpl; lia |].
  exists ct, m. exact Hrun.
Defined.

(** X28.  With a share count that is not infinite, each price ratio of the
    row is missing exactly when one of its three operands (the figure of
    the statements, the share count, the price) is absent or equal to
    zero; for P/FCF the figure is the free cash flow of the row. *)
Theorem compute_row_missing_price_ratios
    (zero_division : float -> result float) (p : period) (r : row) :
  compute_row zero_division p = Ok r ->
  p_shares_outstanding p <> PNum PInf ->
  p_shares_outstanding p <> PNum NInf ->
  let missing (figure : pyval) :=
    truthy figure = false \/ truthy (p_shares_outstanding p) = false
    \/ truthy (p_price p) = false in
  (P_E r = PNone <-> missing (p_net_income p)) /\
  (P_B r = PNone <-> missing (p_equity p)) /\
  (P_S r = PNone <-> missing (p_total_revenue p)) /\
  (P_FCF r = PNone <-> missing (Free_Cash_Flow r)).
Proof.
  intros Hr Hp Hn missing. subst missing. cbv beta.
  destruct (compute_row_inv zero_division p r Hr)
    as (_ & _ & _ & _ & Epe & Epb & Eps & Epfcf & _).
  assert (Hratio : forall x cell,
            (if truthy x && truthy (p_shares_outstanding p)
                && truthy (p_price p)
             then safe_div zero_division (p_price p)
                    (safe_div zero_division x (p_shares_outstanding p))
             else PNone) = cell ->
            (cell = PNone <->
             truthy x = false \/ truthy (p_shares_outstanding p) = false
             \/ truthy (p_price p) = false)).
  { intros x cell E.
    destruct (truthy x) eqn:E1, (truthy (p_shares_outstanding p)) eqn:E2,
             (truthy (p_price p)) eqn:E3; cbn [andb] in E;
      try (rewrite <- E; split; auto; fail).
    destruct (price_ratio_guarded zero_division x _ _ E1 E2 E3 Hp Hn)
      as (a & s & c & _ & _ & _ & Hq).
    rewrite Hq in E. rewrite <- E.
    split; [discriminate | intros [H | [H | H]]; discriminate]. }
  repeat split; try (apply Hratio; assumption);
    try (apply (Hratio _ _ Epe)); try (apply (Hratio _ _ Epb));
    try (apply (Hratio _ _ Eps)); try (apply (Hratio _ _ Epfcf)).
Qed.

Lemma compute_row_missing_price_ratios_witness :
  exists r, compute_row raising debt_free_period = Ok r /\
            P_FCF r = PNone /\ Free_Cash_Flow r = PNone.
Proof.
  destruct (compute_row_total raising debt_free_period) as [r Hr].
  exists r. split; [exact Hr |].
  assert (Hfcf : Free_Cash_Flow r = PNone).
  { assert (E : bind (Ok r) (fun x => Ok (Free_Cash_Flow x)) = Ok PNone)
      by (rewrite <- Hr; reflexivity).
    injection E as E. exact E. }
  split; [| exact Hfcf].
  pose proof (compute_row_missing_price_ratios raising debt_free_period r Hr)
    as H. cbv zeta in H.
  destruct H as (_ & _ & _ & H); try discriminate.
  apply H. left. rewrite Hfcf. reflexivity.
Defined.

End OutcomeRules.

Section StreakRules.

Import stock_analysis Samples.

Local Open Scope Q_scope.

Lemma at_Fin_map (qs : list Q) (i : nat) :
  (i < List.length qs)%nat -> at_ (map Fin qs) i = Fin (nth i qs 0).
Proof.
  intro H. unfold at_.
  rewrite (nth_indep _ NaN (Fin 0)) by now rewrite length_map.
  apply map_nth.
Qed.

(** The difference of two consecutive closes. *)
Lemma at_delta (qs : list Q) (j : nat) :
  (S j < List.length qs)%nat ->
  at_ (delta (map Fin qs)) (S j)
  = Fin (Qred (nth (S j) qs 0 - nth j qs 0)).
Proof.
  intro H. unfold delta, diff. rewrite length_map.
  rewrite at_tabulate by exact H.
  rewrite !at_Fin_map by lia. reflexivity.
Qed.

(** A window whose cells are all numbers is complete. *)
Lemma finite_values_Some (P : Q -> Prop) (l : list float) :
  (forall k, (k < List.length l)%nat ->
             exists q, nth k l NaN = Fin q /\ P q) ->
  exists qs, finite_values l = Some qs /\
             List.length qs = List.length l /\
             forall q, In q qs -> P q.
Proof.
  induction l as [| x rest IH]; intro H.
  - exists []. repeat split. intros q [].
  - destruct (H 0%nat) as (q0 & Hq0 & HP0); [simpl; lia |].
    simpl in Hq0. subst x.
    destruct IH as (qs & Hqs & Hlen & Hall).
    { intros k Hk. apply (H (S k)). simpl. lia. }
    exists (q0 :: qs). cbn [finite_values]. rewrite Hqs.
    split; [reflexivity |]. split; [simpl; now rewrite Hlen |].
    intros q [<- | Hq]; [exact HP0 | now apply Hall].
Qed.

Lemma window_Some (P : Q -> Prop) (w i : nat) (s : list float) :
  (0 < w)%nat -> (w <= i + 1)%nat -> (i < List.length s)%nat ->
  (forall j, (i + 1 - w <= j <= i)%nat ->
             exists q, at_ s j = Fin q /\ P q) ->
  exists qs, window w i s = Some qs /\ qs <> [] /\
             forall q, In q qs -> P q.
Proof.
  intros Hw Hwi Hi H. unfold window.
  destruct (Nat.ltb_spec (i + 1) w) as [L | _]; [lia |].
  assert (Hlen : List.length (firstn w (skipn (i + 1 - w) s)) = w).
  { rewrite length_firstn, length_skipn. lia. }
  destruct (finite_values_Some P (firstn w (skipn (i + 1 - w) s)))
    as (qs & Hqs & Hl & Hall).
  - intros k Hk. rewrite Hlen in Hk. rewrite nth_firstn.
    destruct (Nat.ltb_spec k w) as [_ | L']; [| lia].
    rewrite nth_skipn. apply H. lia.
  - exists qs. split; [exact Hqs |]. split; [| exact Hall].
    intro E. rewrite E, Hlen in Hl. simpl in Hl. lia.
Qed.

Lemma total_pos (qs : list Q) :
  qs <> [] -> (forall q, In q qs -> 0 < q) -> 0 < total qs.
Proof.
  intros Hne H. destruct qs as [| a rest]; [contradiction |].
  cbn [total fold_right]. fold (total rest).
  assert (0 < a) by (apply H; now left).
  assert (0 <= total rest).
  { apply total_nonneg. intros q Hq. apply Qlt_le_weak, H. now right. }
  lra.
Qed.

Lemma mean_pos (qs : list Q) :
  qs <> [] -> (forall q, In q qs -> 0 < q) -> 0 < mean qs.
Proof.
  intros Hne H. rewrite mean_correct.
  apply Qlt_shift_div_l.
  - change 0 with (inject_Z 0). rewrite <- Zlt_Qlt.
    destruct qs; [contradiction | simpl List.length; lia].
  - rewrite Qmult_0_l. now apply total_pos.
Qed.

Lemma mean_zero (qs : list Q) :
  qs <> [] -> (forall q, In q qs -> q == 0) -> mean qs = 0.
Proof.
  intros Hne H.
  destruct (mean_bounds 0 0 qs Hne) as [H1 H2].
  { intros q Hq. rewrite (H q Hq). split; apply Qle_refl. }
  unfold mean in *. transitivity (Qred 0); [| reflexivity].
  apply Qred_complete. rewrite Qred_correct in H1, H2.
  apply Qle_antisym; assumption.
Qed.

(** The rolling average of the gains or of the losses over a window on
    which every difference has the same sign. *)
Lemma streak_averages (qs : list Q) (i : nat) (up : bool) :
  (14 <= i < List.length qs)%nat ->
  (forall j, (i - 14 <= j < i)%nat ->
             if up then nth j qs 0 < nth (S j) qs 0
             else nth (S j) qs 0 < nth j qs 0) ->
  exists moved,
    0 < moved /\
    at_ (avg_gain (map Fin qs)) i = Fin (if up then moved else 0) /\
    at_ (avg_loss (map Fin qs)) i = Fin (if up then 0 else moved).
Proof.
  intros Hi Hstreak.
  assert (Hcell : forall j, (i + 1 - 14 <= j <= i)%nat ->
            exists d, at_ (delta (map Fin qs)) j = Fin d /\
                      if up then 0 < d else d < 0).
  { intros j Hj. destruct j as [| j]; [lia |].
    rewrite at_delta by lia. eexists. split; [reflexivity |].
    assert (Hs := Hstreak j ltac:(lia)).
    destruct up; rewrite Qred_correct; lra. }
  assert (Hlen : List.length (delta (map Fin qs)) = List.length qs).
  { unfold delta. now rewrite diff_length, length_map. }
  assert (Hgain : exists gs, window 14 i (gain (map Fin qs)) = Some gs /\
                             gs <> [] /\
                             forall q, In q gs ->
                               if up then 0 < q else q == 0).
  { apply window_Some; try lia.
    - unfold gain. rewrite length_map, Hlen. lia.
    - intros j Hj. destruct (Hcell j Hj) as (d & Hd & Hsign).
      unfold gain. rewrite at_map by (rewrite Hlen; lia). rewrite Hd.
      unfold clip_lower0. destruct up.
      + assert (E : ltb (Fin d) zero = false).
        { apply ltb_Fin_false. change (inject_Z 0) with 0. lra. }
        rewrite E. eauto.
      + assert (E : ltb (Fin d) zero = true).
        { apply ltb_Fin. change (inject_Z 0) with 0. exact Hsign. }
        rewrite E. exists 0. split; reflexivity. }
  assert (Hloss : exists ls, window 14 i (loss (map Fin qs)) = Some ls /\
                             ls <> [] /\
                             forall q, In q ls ->
                               if up then q == 0 else 0 < q).
  { apply window_Some; try lia.
    - unfold loss. rewrite !length_map, Hlen. lia.
    - intros j Hj. destruct (Hcell j Hj) as (d & Hd & Hsign).
      unfold loss. rewrite map_map.
      rewrite (at_map (fun x => neg (clip_upper0 x)))
        by (rewrite Hlen; lia).
      rewrite Hd. unfold clip_upper0, gtb. destruct up.
      + assert (E : ltb zero (Fin d) = true).
        { apply ltb_Fin. change (inject_Z 0) with 0. exact Hsign. }
        rewrite E. exists 0. split; reflexivity.
      + assert (E : ltb zero (Fin d) = false).
        { apply ltb_Fin_false. change (inject_Z 0) with 0. lra. }
        rewrite E. exists (Qred (- d)). split; [reflexivity |].
        rewrite Qred_correct. lra. }
  destruct Hgain as (gs & Hgw & Hgne & Hg).
  destruct Hloss as (ls & Hlw & Hlne & Hl).
  assert (Hg_at : at_ (avg_gain (map Fin qs)) i = Fin (mean gs)).
  { unfold avg_gain, rolling. rewrite at_tabulate.
    - unfold window_length. now rewrite Hgw.
    - unfold gain. rewrite length_map, Hlen. lia. }
  assert (Hl_at : at_ (avg_loss (map Fin qs)) i = Fin (mean ls)).
  { unfold avg_loss, rolling. rewrite at_tabulate.
    - unfold window_length. now rewrite Hlw.
    - unfold loss. rewrite !length_map, Hlen. lia. }
  destruct up.
  - exists (mean gs). split; [now apply mean_pos |].
    split; [exact Hg_at |]. rewrite Hl_at. f_equal. now apply mean_zero.
  - exists (mean ls). split; [now apply mean_pos |].
    split; [| exact Hl_at]. rewrite Hg_at. f_equal. now apply mean_zero.
Qed.

(** X29.  After fourteen rises in a row the RSI is exactly 100, and after
    fourteen falls in a row it is exactly 0: on a series of numbers, if
    each of the last fourteen closes up to row [i] is above the close
    before it then RSI[i] = 100, and if each is below then RSI[i] = 0. *)
Theorem RSI_streaks (qs : list Q) (i : nat) :
  (14 <= i < List.length qs)%nat ->
  ((forall j, (i - 14 <= j < i)%nat -> nth j qs 0 < nth (S j) qs 0) ->
   at_ (RSI (map Fin qs)) i = Fin 100) /\
  ((forall j, (i - 14 <= j < i)%nat -> nth (S j) qs 0 < nth j qs 0) ->
   at_ (RSI (map Fin qs)) i = Fin 0).
Proof.
  intro Hi.
  assert (Hlen : (i < List.length (map Fin qs))%nat)
    by (rewrite length_map; lia).
  split; intro H.
  - destruct (streak_averages qs i true Hi H) as (g & Hg & Hgain & Hloss).
    rewrite (at_RSI _ i Hlen), Hgain, Hloss.
    rewrite (rsi_no_loss g 0) by reflexivity.
    now rewrite (proj1 (Qgt_alt g 0) Hg).
  - destruct (streak_averages qs i false Hi H) as (l & Hl & Hgain & Hloss).
    rewrite (at_RSI _ i Hlen), Hgain, Hloss.
    assert (Hz : Qeq_bool l 0 = false).
    { destruct (Qeq_bool l 0) eqn:E; [| reflexivity].
      apply Qeq_bool_iff in E. lra. }
    unfold div at 2. rewrite Hz. unfold fin.
    assert (E : Qred (0 / l) = 0).
    { transitivity (Qred 0); [| reflexivity].
      apply Qred_complete. unfold Qdiv. ring. }
    rewrite E. reflexivity.
Qed.

Lemma RSI_streaks_witness :
  at_ (RSI (map Fin [16; 15; 14; 13; 12; 11; 10; 9; 8; 7; 6; 5; 4; 3; 2])) 14
  = Fin 0.
Proof.
  apply (RSI_streaks [16; 15; 14; 13; 12; 11; 10; 9; 8; 7; 6; 5; 4; 3; 2] 14).
  - simpl. lia.
  - intros j Hj.
    do 14 (destruct j as [| j]; [reflexivity |]). lia.
Defined.

End StreakRules.
